(** * AdminWebServer: the coordination layer of the contest administration
    front end (cms/server/AdminWebServer.py).

    The development embeds, function by function, the parts of the module
    that issue and join asynchronous store calls, gate browser-originated
    RPCs and queue notifications for the polling client:

    - [AdminWebServer.authorized_rpc] and [AdminWebServer.add_notification];
    - [AddStatementHandler.post] / [storage_callback];
    - [AddTestcaseHandler.post] / [storage_callback];
    - [NotificationsHandler.get];

    and, of the handlers that edit the contest data,
    [BaseHandler.get_non_negative_int] and [retrieve_contest],
    [AddContestHandler.post], [AddAttachmentHandler] and
    [AddManagerHandler], [AddUserHandler.post], [UserViewHandler.post] and
    [QuestionReplyHandler.post].

    Handlers are Python methods that mutate the handler object, the shared
    service object and the SQL session, and may raise.  They are written
    here in a state-and-exception monad over one [World] record.

    Two things the web framework does for every handler are part of the
    embedding, because the handlers' behaviour depends on them:
    [get_argument] hands over the submitted text after the framework's
    clean-up, and [redirect] finishes the request, which through
    [BaseHandler.finish] closes the handler's SQL session. *)

From stdpp Require Import base numbers strings list gmap pretty.
From Stdlib Require Import QArith.

Open Scope Z_scope.
Open Scope string_scope.
Open Scope list_scope.

(** ** Python values *)

(** A Python [float]: a finite value, represented by the rational it
    denotes, an infinity or a NaN. *)
Inductive pyfloat : Type :=
  | Finite (q : Q)
  | PosInf
  | NegInf
  | NaN.

(** Numbers handed around as timestamps: Python keeps [int] and [float]
    apart, and [time.time()] always yields a [float]. *)
Inductive pynum : Type :=
  | PyInt (z : Z)
  | PyFloat (f : pyfloat).

(** [n > x] for an integer [n] and a float [x]. *)
Definition int_gt_float (n : Z) (x : pyfloat) : bool :=
  match x with
  | Finite q => negb (Qle_bool (inject_Z n) q)
  | PosInf => false
  | NegInf => true
  | NaN => false
  end.

Definition is_int (x : pynum) : bool :=
  match x with
  | PyInt _ => true
  | PyFloat _ => false
  end.

(** [s.endswith(suffix)]. *)
Fixpoint endswith (s suffix : string) : bool :=
  if String.eqb s suffix then true
  else match s with
       | EmptyString => false
       | String _ s' => endswith s' suffix
       end.

(** [RequestHandler.get_argument] belongs to the web framework.  Before
    the handler sees a submitted text the framework cleans it up: control
    characters are blanked and, [strip=True] being the default that no call
    in this module overrides, whitespace is removed from both ends.  The
    clean-up is a parameter of the embedding. *)
Class Strip : Type := strip : string → string.

(** Exceptions the embedded code can raise.  [Exception] is what the web
    framework raises on a misuse of a request, [DetachedInstanceError] what
    the database layer raises for an object whose session is closed. *)
Inductive exn : Type :=
  | HTTPError (code : Z)
  | KeyError (key : option string)
  | IndexError
  | AttributeError
  | ValueError
  | OverflowError
  | Exception (message : string)
  | DetachedInstanceError.

Inductive outcome (A : Type) : Type :=
  | Ok (a : A)
  | Raise (e : exn).
Arguments Ok {A} a.
Arguments Raise {A} e.

(** ** Data model *)

(** Modelled from the spec: [ServiceCoord] is declared in [cms.async], not in
    this module.  A coordinate is the immutable pair of a service name and
    an integer shard index, and two coordinates are equal when both
    components are. *)
Record ServiceCoord : Type := mkServiceCoord {
  name : string;
  shard : Z
}.

#[global] Instance ServiceCoord_eq_dec : EqDecision ServiceCoord.
Proof. solve_decision. Defined.

(** A notification is the tuple [(timestamp, subject, text)]. *)
Definition Notification : Type := pynum * string * string.

(** One [put_file] request handed to the file-storage channel. *)
Record PutFile : Type := mkPutFile {
  pf_plus : string;
  pf_binary_data : string;
  pf_description : string
}.

(** Modelled from the spec: the channel to the file-storage service is
    declared outside this module.  Issuing a call either fails at once or
    leaves the call pending, its completion reported later to the callback.
    Seen from the caller, [fs_replies] is what the coming [put_file] calls
    will return at issue time ([false] = the call could not be sent; an
    exhausted list means the channel accepts) and [fs_sent] holds the
    requests that were accepted. *)
Record FileStorage : Type := mkFileStorage {
  fs_replies : list bool;
  fs_sent : list PutFile
}.

(** The service object: the pending notifications, one connection per
    configured ResourceService shard, and the file-storage channel. *)
Record AdminWebServer : Type := mkAdminWebServer {
  notifications : list Notification;
  RS : list ServiceCoord;
  FS : FileStorage
}.

(** *** The authorization gate *)

Section Gate.
Context {V : Type}.

(** [AdminWebServer.authorized_rpc(self, service, method, arguments)].
    An [if] whose inner chain has no [else] falls through to the next
    test, down to the final [return False]. *)
Definition authorized_rpc (self : AdminWebServer) (service : ServiceCoord)
    (method : string) (arguments : gmap string V) : bool :=
  if (if decide (service = mkServiceCoord "EvaluationService" 0) then
        if String.eqb method "submissions_status" then true
        else if String.eqb method "queue_status" then true
        else if String.eqb method "workers_status" then true
        else false
      else false)
  then true
  else if (if decide (service = mkServiceCoord "LogService" 0) then
             if String.eqb method "last_messages" then true
             else false
           else false)
  then true
  else if (if String.eqb (name service) "ResourceService" then
             if String.eqb method "get_resources" then true
             else if String.eqb method "kill_service" then true
             else false
           else false)
  then true
  else (* Default fallback: don't authorize. *)
    false.
End Gate.

(** The allow-list as a table, the way the interface description words it:
    an entry names a service, the shards it covers and a method. *)
Inductive shards : Type :=
  | OnlyShard (s : Z)
  | EveryShard.

Definition allow_list : list (string * shards * string) :=
  [ ("EvaluationService", OnlyShard 0, "submissions_status");
    ("EvaluationService", OnlyShard 0, "queue_status");
    ("EvaluationService", OnlyShard 0, "workers_status");
    ("LogService", OnlyShard 0, "last_messages");
    ("ResourceService", EveryShard, "get_resources");
    ("ResourceService", EveryShard, "kill_service") ].

Definition covers (sh : shards) (s : Z) : bool :=
  match sh with
  | OnlyShard s0 => Z.eqb s s0
  | EveryShard => true
  end.

Definition entry_matches (service : ServiceCoord) (method : string)
    (e : string * shards * string) : bool :=
  let '(n, sh, m) := e in
  String.eqb (name service) n && covers sh (shard service) && String.eqb method m.

Definition allow_listed (service : ServiceCoord) (method : string) : bool :=
  existsb (entry_matches service method) allow_list.

(** *** Persistent entities and the SQL session *)

(** The entity classes and the session come from [cms.db.SQLAlchemyAll];
    the records below keep what the handlers read and write at their call
    sites.

    [Testcase(input, output, num, public, task)], fields in constructor
    order; [tc_task] is the id of the task object passed last. *)
Record Testcase : Type := mkTestcase {
  tc_input : option string;
  tc_output : option string;
  tc_num : nat;
  tc_public : bool;
  tc_task : Z
}.

Record Task : Type := mkTask {
  task_name : string;
  task_statement : option string;
  task_testcases : list Testcase;
  task_contest : Z
}.

Record Question : Type := mkQuestion {
  question_timestamp : Z;
  q_subject : string;
  q_text : string;
  reply_timestamp : option Z
}.

(** The session as the handlers use it: the task and question tables it
    reads (a task object is shared with its row, so a handler holds the
    row's id and attribute writes go to [tasks]), and the log of the
    [add] and [commit] calls it receives. *)
Record Session : Type := mkSession {
  tasks : gmap Z Task;
  questions : list Question;
  added : list Testcase;
  commits : nat
}.

(** *** Requests, responses and the handler object *)

Record UploadedFile : Type := mkUploadedFile {
  filename : string;
  body : string
}.

Record Request : Type := mkRequest {
  files : gmap string (list UploadedFile);
  arguments : gmap string string
}.

(** An entry of the list the polling client receives: a dict with the keys
    ["type"], ["timestamp"], ["subject"] and ["text"]. *)
Record Entry : Type := mkEntry {
  e_type : string;
  e_timestamp : pynum;
  e_subject : string;
  e_text : string
}.

(** What a handler sends back: [self.redirect(url)], or [self.write] of the
    serialised list of entries (kept unserialised here). *)
Inductive Response : Type :=
  | Redirect (url : string)
  | Write (res : list Entry).

(** The attributes a handler object carries between [post] and its
    callbacks. *)
Record Handler : Type := mkHandler {
  request : Request;
  task : option Z;
  contest : option Z;
  statement : option UploadedFile;
  input : option UploadedFile;
  output : option UploadedFile;
  public : bool;
  successful_calls : gmap (option string) (option string);
  responses : list Response
}.

Definition new_handler (r : Request) : Handler :=
  mkHandler r None None None None None false ∅ [].

(** [self.redirect(url)] ends with [self.finish()], so a request is
    finished once it has been redirected.  [BaseHandler.finish] is

      self.sql_session.close()
      tornado.web.RequestHandler.finish(self, *args, **kwds)

    so from then on the handler's SQL session is closed as well. *)
Definition is_redirect (r : Response) : bool :=
  match r with
  | Redirect _ => true
  | Write _ => false
  end.

Definition finished (h : Handler) : bool := existsb is_redirect (responses h).

(** Everything a handler can touch: the shared service object, the SQL
    session, the handler itself and the reading of the clock. *)
Record World : Type := mkWorld {
  service : AdminWebServer;
  sql_session : Session;
  self : Handler;
  clock : Q
}.

(** ** The handler monad: state over [World], with exceptions *)

Definition Py (A : Type) : Type := World → outcome A * World.

#[global] Instance Py_ret : MRet Py := λ A a w, (Ok a, w).
#[global] Instance Py_bind : MBind Py := λ A B f m w,
  match m w with
  | (Ok a, w') => f a w'
  | (Raise e, w') => (Raise e, w')
  end.

Definition raise {A : Type} (e : exn) : Py A := λ w, (Raise e, w).
Definition gets {A : Type} (f : World → A) : Py A := λ w, (Ok (f w), w).
Definition modify (f : World → World) : Py unit := λ w, (Ok tt, f w).

Notation "m ;; k" := (mbind (λ _ : unit, k) m)
  (at level 100, k at level 200, right associativity, only parsing) : stdpp_scope.

Definition exec {A : Type} (m : Py A) (w : World) : World := snd (m w).
Definition result {A : Type} (m : Py A) (w : World) : outcome A := fst (m w).

(** Field updates. *)
Definition with_service (f : AdminWebServer → AdminWebServer) (w : World) : World :=
  mkWorld (f (service w)) (sql_session w) (self w) (clock w).
Definition with_session (f : Session → Session) (w : World) : World :=
  mkWorld (service w) (f (sql_session w)) (self w) (clock w).
Definition with_self (f : Handler → Handler) (w : World) : World :=
  mkWorld (service w) (sql_session w) (f (self w)) (clock w).

Definition set_notifications (l : list Notification) (s : AdminWebServer) : AdminWebServer :=
  mkAdminWebServer l (RS s) (FS s).
Definition set_FS (fs : FileStorage) (s : AdminWebServer) : AdminWebServer :=
  mkAdminWebServer (notifications s) (RS s) fs.

Definition set_task (t : option Z) (h : Handler) : Handler :=
  mkHandler (request h) t (contest h) (statement h) (input h) (output h)
            (public h) (successful_calls h) (responses h).
Definition set_contest (c : option Z) (h : Handler) : Handler :=
  mkHandler (request h) (task h) c (statement h) (input h) (output h)
            (public h) (successful_calls h) (responses h).
Definition set_statement (f : option UploadedFile) (h : Handler) : Handler :=
  mkHandler (request h) (task h) (contest h) f (input h) (output h)
            (public h) (successful_calls h) (responses h).
Definition set_input (f : option UploadedFile) (h : Handler) : Handler :=
  mkHandler (request h) (task h) (contest h) (statement h) f (output h)
            (public h) (successful_calls h) (responses h).
Definition set_output (f : option UploadedFile) (h : Handler) : Handler :=
  mkHandler (request h) (task h) (contest h) (statement h) (input h) f
            (public h) (successful_calls h) (responses h).
Definition set_public (b : bool) (h : Handler) : Handler :=
  mkHandler (request h) (task h) (contest h) (statement h) (input h) (output h)
            b (successful_calls h) (responses h).
Definition set_successful_calls (m : gmap (option string) (option string))
    (h : Handler) : Handler :=
  mkHandler (request h) (task h) (contest h) (statement h) (input h) (output h)
            (public h) m (responses h).
Definition push_response (r : Response) (h : Handler) : Handler :=
  mkHandler (request h) (task h) (contest h) (statement h) (input h) (output h)
            (public h) (successful_calls h) (responses h ++ [r]).

(** Nothing to do. *)
Definition pass : Py unit := mret tt.

(** ** Primitives of the environment *)

(** [time.time()]: the clock reading, a finite float. *)
Definition time_time : Py pynum := gets (λ w, PyFloat (Finite (clock w))).

(** [int(x)]: the identity on an int, truncation towards zero on a finite
    float; an infinity or a NaN raises. *)
Definition int (x : pynum) : Py pynum :=
  match x with
  | PyInt z => mret (PyInt z)
  | PyFloat (Finite q) => mret (PyInt (Z.quot (Qnum q) (Zpos (Qden q))))
  | PyFloat NaN => raise ValueError
  | PyFloat _ => raise OverflowError
  end.

(** [self.redirect(url)]: the response is sent and the request finished.
    The framework refuses to redirect a request a second time: the call
    raises, and nothing is sent. *)
Definition redirect (url : string) : Py unit :=
  sent ← gets (λ w, finished (self w));
  if (sent : bool)
  then raise (Exception "Cannot redirect after headers have been written")
  else modify (with_self (push_response (Redirect url))).

(** [self.write(...)]: recorded in order.  No handler embedded here writes
    after a redirect. *)
Definition write (res : list Entry) : Py unit :=
  modify (with_self (push_response (Write res))).

(** [self.get_argument(name, default)]: the submitted value after the
    framework's clean-up, or [default], as it is, when the argument was
    not submitted. *)
Definition get_argument `{!Strip} (arg : string) (default : option string)
    : Py (option string) :=
  gets (λ w, match arguments (request (self w)) !! arg with
             | Some v => Some (strip v)
             | None => default
             end).

(** [self.request.files[field][0]]. *)
Definition request_file (field : string) : Py UploadedFile :=
  fs ← gets (λ w, files (request (self w)) !! field);
  match fs with
  | None => raise (KeyError (Some field))
  | Some [] => raise IndexError
  | Some (f :: _) => mret f
  end.

(** [Task.get_from_id(task_id, self.sql_session)]: the row's id when the
    task exists, [None] otherwise. *)
Definition Task_get_from_id (task_id : Z) : Py (option Z) :=
  gets (λ w, match tasks (sql_session w) !! task_id with
             | Some _ => Some task_id
             | None => None
             end).

(** [self.task] dereferenced: the id and the row it stands for. *)
Definition self_task : Py (Z * Task) :=
  t ← gets (λ w, task (self w));
  match t with
  | None => raise AttributeError
  | Some i =>
      row ← gets (λ w, tasks (sql_session w) !! i);
      match row with
      | None => raise AttributeError
      | Some r => mret (i, r)
      end
  end.

(** The session serves the handler until [finish] closes it.  After that
    the objects loaded through it are detached, and what the handler then
    asks of the session raises: nothing reaches the database any more. *)
Definition open_session : Py unit :=
  closed ← gets (λ w, finished (self w));
  if (closed : bool) then raise DetachedInstanceError else pass.

(** [self.sql_session.add(obj)] and [self.sql_session.commit()]. *)
Definition sql_add (t : Testcase) : Py unit :=
  open_session;;
  modify (with_session (λ s,
    mkSession (tasks s) (questions s) (added s ++ [t]) (commits s))).
Definition sql_commit : Py unit :=
  open_session;;
  modify (with_session (λ s,
    mkSession (tasks s) (questions s) (added s) (S (commits s)))).

(** [FS.put_file(callback=..., plus=..., binary_data=..., description=...,
    bind_obj=self)]: [False] when the call cannot be sent, otherwise the
    request is in flight and its callback will run later. *)
Definition put_file (plus binary_data description : string) : Py bool :=
  fs ← gets (λ w, FS (service w));
  match fs_replies fs with
  | false :: rest =>
      modify (with_service (set_FS (mkFileStorage rest (fs_sent fs))));;
      mret false
  | replies =>
      modify (with_service (set_FS
        (mkFileStorage (tail replies)
                       (fs_sent fs ++ [mkPutFile plus binary_data description]))));;
      mret true
  end.

(** ** AdminWebServer.add_notification *)

(** [self.notifications.append((timestamp, subject, text))]. *)
Definition add_notification (timestamp : pynum) (subject text : string)
    (s : AdminWebServer) : AdminWebServer :=
  set_notifications (notifications s ++ [(timestamp, subject, text)]) s.

Definition service_add_notification (timestamp : pynum) (subject text : string)
    : Py unit :=
  modify (with_service (add_notification timestamp subject text)).

(** Writing [self.task.statement = data] goes to the shared row. *)
Definition set_task_statement (i : Z) (data : option string) : Py unit :=
  modify (with_session (λ s,
    mkSession
      (alter (λ r, mkTask (task_name r) data (task_testcases r) (task_contest r))
             i (tasks s))
      (questions s) (added s) (commits s))).

(** ** AddStatementHandler *)

(** [AddStatementHandler.storage_callback(self, data, plus, error=None)].
    The decorator [rpc_callback] is declared outside this module and is
    taken to hand the three arguments on unchanged. *)
Definition AddStatementHandler_storage_callback
    (data plus error : option string) : Py unit :=
  match error with
  | None =>
      t ← self_task;
      set_task_statement t.1 data;;
      sql_commit;;
      redirect ("/task/" +:+ pretty t.1)
  | Some err =>
      now ← time_time;
      service_add_notification now "Task statement storage failed" err;;
      t ← self_task;
      redirect ("/add_statement/" +:+ pretty t.1)
  end.

(** [AddStatementHandler.post(self, task_id)]. *)
Definition AddStatementHandler_post (task_id : Z) : Py unit :=
  t ← Task_get_from_id task_id;
  modify (with_self (set_task t));;
  match t with
  | None => raise (HTTPError 404)
  | Some _ =>
      t ← self_task;
      modify (with_self (set_contest (Some (task_contest t.2))));;
      f ← request_file "statement";
      modify (with_self (set_statement (Some f)));;
      if negb (endswith (filename f) ".pdf") then
        now ← time_time;
        service_add_notification now "Invalid task statement"
          "The task statement must be a .pdf file.";;
        redirect ("/add_statement/" +:+ pretty t.1)
      else
        sent ← put_file (filename f) (body f)
                 ("Task statement for " +:+ task_name t.2);
        if (sent : bool) then pass
        else AddStatementHandler_storage_callback None None
               (Some "Connection failed.")
  end.

(** ** AddTestcaseHandler *)

(** [self.successful_calls[key]]. *)
Definition successful_call (key : string) : Py (option string) :=
  calls ← gets (λ w, successful_calls (self w));
  match calls !! Some key with
  | Some v => mret v
  | None => raise (KeyError (Some key))
  end.

(** [AddTestcaseHandler.storage_callback(self, data, plus, error=None)]. *)
Definition AddTestcaseHandler_storage_callback
    (data plus error : option string) : Py unit :=
  match error with
  | None =>
      modify (with_self (λ h,
        set_successful_calls (<[plus := data]> (successful_calls h)) h));;
      calls ← gets (λ w, successful_calls (self w));
      if decide (2 ≤ size calls)%nat then
        i ← successful_call "input";
        o ← successful_call "output";
        t ← self_task;
        p ← gets (λ w, public (self w));
        sql_add (mkTestcase i o (length (task_testcases t.2)) p t.1);;
        sql_commit;;
        redirect ("/task/" +:+ pretty t.1)
      else pass
  | Some err =>
      now ← time_time;
      service_add_notification now "Testcase storage failed" err;;
      t ← self_task;
      redirect ("/add_testcase/" +:+ pretty t.1)
  end.

(** [AddTestcaseHandler.post(self, task_id)]. *)
Definition AddTestcaseHandler_post `{!Strip} (task_id : Z) : Py unit :=
  t ← Task_get_from_id task_id;
  modify (with_self (set_task t));;
  match t with
  | None => raise (HTTPError 404)
  | Some _ =>
      t ← self_task;
      modify (with_self (set_contest (Some (task_contest t.2))));;
      fi ← request_file "input";
      modify (with_self (set_input (Some fi)));;
      fo ← request_file "output";
      modify (with_self (set_output (Some fo)));;
      pub ← get_argument "public" None;
      modify (with_self (set_public (bool_decide (pub ≠ None))));;
      modify (with_self (set_successful_calls ∅));;
      sent_in ← put_file "input" (body fi)
                  ("Testcase input for task " +:+ task_name t.2);
      (if (sent_in : bool) then pass
       else AddTestcaseHandler_storage_callback None None
              (Some "Connection failed."));;
      sent_out ← put_file "output" (body fo)
                   ("Testcase output for task " +:+ task_name t.2);
      if (sent_out : bool) then pass
      else AddTestcaseHandler_storage_callback None None
             (Some "Connection failed.")
  end.

(** ** NotificationsHandler *)

Definition question_entry (q : Question) : Entry :=
  mkEntry "new_question" (PyInt (question_timestamp q)) (q_subject q) (q_text q).

Definition notification_entry (n : Notification) : Entry :=
  let '(ts, subject, text) := n in mkEntry "notification" ts subject text.

(** The query of [NotificationsHandler.get]: the questions without a reply
    whose timestamp is greater than [last_notification]. *)
Definition unanswered_since (last_notification : pyfloat) (qs : list Question)
    : list Question :=
  List.filter (λ q, bool_decide (reply_timestamp q = None)
                    && int_gt_float (question_timestamp q) last_notification) qs.

Section Polling.
Context `{!Strip}.
(** The builtin [float(s)] on a request argument: the number read, or
    [None] where Python raises [ValueError]. *)
Variable float : string → option pyfloat.

(** [NotificationsHandler.get(self)]. *)
Definition NotificationsHandler_get : Py unit :=
  now ← time_time;
  timestamp ← int now;
  arg ← get_argument "last_notification" (Some "0");
  match arg ≫= float with
  | None => raise ValueError
  | Some last_notification =>
      qs ← gets (λ w, unanswered_since last_notification
                        (questions (sql_session w)));
      pending ← gets (λ w, notifications (service w));
      let res := ((question_entry <$> (qs : list Question))
                  ++ (notification_entry <$> (pending : list Notification)))%list in
      modify (with_service (set_notifications []));;
      write res
  end.
End Polling.

(** What the last [self.write] of a handler sent, and the entries of type
    ["notification"] and of the other types in it. *)
Definition written (w : World) : list Entry :=
  match last (responses (self w)) with
  | Some (Write res) => res
  | _ => []
  end.

Definition is_notification (e : Entry) : bool := String.eqb (e_type e) "notification".

Definition drained (w : World) : list Entry :=
  List.filter is_notification (written w).

Definition computed (w : World) : list Entry :=
  List.filter (λ e, negb (is_notification e)) (written w).

(** The string [get] reads [last_notification] from. *)
Definition since_argument `{!Strip} (r : Request) : string :=
  default "0" (strip <$> arguments r !! "last_notification").

(** Several [add_notification] calls in a row. *)
Definition add_all (ns : list Notification) (s : AdminWebServer) : AdminWebServer :=
  foldl (λ s n, add_notification n.1.1 n.1.2 n.2 s) s ns.

(** A new request arrives: a fresh handler object is bound to it. *)
Definition fresh (r : Request) (w : World) : World :=
  with_self (λ _, new_handler r) w.

(** A reader of unsigned decimal integers.  [float] accepts such strings
    with this value; it stands in for the builtin where a concrete reader
    is needed. *)
Definition digit (c : Ascii.ascii) : option Z :=
  let n := Z.of_N (Ascii.N_of_ascii c) - 48 in
  if ((0 <=? n) && (n <=? 9))%Z then Some n else None.

Fixpoint digits (acc : Z) (s : string) : option Z :=
  match s with
  | EmptyString => Some acc
  | String c s' =>
      match digit c with
      | Some d => digits (10 * acc + d) s'
      | None => None
      end
  end.

Definition float_digits (s : string) : option pyfloat :=
  match s with
  | EmptyString => None
  | _ => (λ z, Finite (inject_Z z)) <$> digits 0 s
  end.

(** Removal of the blanks (space, tab, line feed, vertical tab, form feed,
    carriage return) at both ends of a text.  On printable text this is the
    framework's clean-up; it stands in for it where a concrete one is
    needed. *)
Definition is_space (c : Ascii.ascii) : bool :=
  let n := Z.of_N (Ascii.N_of_ascii c) in
  ((9 <=? n) && (n <=? 13))%Z || (n =? 32)%Z.

Fixpoint lstrip (s : string) : string :=
  match s with
  | EmptyString => EmptyString
  | String c s' => if is_space c then lstrip s' else s
  end.

Fixpoint rstrip (s : string) : string :=
  match s with
  | EmptyString => EmptyString
  | String c s' =>
      match rstrip s' with
      | EmptyString => if is_space c then EmptyString else String c EmptyString
      | t => String c t
      end
  end.

Definition strip_blanks : Strip := λ s, rstrip (lstrip s).

(** ** Sessions of a multi-part upload *)

(** What the channel reports for one tagged store call: the content
    identifier on success, an error description otherwise. *)
Inductive report : Type :=
  | reportSuccess (tag id : string)
  | reportFailure (tag error : string).

(** The completion callback as the channel invokes it for a report. *)
Definition deliver (r : report) : Py unit :=
  match r with
  | reportSuccess tag id =>
      AddTestcaseHandler_storage_callback (Some id) (Some tag) None
  | reportFailure tag error =>
      AddTestcaseHandler_storage_callback None (Some tag) (Some error)
  end.

(** A sequence of reports, delivered one callback at a time.  Each callback
    is a separate invocation by the channel: what one of them raises does
    not keep the next from running on the state it left. *)
Definition run_reports (rs : list report) (w : World) : World :=
  foldl (λ w r, exec (deliver r) w) w rs.

(** ** A sample deployment *)

Definition sample_task : Task := mkTask "sum" None [] 7.

Definition sample_request : Request :=
  mkRequest
    {[ "input" := [mkUploadedFile "sum.in" "1 2"];
       "output" := [mkUploadedFile "sum.out" "3"];
       "statement" := [mkUploadedFile "sum.pdf" "%PDF-1.4"] ]}
    ∅.

(** The same upload form with a statement that is not a PDF. *)
Definition text_statement_request : Request :=
  mkRequest {[ "statement" := [mkUploadedFile "sum.txt" "Add two numbers."] ]} ∅.

(** A poll that passes [last_notification]. *)
Definition poll_request (since : string) : Request :=
  mkRequest ∅ {[ "last_notification" := since ]}.

Definition sample_world (replies : list bool) : World :=
  mkWorld
    (mkAdminWebServer [] [mkServiceCoord "ResourceService" 0]
                      (mkFileStorage replies []))
    (mkSession {[ 3 := sample_task ]} [] [] 0)
    (new_handler sample_request)
    (2600000001 # 2).

(** ** Vocabulary of the statements *)

(** The issue-time replies the next [n] [put_file] calls will get are all
    acceptances. *)
Definition accepts (n : nat) (replies : list bool) : bool :=
  forallb id (take n replies).

(** How many of the next [n] [put_file] calls are refused at issue time. *)
Definition refused (n : nat) (replies : list bool) : nat :=
  length (List.filter negb (take n replies)).

(** Delivering [first] and then [second] to a session opened at [w1] (from
    the state [w0] of the request) leaves the session untouched after the
    first report and adds exactly the testcase [tc], with one commit and no
    notification, at the second; [calls] is the mapping held at that point. *)
Definition fires_once_at_second (w0 w1 : World) (first second : report)
    (tc : Testcase) (calls : gmap (option string) (option string)) : Prop :=
  let w2 := exec (deliver first) w1 in
  let w3 := exec (deliver second) w2 in
  result (deliver first) w1 = Ok tt
  ∧ added (sql_session w2) = added (sql_session w0)
  ∧ commits (sql_session w2) = commits (sql_session w0)
  ∧ result (deliver second) w2 = Ok tt
  ∧ successful_calls (self w3) = calls
  ∧ added (sql_session w3) = added (sql_session w0) ++ [tc]
  ∧ commits (sql_session w3) = S (commits (sql_session w0))
  ∧ notifications (service w3) = notifications (service w0).

(** The call raised. *)
Definition raises {A : Type} (r : outcome A) : bool :=
  match r with
  | Ok _ => false
  | Raise _ => true
  end.

Definition is_failure (r : report) : bool :=
  match r with
  | reportSuccess _ _ => false
  | reportFailure _ _ => true
  end.

Definition count_failures (rs : list report) : nat :=
  length (List.filter is_failure rs).

(** A sample queue and question table. *)

(** A poll without arguments. *)
Definition plain_poll : Request := mkRequest ∅ ∅.

Definition sample_questions : list Question :=
  [ mkQuestion 10 "Limits" "Is n positive?" None;
    mkQuestion 20 "Output" "Is a trailing newline fine?" (Some 25);
    mkQuestion 2000 "Scoring" "Is there partial credit?" None ].

Definition polling_world (ns : list Notification) (r : Request) : World :=
  mkWorld (mkAdminWebServer ns [] (mkFileStorage [] []))
          (mkSession ∅ sample_questions [] 0)
          (new_handler r)
          (2600000001 # 2).

(** The form carries an uploaded file in [field]. *)
Definition has_upload (field : string) (r : Request) : bool :=
  match files r !! field with
  | Some (_ :: _) => true
  | _ => false
  end.

(** The testcase form of [sample_request] with its [public] box ticked: the
    field is present, with an empty value. *)
Definition public_testcase_request : Request :=
  mkRequest (files sample_request) {[ "public" := "" ]}.

(** The results a session holds were all reported: every entry sits under a
    tag and carries a content identifier that some success report of [seen]
    brought. *)
Definition reported (seen : list report)
    (calls : gmap (option string) (option string)) : Prop :=
  ∀ k v, calls !! k = Some v →
         ∃ tag d, k = Some tag ∧ v = Some d ∧ reportSuccess tag d ∈ seen.

(** A testcase built from what the reports of [rs] brought: its input is a
    content identifier reported for ["input"], its output one reported for
    ["output"]. *)
Definition from_reports (rs : list report) (tc : Testcase) : Prop :=
  ∃ d1 d2, tc_input tc = Some d1 ∧ tc_output tc = Some d2
           ∧ reportSuccess "input" d1 ∈ rs ∧ reportSuccess "output" d2 ∈ rs.

(** Some report of [rs] is a success for [tag]. *)
Definition reports_success_for (tag : string) (rs : list report) : bool :=
  existsb (λ r, match r with
                | reportSuccess t _ => String.eqb t tag
                | reportFailure _ _ => false
                end) rs.

(** ** Form fields holding numbers *)

Section Arguments.
Context `{!Strip}.
(** The builtin [int(s)] on a string, [None] where it raises, and
    [repr(default)] for a default that is [None] or an integer. *)
Variable int_of_string : string → option Z.
Variable repr : option Z → string.

(** [BaseHandler.get_non_negative_int(self, argument_name, default,
    allow_empty=True)].  The text of the two [ValueError]s is not kept. *)
Definition get_non_negative_int (argument_name : string) (default : option Z)
    (allow_empty : bool) : Py (option Z) :=
  argument ← get_argument argument_name (Some (repr default));
  if allow_empty
     && (bool_decide (argument = None)
         || bool_decide (argument = Some "")
         || bool_decide (argument = Some "None"))
  then mret None
  else
    match argument ≫= int_of_string with
    | None => raise ValueError
    | Some n => if (n <? 0)%Z then raise ValueError else mret (Some n)
    end.
End Arguments.

(** A reader of decimal integers with an optional minus sign, and the
    [repr] of [None] and of integers: they stand in for the builtins where
    concrete ones are needed. *)
Definition int_digits (s : string) : option Z :=
  match s with
  | EmptyString => None
  | String c s' =>
      if Ascii.eqb c (Ascii.ascii_of_nat 45) then
        match s' with
        | EmptyString => None
        | _ => Z.opp <$> digits 0 s'
        end
      else digits 0 s
  end.

Definition repr_int (x : option Z) : string :=
  match x with
  | None => "None"
  | Some z => pretty z
  end.

(** ** Contests, replies to questions and plain pages *)

(** [Contest(name, description, [], [], token_initial, token_max,
    token_total, token_min_interval, token_gen_time, token_gen_number,
    start, stop)]: the fields in constructor order, without the two empty
    lists (tasks and users). *)
Record Contest : Type := mkContest {
  contest_name : string;
  contest_description : option string;
  token_initial : option Z;
  token_max : option Z;
  token_total : option Z;
  token_min_interval : option Z;
  token_gen_time : option Z;
  token_gen_number : option Z;
  contest_start : Q;
  contest_stop : Q
}.

(** The six token fields, as read from a form. *)
Record Tokens : Type := mkTokens {
  tk_initial : option Z;
  tk_max : option Z;
  tk_total : option Z;
  tk_min_interval : option Z;
  tk_gen_time : option Z;
  tk_gen_number : option Z
}.

(** What [self.write] sends when it is given text: a string, or a string
    that ends in the [repr] of an exception. *)
Inductive Page : Type :=
  | Text (s : string)
  | TextWithError (s : string) (e : exn).

(** [User(real_name, username, password=..., ip=..., hidden=...,
    contest=...)]: a user as the handlers see one, with the id of its row. *)
Record User : Type := mkUser {
  user_id : Z;
  real_name : string;
  username : string;
  password : string;
  ip : string;
  hidden : bool
}.

(** An [Attachment(digest, filename, task)] or a [Manager(digest, filename,
    task)] handed to [sql_session.add]. *)
Inductive StoredFile : Type :=
  | Attachment (digest : option string) (file_name : string) (task_id : Z)
  | Manager (digest : option string) (file_name : string) (task_id : Z).

(** The ids of the contests that exist, the user table (each row with the
    id of the contest it belongs to, in insertion order), the id the
    database gives the next user, the upload an attachment or manager
    handler keeps in [self.attachment] or [self.manager], and the files
    handed to the session. *)
Record Registry : Type := mkRegistry {
  contest_ids : gset Z;
  user_rows : list (Z * User);
  next_user_id : Z;
  attachment : option UploadedFile;
  manager : option UploadedFile;
  added_files : list StoredFile
}.

Definition empty_registry : Registry := mkRegistry ∅ [] 1 None None [].

(** [contest.users]: the users whose row names the contest. *)
Definition users_of (contest_id : Z) (rows : list (Z * User)) : list User :=
  snd <$> List.filter (λ r, Z.eqb r.1 contest_id) rows.

(** The world, with what the contest, question, user and file handlers
    touch besides: the contests handed to [sql_session.add], the id the
    database gives the next contest, the text written to the page, the
    reply columns of the question table (a question's id is its position in
    [questions]), and the registry. *)
Record Site : Type := mkSite {
  world : World;
  added_contests : list Contest;
  next_contest_id : Z;
  page : list Page;
  reply_subject : gmap nat string;
  reply_text : gmap nat string;
  registry : Registry
}.

Definition PyS (A : Type) : Type := Site → outcome A * Site.

#[global] Instance PyS_ret : MRet PyS := λ A a s, (Ok a, s).
#[global] Instance PyS_bind : MBind PyS := λ A B f m s,
  match m s with
  | (Ok a, s') => f a s'
  | (Raise e, s') => (Raise e, s')
  end.

(** A handler step that only touches the world. *)
Definition lift {A : Type} (m : Py A) : PyS A := λ s,
  let '(r, w') := m (world s) in
  (r, mkSite w' (added_contests s) (next_contest_id s) (page s)
             (reply_subject s) (reply_text s) (registry s)).

(** [try: body except Exception as e: handler(e)]. *)
Definition try_except {A : Type} (body : PyS A) (handler : exn → PyS A) : PyS A :=
  λ s, match body s with
       | (Ok a, s') => (Ok a, s')
       | (Raise e, s') => handler e s'
       end.

Definition raiseS {A : Type} (e : exn) : PyS A := λ s, (Raise e, s).
Definition passS : PyS unit := mret tt.

Definition execS {A : Type} (m : PyS A) (s : Site) : Site := snd (m s).
Definition resultS {A : Type} (m : PyS A) (s : Site) : outcome A := fst (m s).

(** [self.write(text)]. *)
Definition write_page (p : Page) : PyS unit := λ s,
  (Ok tt, mkSite (world s) (added_contests s) (next_contest_id s)
                 (page s ++ [p]) (reply_subject s) (reply_text s) (registry s)).

(** [self.sql_session.add(c)] for a contest, and the id [c.id] the database
    has given it once the session has committed. *)
Definition add_contest (c : Contest) : PyS unit :=
  lift open_session;;
  ((λ s, (Ok tt, mkSite (world s) (added_contests s ++ [c]) (next_contest_id s)
                        (page s) (reply_subject s) (reply_text s) (registry s)))
   : PyS unit).

Definition committed_contest_id : PyS Z := λ s,
  (Ok (next_contest_id s),
   mkSite (world s) (added_contests s) (next_contest_id s + 1)
          (page s) (reply_subject s) (reply_text s) (registry s)).

(** [self.get_argument(name, default)] with a string default. *)
Definition get_argument_str `{!Strip} (arg default : string) : Py string :=
  v ← get_argument arg (Some default);
  mret (from_option id default (v : option string)).

Section Contests.
Context `{!Strip}.
Variable int_of_string : string → option Z.
Variable repr : option Z → string.
(** [time.mktime(time.strptime(s, "%d/%m/%Y %H:%M:%S"))]: the seconds since
    the epoch, or [None] where [strptime] raises [ValueError]. *)
Variable parse_date : string → option Q.

(** The body of the first [try] of [AddContestHandler.post]. *)
Definition read_contest_tokens : Py Tokens :=
  token_initial ← get_non_negative_int int_of_string repr "token_initial" (Some 0) false;
  token_max ← get_non_negative_int int_of_string repr "token_max" None true;
  token_total ← get_non_negative_int int_of_string repr "token_total" None true;
  token_min_interval ←
    get_non_negative_int int_of_string repr "token_min_interval" None true;
  token_gen_time ← get_non_negative_int int_of_string repr "token_gen_time" None true;
  token_gen_number ←
    get_non_negative_int int_of_string repr "token_gen_number" None true;
  mret (mkTokens token_initial token_max token_total token_min_interval
                 token_gen_time token_gen_number).

(** The body of its second [try]. *)
Definition read_contest_dates : Py (Q * Q) :=
  a ← get_argument_str "start" "";
  match parse_date a with
  | None => raise ValueError
  | Some start =>
      b ← get_argument_str "end" "";
      match parse_date b with
      | None => raise ValueError
      | Some stop => mret (start, stop)
      end
  end.

(** [AddContestHandler.post(self)].  A [return] inside an [except] clause
    is the [None] the guarded block hands on. *)
Definition AddContestHandler_post : PyS unit :=
  name ← lift (get_argument_str "name" "");
  if String.eqb name "" then write_page (Text "No contest name specified")
  else
    description ← lift (get_argument "description" None);
    tokens ← try_except (tk ← lift read_contest_tokens; mret (Some tk))
                (λ e, write_page (TextWithError "Invalid token field(s). " e);;
                      mret None);
    match tokens with
    | None => passS
    | Some tk =>
        dates ← try_except (d ← lift read_contest_dates; mret (Some d))
                  (λ e, write_page (TextWithError "Invalid date(s). " e);;
                        mret None);
        match dates with
        | None => passS
        | Some (start, stop) =>
            if negb (Qle_bool start stop)
            then write_page (Text "Contest ends before it starts")
            else
              add_contest (mkContest name description (tk_initial tk) (tk_max tk)
                             (tk_total tk) (tk_min_interval tk) (tk_gen_time tk)
                             (tk_gen_number tk) start stop);;
              lift sql_commit;;
              id ← committed_contest_id;
              write_page (Text (pretty (id : Z)))
        end
    end.
End Contests.

(** ** Replying to a question *)

(** Writes to the reply columns of question number [i]. *)
Definition set_reply_subject (i : nat) (text : string) : PyS unit := λ s,
  (Ok tt, mkSite (world s) (added_contests s) (next_contest_id s) (page s)
                 (<[i := text]> (reply_subject s)) (reply_text s) (registry s)).
Definition set_reply_text (i : nat) (text : string) : PyS unit := λ s,
  (Ok tt, mkSite (world s) (added_contests s) (next_contest_id s) (page s)
                 (reply_subject s) (<[i := text]> (reply_text s)) (registry s)).
Definition set_reply_timestamp (i : nat) (ts : pynum) : Py unit :=
  modify (with_session (λ s,
    mkSession (tasks s)
      (alter (λ q, mkQuestion (question_timestamp q) (q_subject q) (q_text q)
                     (match ts with PyInt z => Some z | PyFloat _ => None end))
             i (questions s))
      (added s) (commits s))).

Section Replies.
Context `{!Strip}.
(** [WebConfig.quick_answers]: the standard answers, by code. *)
Variable quick_answers : gmap string string.

(** [QuestionReplyHandler.post(self, question_id)].  The line it logs is
    not kept. *)
Definition QuestionReplyHandler_post (question_id : nat) : PyS unit :=
  ref ← lift (get_argument_str "ref" "/");
  question ← lift (gets (λ w, questions (sql_session w) !! question_id));
  match question with
  | None => raiseS (HTTPError 404)
  | Some _ =>
      reply_subject_code ← lift (get_argument_str "reply_question_quick_answer" "");
      text ← lift (get_argument_str "reply_question_text" "");
      set_reply_text question_id text;;
      (* Ignore invalid answers *)
      match quick_answers !! (reply_subject_code : string) with
      | None => set_reply_subject question_id ""
      | Some answer =>
          (* Quick answer given, ignore long answer. *)
          set_reply_subject question_id answer;;
          set_reply_text question_id ""
      end;;
      now ← lift time_time;
      ts ← lift (int now);
      lift (set_reply_timestamp question_id ts);;
      lift sql_commit;;
      lift (redirect ref)
  end.
End Replies.

(** ** Users *)

Definition getsS {A : Type} (f : Site → A) : PyS A := λ s, (Ok (f s), s).

Definition with_registry (f : Registry → Registry) (s : Site) : Site :=
  mkSite (world s) (added_contests s) (next_contest_id s) (page s)
         (reply_subject s) (reply_text s) (f (registry s)).

Definition modify_registry (f : Registry → Registry) : PyS unit := λ s,
  (Ok tt, with_registry f s).

Definition set_user_rows (rows : list (Z * User)) (r : Registry) : Registry :=
  mkRegistry (contest_ids r) rows (next_user_id r) (attachment r) (manager r)
             (added_files r).

(** [int(time.time())] handed to [add_notification]. *)
Definition notify_now (subject text : string) : PyS unit :=
  lift (now ← time_time;
        ts ← int now;
        service_add_notification ts subject text).

(** [BaseHandler.retrieve_contest(self, contest_id)]. *)
Definition retrieve_contest (contest_id : Z) : PyS unit :=
  ids ← getsS (λ s, contest_ids (registry s));
  if decide (contest_id ∈ (ids : gset Z)) then
    lift (modify (with_self (set_contest (Some contest_id))))
  else
    lift (modify (with_self (set_contest None)));;
    raiseS (HTTPError 404).

(** The loop of [AddUserHandler.post] over [self.contest.users]; [true]
    when it has found the name taken, notified and returned. *)
Fixpoint AddUserHandler_scan (contest_id : Z) (name : string) (users : list User)
    : PyS bool :=
  match users with
  | [] => mret false
  | u :: rest =>
      if String.eqb (username u) name then
        notify_now "Duplicate username"
          "The requested username already exists in the contest.";;
        lift (redirect ("/add_user/" +:+ pretty contest_id));;
        mret true
      else AddUserHandler_scan contest_id name rest
  end.

(** [AddUserHandler.post(self, contest_id)].  The default [False] of the
    [hidden] field is the absent value. *)
Definition AddUserHandler_post `{!Strip} (contest_id : Z) : PyS unit :=
  retrieve_contest contest_id;;
  real_name ← lift (get_argument_str "real_name" "");
  name ← lift (get_argument_str "username" "");
  (* Prevent duplicate usernames in the contest. *)
  users ← getsS (λ s, users_of contest_id (user_rows (registry s)));
  returned ← AddUserHandler_scan contest_id name users;
  if (returned : bool) then passS
  else
    password ← lift (get_argument_str "password" "");
    ip ← lift (get_argument_str "ip" "0.0.0.0");
    hidden ← lift (get_argument "hidden" None);
    lift open_session;;
    id ← getsS (λ s, next_user_id (registry s));
    modify_registry (λ r,
      mkRegistry (contest_ids r)
        (user_rows r
         ++ [(contest_id,
              mkUser id real_name name password ip
                     (bool_decide ((hidden : option string) ≠ None)))])
        (next_user_id r + 1) (attachment r) (manager r) (added_files r));;
    lift sql_commit;;
    notify_now "User added successfully." "";;
    lift (redirect ("/user/" +:+ pretty (id : Z))).

(** [User.get_from_id(user_id, session)]: the position of the row, the
    contest it belongs to and the user. *)
Fixpoint find_user (uid : Z) (rows : list (Z * User)) : option (nat * Z * User) :=
  match rows with
  | [] => None
  | (c, u) :: rest =>
      if Z.eqb (user_id u) uid then Some (0%nat, c, u)
      else (λ r : nat * Z * User, (S r.1.1, r.1.2, r.2)) <$> find_user uid rest
  end.

(** The loop of [UserViewHandler.post]: [true] when another user of the
    contest already has the requested name. *)
Fixpoint UserViewHandler_scan (uid : Z) (old_name new_name : string)
    (users : list User) : PyS bool :=
  match users with
  | [] => mret false
  | u :: rest =>
      if negb (String.eqb (username u) old_name) && String.eqb (username u) new_name
      then
        notify_now "Duplicate username"
          "The requested username already exists in the contest.";;
        lift (redirect ("/user/" +:+ pretty uid));;
        mret true
      else UserViewHandler_scan uid old_name new_name rest
  end.

(** An attribute write on the user object at row [i]. *)
Definition update_user (i : nat) (f : User → User) : PyS unit :=
  modify_registry (λ r,
    set_user_rows (alter (λ row : Z * User, (row.1, f row.2)) i (user_rows r)) r).

(** [UserViewHandler.post(self, user_id)]. *)
Definition UserViewHandler_post `{!Strip} (uid : Z) : PyS unit :=
  found ← getsS (λ s, find_user uid (user_rows (registry s)));
  match found with
  | None => raiseS (HTTPError 404)
  | Some (i, contest_id, user) =>
      lift (modify (with_self (set_contest (Some contest_id))));;
      rn ← lift (get_argument_str "real_name" (real_name user));
      update_user i (λ u, mkUser (user_id u) rn (username u) (password u)
                                 (ip u) (hidden u));;
      name ← lift (get_argument_str "username" (username user));
      (* Prevent duplicate usernames in the contest. *)
      users ← getsS (λ s, users_of contest_id (user_rows (registry s)));
      returned ← UserViewHandler_scan uid (username user) name users;
      if (returned : bool) then passS
      else
        update_user i (λ u, mkUser (user_id u) (real_name u) name (password u)
                                   (ip u) (hidden u));;
        pw ← lift (get_argument_str "password" (password user));
        update_user i (λ u, mkUser (user_id u) (real_name u) (username u) pw
                                   (ip u) (hidden u));;
        (* FIXME: Check IP validity *)
        addr ← lift (get_argument_str "ip" (ip user));
        update_user i (λ u, mkUser (user_id u) (real_name u) (username u)
                                   (password u) addr (hidden u));;
        hid ← lift (get_argument "hidden" None);
        update_user i (λ u, mkUser (user_id u) (real_name u) (username u)
                                   (password u) (ip u)
                                   (bool_decide ((hid : option string) ≠ None)));;
        lift sql_commit;;
        notify_now "User updated successfully." "";;
        lift (redirect ("/user/" +:+ pretty uid))
  end.

(** ** Attachments and managers *)

Definition set_attachment (f : option UploadedFile) (r : Registry) : Registry :=
  mkRegistry (contest_ids r) (user_rows r) (next_user_id r) f (manager r)
             (added_files r).
Definition set_manager (f : option UploadedFile) (r : Registry) : Registry :=
  mkRegistry (contest_ids r) (user_rows r) (next_user_id r) (attachment r) f
             (added_files r).

(** [self.sql_session.add(...)] of an attachment or a manager. *)
Definition add_file (f : StoredFile) : PyS unit :=
  lift open_session;;
  modify_registry (λ r,
    mkRegistry (contest_ids r) (user_rows r) (next_user_id r) (attachment r)
               (manager r) (added_files r ++ [f])).

(** [self.attachment["filename"]] and [self.manager["filename"]]. *)
Definition kept_filename (kept : Registry → option UploadedFile) : PyS string :=
  f ← getsS (λ s, kept (registry s));
  match f with
  | None => raiseS AttributeError
  | Some up => mret (filename up)
  end.

(** [AddAttachmentHandler.storage_callback(self, data, plus, error=None)]. *)
Definition AddAttachmentHandler_storage_callback
    (data plus error : option string) : PyS unit :=
  match error with
  | None =>
      name ← kept_filename attachment;
      t ← lift self_task;
      add_file (Attachment data name t.1);;
      lift sql_commit;;
      lift (redirect ("/task/" +:+ pretty t.1))
  | Some err =>
      lift (now ← time_time;
            service_add_notification now "Attachment storage failed" err);;
      t ← lift self_task;
      lift (redirect ("/add_statement/" +:+ pretty t.1))
  end.

(** [AddAttachmentHandler.post(self, task_id)]. *)
Definition AddAttachmentHandler_post (task_id : Z) : PyS unit :=
  t ← lift (Task_get_from_id task_id);
  lift (modify (with_self (set_task t)));;
  match t with
  | None => raiseS (HTTPError 404)
  | Some _ =>
      t ← lift self_task;
      lift (modify (with_self (set_contest (Some (task_contest t.2)))));;
      f ← lift (request_file "attachment");
      modify_registry (set_attachment (Some f));;
      sent ← lift (put_file (filename f) (body f)
                     ("Task attachment for " +:+ task_name t.2));
      if (sent : bool) then passS
      else AddAttachmentHandler_storage_callback None None
             (Some "Connection failed.")
  end.

(** [AddManagerHandler.storage_callback(self, data, plus, error=None)]. *)
Definition AddManagerHandler_storage_callback
    (data plus error : option string) : PyS unit :=
  match error with
  | None =>
      name ← kept_filename manager;
      t ← lift self_task;
      add_file (Manager data name t.1);;
      lift sql_commit;;
      lift (redirect ("/task/" +:+ pretty t.1))
  | Some err =>
      lift (now ← time_time;
            service_add_notification now "Manager storage failed" err);;
      t ← lift self_task;
      lift (redirect ("/add_manager/" +:+ pretty t.1))
  end.

(** [AddManagerHandler.post(self, task_id)]. *)
Definition AddManagerHandler_post (task_id : Z) : PyS unit :=
  t ← lift (Task_get_from_id task_id);
  lift (modify (with_self (set_task t)));;
  match t with
  | None => raiseS (HTTPError 404)
  | Some _ =>
      t ← lift self_task;
      lift (modify (with_self (set_contest (Some (task_contest t.2)))));;
      f ← lift (request_file "manager");
      modify_registry (set_manager (Some f));;
      sent ← lift (put_file (filename f) (body f)
                     ("Task manager for " +:+ task_name t.2));
      if (sent : bool) then passS
      else AddManagerHandler_storage_callback None None
             (Some "Connection failed.")
  end.

(** A token field as the handlers accept it: absent, or not negative. *)
Definition nonneg_or_none (x : option Z) : Prop :=
  match x with
  | None => True
  | Some n => (0 ≤ n)%Z
  end.

Definition valid_tokens (tk : Tokens) : Prop :=
  (∃ n, tk_initial tk = Some n ∧ (0 ≤ n)%Z)
  ∧ nonneg_or_none (tk_max tk) ∧ nonneg_or_none (tk_total tk)
  ∧ nonneg_or_none (tk_min_interval tk) ∧ nonneg_or_none (tk_gen_time tk)
  ∧ nonneg_or_none (tk_gen_number tk).

(** A contest that went through every check of [AddContestHandler.post]. *)
Definition valid_contest (c : Contest) : Prop :=
  contest_name c ≠ ""
  ∧ valid_tokens (mkTokens (token_initial c) (token_max c) (token_total c)
                           (token_min_interval c) (token_gen_time c)
                           (token_gen_number c))
  ∧ (contest_start c <= contest_stop c)%Q.

(** The four messages with which [AddContestHandler.post] turns a form
    down. *)
Definition rejection (p : Page) : Prop :=
  p = Text "No contest name specified"
  ∨ p = TextWithError "Invalid token field(s). " ValueError
  ∨ p = TextWithError "Invalid date(s). " ValueError
  ∨ p = Text "Contest ends before it starts".

(** A sample reply form and the standard answers it can name. *)
Definition sample_quick_answers : gmap string string :=
  {[ "yes" := "Yes"; "no" := "No"; "invalid" := "Invalid question" ]}.

Definition reply_request (code text ref : string) : Request :=
  mkRequest ∅ {[ "reply_question_quick_answer" := code;
                 "reply_question_text" := text;
                 "ref" := ref ]}.

Definition sample_site (r : Request) : Site :=
  mkSite (polling_world [] r) [] 1 [] ∅ ∅ empty_registry.

(** The clock reading as [int(time.time())] gives it. *)
Definition clock_seconds (w : World) : Z :=
  Z.quot (Qnum (clock w)) (Zpos (Qden (clock w))).

(** A contest form that fills in the name and the two dates only. *)
Definition contest_request (name start stop : string) : Request :=
  mkRequest ∅ {[ "name" := name; "start" := start; "end" := stop ]}.

(** A reader of dates written [%d/%m/%Y %H:%M:%S], from 1970 on, giving the
    seconds since the epoch with the local time taken to be UTC.  It stands
    in for [time.mktime(time.strptime(s, "%d/%m/%Y %H:%M:%S"))] where a
    concrete reader is needed. *)

(** A field of one or two digits, or of exactly [n] digits, and the rest of
    the text. *)
Definition short_field (s : string) : option (Z * string) :=
  match s with
  | String a (String b rest) =>
      match digit a, digit b with
      | Some x, Some y => Some (10 * x + y, rest)
      | Some x, None => Some (x, String b rest)
      | None, _ => None
      end
  | String a EmptyString => (λ x, (x, EmptyString)) <$> digit a
  | EmptyString => None
  end.

Fixpoint wide_field (n : nat) (acc : Z) (s : string) : option (Z * string) :=
  match n with
  | O => Some (acc, s)
  | S n' =>
      match s with
      | String a rest =>
          match digit a with
          | Some x => wide_field n' (10 * acc + x) rest
          | None => None
          end
      | EmptyString => None
      end
  end.

(** The text after the separator [sep]. *)
Fixpoint after (sep s : string) : option string :=
  match sep with
  | EmptyString => Some s
  | String c sep' =>
      match s with
      | String a rest => if Ascii.eqb a c then after sep' rest else None
      | EmptyString => None
      end
  end.

Definition leap_year (y : Z) : bool :=
  ((y mod 4 =? 0) && negb (y mod 100 =? 0) || (y mod 400 =? 0))%Z.

Definition days_in_month (y m : Z) : Z :=
  if (m =? 2)%Z then (if leap_year y then 29 else 28)
  else if ((m =? 4) || (m =? 6) || (m =? 9) || (m =? 11))%Z then 30
  else 31.

(** The days from 1 January 1970 to the given day of the civil calendar. *)
Definition days_from_epoch (y m d : Z) : Z :=
  let y' := if (m <=? 2)%Z then y - 1 else y in
  let era := y' / 400 in
  let yoe := y' - era * 400 in
  let doy := (153 * (if (m <=? 2)%Z then m + 9 else m - 3) + 2) / 5 + d - 1 in
  let doe := yoe * 365 + yoe / 4 - yoe / 100 + doy in
  era * 146097 + doe - 719468.

Definition date_seconds (s : string) : option Q :=
  '(d, s) ← short_field s; s ← after "/" s;
  '(m, s) ← short_field s; s ← after "/" s;
  '(y, s) ← wide_field 4 0 s; s ← after " " s;
  '(hh, s) ← short_field s; s ← after ":" s;
  '(mm, s) ← short_field s; s ← after ":" s;
  '(ss, s) ← short_field s;
  if (String.eqb s "" && (1970 <=? y) && (1 <=? m) && (m <=? 12) && (1 <=? d)
      && (d <=? days_in_month y m) && (hh <=? 23) && (mm <=? 59) && (ss <=? 59))%Z
  then Some (inject_Z (days_from_epoch y m d * 86400 + hh * 3600 + mm * 60 + ss))
  else None.

(** No two users of one contest share a username: the pairs of a contest
    and a username are all different. *)
Definition contest_names (rows : list (Z * User)) : list (Z * string) :=
  (λ r : Z * User, (r.1, username r.2)) <$> rows.

Definition unique_usernames (rows : list (Z * User)) : Prop :=
  NoDup (contest_names rows).

(** Some user of the list has the name. *)
Definition name_taken (name : string) (users : list User) : bool :=
  existsb (λ u, String.eqb (username u) name) users.

(** A site with two contests and three users, and a user form. *)
Definition sample_user_rows : list (Z * User) :=
  [ (1, mkUser 1 "Ada Lovelace" "ada" "pw1" "10.0.0.1" false);
    (1, mkUser 2 "Alan Turing" "alan" "pw2" "10.0.0.2" false);
    (2, mkUser 3 "Ada Byron" "ada" "pw3" "10.0.0.3" true) ].

Definition user_request (real username_ : string) : Request :=
  mkRequest ∅ {[ "real_name" := real; "username" := username_ ]}.

Definition user_site (r : Request) : Site :=
  mkSite (polling_world [] r) [] 1 [] ∅ ∅
         (mkRegistry {[ 1; 2 ]} sample_user_rows 4 None None []).

(** Some user of the list other than those called [old_name] has the name
    [new_name]. *)
Definition other_has (old_name new_name : string) (users : list User) : bool :=
  existsb (λ u, negb (String.eqb (username u) old_name)
                && String.eqb (username u) new_name) users.

(** A form that uploads an attachment and a manager, and a site whose file
    store gives the replies [replies]. *)
Definition files_request : Request :=
  mkRequest {[ "attachment" := [mkUploadedFile "notes.txt" "Read me."];
               "manager" := [mkUploadedFile "checker.cpp" "int main() {}"] ]} ∅.

Definition files_site (replies : list bool) : Site :=
  mkSite (fresh files_request (sample_world replies)) [] 1 [] ∅ ∅ empty_registry.

#[global] Existing Instance strip_blanks.

(** * Properties *)

(** ** The authorization gate *)

Section GateFacts.
Context {V : Type}.
Implicit Types (self : AdminWebServer) (service : ServiceCoord)
               (method : string) (arguments : gmap string V).

(** The gate is the table: it answers [true] exactly on the listed pairs. *)
Lemma authorized_rpc_table self service method arguments :
  authorized_rpc self service method arguments = allow_listed service method.
Proof.
  destruct service as [n s].
  unfold authorized_rpc, allow_listed, allow_list, entry_matches, covers; simpl.
  repeat case_decide; simplify_eq/=;
    repeat (match goal with
            | |- context [String.eqb ?a ?b] =>
                destruct (String.eqb_spec a b); simplify_eq/=
            | |- context [Z.eqb ?a ?b] =>
                destruct (Z.eqb_spec a b); simplify_eq/=
            end);
    try reflexivity; congruence.
Qed.

(** The service is matched by its full name: a coordinate that abbreviates
    it to ["Evaluation"] names no listed service. *)
Lemma authorized_rpc_exact_name self arguments :
  authorized_rpc self (mkServiceCoord "Evaluation" 0) "queue_status" arguments
  = false.
Proof. by rewrite authorized_rpc_table. Qed.
End GateFacts.

(** C3: default deny.  Every (service, method) pair that the allow-list does
    not name is refused, whatever the arguments and the state of the
    server; in particular the EvaluationService at shard 0 is refused
    ["shutdown"] and granted ["queue_status"]. *)
Theorem C3_default_deny :
  (∀ (V : Type) (self : AdminWebServer) (service : ServiceCoord)
     (method : string) (arguments : gmap string V),
      allow_listed service method = false →
      authorized_rpc self service method arguments = false)
  ∧ (∀ (V : Type) (self : AdminWebServer) (arguments : gmap string V),
      authorized_rpc self (mkServiceCoord "EvaluationService" 0)
                     "shutdown" arguments = false
      ∧ authorized_rpc self (mkServiceCoord "EvaluationService" 0)
                       "queue_status" arguments = true).
Proof.
  split.
  - intros V self service method arguments Hnot.
    by rewrite authorized_rpc_table.
  - intros V self arguments. by rewrite !authorized_rpc_table.
Qed.

Lemma C3_default_deny_witness :
  allow_listed (mkServiceCoord "EvaluationService" 1) "queue_status" = false
  ∧ authorized_rpc (mkAdminWebServer [] [] (mkFileStorage [] []))
      (mkServiceCoord "EvaluationService" 1) "queue_status"
      ({[ "verbose" := "1" ]} : gmap string string) = false.
Proof.
  split; [reflexivity|].
  apply (proj1 C3_default_deny). reflexivity.
Defined.

(** C4: the gate is a total function into the booleans whose answer is
    fixed by the service coordinate and the method name alone: it does not
    depend on the arguments dict (nor on the server object it is called
    on), so equal inputs give equal answers on every call. *)
Theorem C4_gate_pure_total :
  ∀ (V : Type) (self self' : AdminWebServer) (service : ServiceCoord)
    (method : string) (a1 a2 : gmap string V),
    authorized_rpc self service method a1 = authorized_rpc self' service method a2
    ∧ (authorized_rpc self service method a1 = true
       ∨ authorized_rpc self service method a1 = false).
Proof.
  intros V self self' service method a1 a2. split.
  - by rewrite !authorized_rpc_table.
  - destruct (authorized_rpc self service method a1); auto.
Qed.

(** C10: ["kill_service"] is granted on every ResourceService shard: for
    every shard index [s ≥ 0], whatever connections the server holds (no
    bound comes from the configured shard count) and whatever the
    arguments; the EvaluationService and LogService entries, in contrast,
    answer [false] on every shard other than 0. *)
Theorem C10_kill_service_every_shard :
  ∀ (V : Type) (self : AdminWebServer) (s : Z) (arguments : gmap string V),
    (0 ≤ s)%Z →
    authorized_rpc self (mkServiceCoord "ResourceService" s)
                   "kill_service" arguments = true
    ∧ (s ≠ 0 → ∀ method,
         authorized_rpc self (mkServiceCoord "EvaluationService" s)
                        method arguments = false
         ∧ authorized_rpc self (mkServiceCoord "LogService" s)
                          method arguments = false).
Proof.
  intros V self s arguments Hs. split.
  - by rewrite authorized_rpc_table.
  - intros Hne method. rewrite !authorized_rpc_table.
    unfold allow_listed, allow_list, entry_matches, covers; simpl.
    destruct (Z.eqb_spec s 0) as [->|_]; [done|].
    done.
Qed.

Lemma C10_kill_service_every_shard_witness :
  (0 ≤ 1000)%Z
  ∧ length (RS (mkAdminWebServer [] [mkServiceCoord "ResourceService" 0]
                                 (mkFileStorage [] []))) = 1%nat
  ∧ authorized_rpc
      (mkAdminWebServer [] [mkServiceCoord "ResourceService" 0]
                        (mkFileStorage [] []))
      (mkServiceCoord "ResourceService" 1000) "kill_service"
      (∅ : gmap string string) = true.
Proof.
  split; [lia|]. split; [reflexivity|].
  apply (C10_kill_service_every_shard string _ 1000 ∅). lia.
Defined.

(** ** The upload callbacks, step by step *)

(** Unfolds the monad and the primitives of the environment. *)
Ltac py_unfold :=
  unfold exec, result, deliver,
    AddTestcaseHandler_storage_callback, AddStatementHandler_storage_callback,
    successful_call, self_task, service_add_notification, time_time,
    sql_add, sql_commit, set_task_statement, open_session, redirect, write,
    get_argument, request_file,
    Task_get_from_id, put_file, pass, raise, gets, modify,
    mbind, mret, Py_bind, Py_ret,
    with_self, with_session, with_service, add_notification,
    set_notifications, set_FS, set_task, set_contest, set_statement,
    set_input, set_output, set_public, set_successful_calls,
    push_response, finished in *.

(** The first redirect of a request is sent. *)
Lemma redirect_run (url : string) (w : World) :
  finished (self w) = false →
  redirect url w = (Ok tt, with_self (push_response (Redirect url)) w).
Proof.
  intros Hfin. unfold redirect, gets, mbind, Py_bind, modify. by rewrite Hfin.
Qed.

(** A failure report runs the failure action once: one notification with
    the reported error is appended; the session, the recorded results and
    the clock are left alone. *)
Lemma storage_callback_failure (w : World) (data plus : option string) (err : string) :
  let w' := exec (AddTestcaseHandler_storage_callback data plus (Some err)) w in
  notifications (service w')
    = notifications (service w) ++ [(PyFloat (Finite (clock w)), "Testcase storage failed", err)]
  ∧ sql_session w' = sql_session w
  ∧ successful_calls (self w') = successful_calls (self w)
  ∧ task (self w') = task (self w)
  ∧ public (self w') = public (self w)
  ∧ clock w' = clock w.
Proof.
  destruct w as [srv ses h clk]. py_unfold; simpl.
  destruct (task h) as [t|] eqn:Ht; simpl; [|done].
  destruct (tasks ses !! t); simpl; [|done].
  by destruct (existsb is_redirect (responses h)).
Qed.

(** What a failure report sends back: the redirect to the upload form on a
    request that is still open, nothing on one that is finished; either
    way the request is finished afterwards. *)
Lemma storage_callback_failure_response (w : World) (data plus : option string)
    (err : string) (t : Z) (row : Task) :
  task (self w) = Some t →
  tasks (sql_session w) !! t = Some row →
  let m := AddTestcaseHandler_storage_callback data plus (Some err) in
  finished (self (exec m w)) = true
  ∧ if finished (self w)
    then raises (result m w) = true
         ∧ responses (self (exec m w)) = responses (self w)
    else result m w = Ok tt
         ∧ responses (self (exec m w))
           = responses (self w) ++ [Redirect ("/add_testcase/" +:+ pretty t)].
Proof.
  intros Ht Hrow. destruct w as [srv ses h clk]. py_unfold; simpl in *.
  rewrite Ht; simpl. rewrite Hrow; simpl.
  destruct (existsb is_redirect (responses h)) eqn:Hfin; simpl; [done|].
  split; [|done]. rewrite existsb_app; cbn. apply orb_true_r.
Qed.

(** A success report records its result under the tag it carries, whatever
    the tag, and appends no notification. *)
Lemma storage_callback_success (w : World) (data plus : option string) :
  let w' := exec (AddTestcaseHandler_storage_callback data plus None) w in
  successful_calls (self w') = <[plus := data]> (successful_calls (self w))
  ∧ notifications (service w') = notifications (service w)
  ∧ tasks (sql_session w') = tasks (sql_session w)
  ∧ task (self w') = task (self w)
  ∧ public (self w') = public (self w)
  ∧ clock w' = clock w.
Proof.
  destruct w as [srv ses h clk]. py_unfold; simpl.
  case_decide; simpl; [|done].
  destruct (<[plus:=data]> (successful_calls h) !! Some "input"); simpl; [|done].
  destruct (<[plus:=data]> (successful_calls h) !! Some "output"); simpl; [|done].
  destruct (task h) as [t|] eqn:Ht; simpl; [|done].
  destruct (tasks ses !! t); simpl; [|done].
  destruct (existsb is_redirect (responses h)) eqn:Hfin; simpl;
    repeat (rewrite Hfin; simpl); done.
Qed.

(** Below two recorded results a success report only records. *)
Lemma storage_callback_success_waits (w : World) (data plus : option string) :
  (size (<[plus := data]> (successful_calls (self w))) < 2)%nat →
  AddTestcaseHandler_storage_callback data plus None w
  = (Ok tt, with_self (set_successful_calls
                         (<[plus := data]> (successful_calls (self w)))) w).
Proof.
  intros Hsize. destruct w as [srv ses h clk]. py_unfold; simpl in *.
  case_decide; [lia|done].
Qed.

(** From two recorded results on, a success report that finds both
    ["input"] and ["output"] creates the testcase, commits and redirects,
    on a request that is not finished. *)
Lemma storage_callback_success_fires (w : World) (data plus i o : option string)
    (t : Z) (row : Task) :
  let calls := <[plus := data]> (successful_calls (self w)) in
  finished (self w) = false →
  (2 ≤ size calls)%nat →
  calls !! Some "input" = Some i →
  calls !! Some "output" = Some o →
  task (self w) = Some t →
  tasks (sql_session w) !! t = Some row →
  AddTestcaseHandler_storage_callback data plus None w
  = (Ok tt,
     with_self (push_response (Redirect ("/task/" +:+ pretty t)))
       (with_session
          (λ s, mkSession (tasks s) (questions s)
                  (added s ++ [mkTestcase i o (length (task_testcases row))
                                          (public (self w)) t])
                  (S (commits s)))
          (with_self (set_successful_calls calls) w))).
Proof.
  intros calls Hfin Hsize Hi Ho Ht Hrow. subst calls.
  destruct w as [srv ses h clk]. py_unfold; simpl in *.
  case_decide; [|lia]. cbn. rewrite Hi; cbn. rewrite Ho; cbn. rewrite Ht; cbn.
  rewrite Hrow; cbn. repeat (rewrite Hfin; cbn). done.
Qed.

(** On a finished request a success report is recorded and changes nothing
    else: if it brings the results to two or more, the attempt to create
    the testcase raises. *)
Lemma storage_callback_success_finished (w : World) (data plus : option string) :
  finished (self w) = true →
  let m := AddTestcaseHandler_storage_callback data plus None in
  exec m w = with_self (set_successful_calls
                          (<[plus := data]> (successful_calls (self w)))) w
  ∧ ((2 ≤ size (<[plus := data]> (successful_calls (self w))))%nat →
     raises (result m w) = true).
Proof.
  intros Hfin. destruct w as [srv ses h clk]. py_unfold; simpl in *.
  case_decide; simpl; [|split; [done|lia]].
  destruct (<[plus:=data]> (successful_calls h) !! Some "input"); simpl; [|done].
  destruct (<[plus:=data]> (successful_calls h) !! Some "output"); simpl; [|done].
  destruct (task h) as [t|] eqn:Ht; simpl; [|done].
  destruct (tasks ses !! t); simpl; [|done].
  by rewrite Hfin.
Qed.

(** Reports that reach a finished request: the session and the response
    stay as they are, and the request stays finished. *)
Lemma deliver_finished (r : report) (w : World) :
  finished (self w) = true →
  let w' := exec (deliver r) w in
  finished (self w') = true
  ∧ sql_session w' = sql_session w
  ∧ responses (self w') = responses (self w).
Proof.
  intros Hfin. destruct r as [tag id|tag error]; cbn [deliver].
  - destruct (storage_callback_success_finished w (Some id) (Some tag) Hfin)
      as [-> _].
    by destruct w.
  - destruct w as [srv ses h clk]. py_unfold; simpl in *.
    destruct (task h) as [t|] eqn:Ht; simpl; [|done].
    destruct (tasks ses !! t); simpl; [|done].
    by rewrite Hfin.
Qed.

Lemma run_reports_finished (rs : list report) (w : World) :
  finished (self w) = true →
  sql_session (run_reports rs w) = sql_session w
  ∧ responses (self (run_reports rs w)) = responses (self w).
Proof.
  revert w. induction rs as [|r rs IH]; intros w Hfin; [done|].
  unfold run_reports in *. cbn [foldl].
  destruct (deliver_finished r w Hfin) as (Hfin' & Hs & Hr).
  destruct (IH _ Hfin') as [-> ->]. done.
Qed.

(** [post] with both store calls accepted: the handler is bound to the
    task, holds an empty result mapping, and nothing has been persisted or
    notified yet. *)
Lemma AddTestcaseHandler_post_issued `{!Strip} (w : World) (task_id : Z)
    (row : Task) (fi fo : UploadedFile) (fis fos : list UploadedFile) :
  tasks (sql_session w) !! task_id = Some row →
  files (request (self w)) !! "input" = Some (fi :: fis) →
  files (request (self w)) !! "output" = Some (fo :: fos) →
  accepts 2 (fs_replies (FS (service w))) = true →
  let w' := exec (AddTestcaseHandler_post task_id) w in
  result (AddTestcaseHandler_post task_id) w = Ok tt
  ∧ task (self w') = Some task_id
  ∧ successful_calls (self w') = ∅
  ∧ sql_session w' = sql_session w
  ∧ notifications (service w') = notifications (service w)
  ∧ responses (self w') = responses (self w)
  ∧ clock w' = clock w
  ∧ pf_plus <$> fs_sent (FS (service w'))
    = (pf_plus <$> fs_sent (FS (service w))) ++ ["input"; "output"].
Proof.
  intros Hrow Hin Hout Hacc.
  destruct w as [[ns rs [replies sent]] ses h clk].
  unfold AddTestcaseHandler_post. py_unfold; simpl in *.
  rewrite Hrow; simpl. rewrite Hrow; simpl. rewrite Hin; simpl. rewrite Hout; simpl.
  destruct replies as [|[] [|[] replies]]; simpl in *; try discriminate;
    rewrite ?fmap_app, <-?app_assoc; done.
Qed.

(** ** Both parts succeed *)

Lemma two_successes_fire_once (w0 w1 : World) (t : Z) (row : Task)
    (tag1 tag2 d1 d2 : string) (i o : option string) :
  tag1 ≠ tag2 →
  finished (self w1) = false →
  task (self w1) = Some t →
  tasks (sql_session w1) !! t = Some row →
  successful_calls (self w1) = ∅ →
  sql_session w1 = sql_session w0 →
  notifications (service w1) = notifications (service w0) →
  let calls : gmap (option string) (option string) :=
    <[Some tag2 := Some d2]> (<[Some tag1 := Some d1]> ∅) in
  calls !! Some "input" = Some i →
  calls !! Some "output" = Some o →
  fires_once_at_second w0 w1 (reportSuccess tag1 d1) (reportSuccess tag2 d2)
    (mkTestcase i o (length (task_testcases row)) (public (self w1)) t) calls.
Proof.
  intros Hne Hfin Ht Hrow Hcalls Hses Hns calls Hi Ho.
  unfold fires_once_at_second, exec, result, deliver.
  rewrite (storage_callback_success_waits w1).
  2:{ rewrite Hcalls, map_size_insert_None, map_size_empty by done. lia. }
  cbn [fst snd].
  set (w2 := with_self _ w1).
  assert (Hc2 : <[Some tag2 := Some d2]> (successful_calls (self w2)) = calls).
  { subst w2 calls. destruct w1; cbn in *. by rewrite Hcalls. }
  erewrite (storage_callback_success_fires w2 _ _ i o t row);
    rewrite ?Hc2; try done.
  - subst w2. destruct w1 as [srv ses h clk]; cbn in *. subst ses.
    repeat split; done.
  - subst calls.
    rewrite map_size_insert_None, map_size_insert_None, map_size_empty; [lia|done|].
    rewrite lookup_insert_ne by congruence. done.
Qed.

(** The firing step, field by field. *)
Lemma storage_callback_success_fired (w : World) (data plus i o : option string)
    (t : Z) (row : Task) :
  let calls := <[plus := data]> (successful_calls (self w)) in
  finished (self w) = false →
  (2 ≤ size calls)%nat →
  calls !! Some "input" = Some i →
  calls !! Some "output" = Some o →
  task (self w) = Some t →
  tasks (sql_session w) !! t = Some row →
  let w' := exec (AddTestcaseHandler_storage_callback data plus None) w in
  result (AddTestcaseHandler_storage_callback data plus None) w = Ok tt
  ∧ added (sql_session w')
    = added (sql_session w)
      ++ [mkTestcase i o (length (task_testcases row)) (public (self w)) t]
  ∧ commits (sql_session w') = S (commits (sql_session w))
  ∧ responses (self w') = responses (self w) ++ [Redirect ("/task/" +:+ pretty t)].
Proof.
  intros calls Hfin Hsize Hi Ho Ht Hrow. unfold exec, result.
  rewrite (storage_callback_success_fires w data plus i o t row) by done.
  by destruct w.
Qed.

(** C2: a session with the tags ["input"] and ["output"] whose two store
    calls were accepted and both report success, in either order: the first
    report persists nothing; the second creates exactly one testcase, with
    the digest reported for ["input"] as its input and the one reported for
    ["output"] as its output, commits once, and no failure is notified.
    The results held at that point are the complete mapping.  The request
    is one that has not been answered yet. *)
Theorem C2_both_parts_succeed `{!Strip} (w0 : World) (task_id : Z) (row : Task)
    (fi fo : UploadedFile) (fis fos : list UploadedFile) (d1 d2 : string) :
  finished (self w0) = false →
  tasks (sql_session w0) !! task_id = Some row →
  files (request (self w0)) !! "input" = Some (fi :: fis) →
  files (request (self w0)) !! "output" = Some (fo :: fos) →
  accepts 2 (fs_replies (FS (service w0))) = true →
  let w1 := exec (AddTestcaseHandler_post task_id) w0 in
  let tc := mkTestcase (Some d1) (Some d2) (length (task_testcases row))
                       (public (self w1)) task_id in
  let calls : gmap (option string) (option string) :=
    <[Some "input" := Some d1]> (<[Some "output" := Some d2]> ∅) in
  fires_once_at_second w0 w1
    (reportSuccess "input" d1) (reportSuccess "output" d2) tc calls
  ∧ fires_once_at_second w0 w1
      (reportSuccess "output" d2) (reportSuccess "input" d1) tc calls.
Proof.
  intros Hfin Hrow Hin Hout Hacc w1 tc calls.
  destruct (AddTestcaseHandler_post_issued w0 task_id row fi fo fis fos
              Hrow Hin Hout Hacc) as (_ & Ht & Hcalls & Hses & Hns & Hrs & _).
  fold w1 in Ht, Hcalls, Hses, Hns, Hrs.
  assert (Hrow1 : tasks (sql_session w1) !! task_id = Some row)
    by (by rewrite Hses).
  assert (Hfin1 : finished (self w1) = false)
    by (unfold finished in *; by rewrite Hrs).
  split.
  - replace calls with
      (<[Some "output" := Some d2]> (<[Some "input" := Some d1]> ∅)
         : gmap (option string) (option string))
      by (subst calls; by apply insert_insert_ne).
    by apply two_successes_fire_once.
  - by apply two_successes_fire_once.
Qed.

Lemma C2_both_parts_succeed_witness :
  let w0 := sample_world [] in
  let w1 := exec (AddTestcaseHandler_post 3) w0 in
  let tc := mkTestcase (Some "d1") (Some "d2") 0 (public (self w1)) 3 in
  let calls : gmap (option string) (option string) :=
    <[Some "input" := Some "d1"]> (<[Some "output" := Some "d2"]> ∅) in
  finished (self w0) = false
  ∧ accepts 2 (fs_replies (FS (service w0))) = true
  ∧ fires_once_at_second w0 w1
      (reportSuccess "input" "d1") (reportSuccess "output" "d2") tc calls
  ∧ fires_once_at_second w0 w1
      (reportSuccess "output" "d2") (reportSuccess "input" "d1") tc calls.
Proof.
  split; [reflexivity|]. split; [reflexivity|].
  apply (C2_both_parts_succeed (sample_world []) 3 sample_task
           (mkUploadedFile "sum.in" "1 2") (mkUploadedFile "sum.out" "3")
           [] [] "d1" "d2"); reflexivity.
Defined.

(** ** A failure among the reports *)

(** Notifications grow by one per failure report, and only by those. *)
Lemma run_reports_notifications (rs : list report) (w : World) :
  length (notifications (service (run_reports rs w)))
  = (length (notifications (service w)) + count_failures rs)%nat.
Proof.
  revert w. induction rs as [|r rs IH]; intros w.
  - unfold count_failures; simpl. lia.
  - unfold run_reports in *. cbn [foldl]. rewrite IH.
    unfold count_failures. destruct r as [tag id|tag error]; cbn [deliver List.filter is_failure].
    + destruct (storage_callback_success w (Some id) (Some tag)) as (_ & -> & _).
      done.
    + destruct (storage_callback_failure w None (Some tag) error) as (-> & _).
      rewrite length_app; simpl. lia.
Qed.

(** C1, amended: the handler keeps no terminal state of its own.  A failure
    report runs the failure action (one notification carrying the reported
    error, the redirect that finishes the request), persists nothing and
    leaves the recorded results alone.  Reports that come later are not
    discarded: a late success is still recorded, and every late failure is
    notified again, so that over any sequence of reports the failure action
    has notified once per failure report.  What a failure does end is
    persistence: the redirect has closed the session, so whatever is
    reported afterwards, no testcase is added and nothing is committed; in
    Scenario B the late success for ["output"] completes the mapping, and
    the creation of the testcase it sets off raises. *)
Theorem C1_failure_is_not_terminal `{!Strip} (w0 : World) (task_id : Z)
    (row : Task) (fi fo : UploadedFile) (fis fos : list UploadedFile)
    (d1 d2 err : string) :
  finished (self w0) = false →
  tasks (sql_session w0) !! task_id = Some row →
  files (request (self w0)) !! "input" = Some (fi :: fis) →
  files (request (self w0)) !! "output" = Some (fo :: fos) →
  accepts 2 (fs_replies (FS (service w0))) = true →
  let w1 := exec (AddTestcaseHandler_post task_id) w0 in
  let w2 := exec (deliver (reportSuccess "input" d1)) w1 in
  let w3 := exec (deliver (reportFailure "output" err)) w2 in
  let w4 := exec (deliver (reportSuccess "output" d2)) w3 in
  (* Scenario B *)
  (notifications (service w3)
     = notifications (service w0)
       ++ [(PyFloat (Finite (clock w0)), "Testcase storage failed", err)]
   ∧ responses (self w3)
     = responses (self w0) ++ [Redirect ("/add_testcase/" +:+ pretty task_id)]
   ∧ finished (self w3) = true
   ∧ sql_session w3 = sql_session w0
   ∧ successful_calls (self w3) = successful_calls (self w2)
   ∧ successful_calls (self w4)
     = <[Some "output" := Some d2]> (<[Some "input" := Some d1]> ∅)
   ∧ raises (result (deliver (reportSuccess "output" d2)) w3) = true
   ∧ sql_session w4 = sql_session w0
   ∧ notifications (service w4) = notifications (service w3))
  (* a failure report, in any state *)
  ∧ (∀ (w : World) (data plus : option string) (e : string),
       let w' := exec (AddTestcaseHandler_storage_callback data plus (Some e)) w in
       notifications (service w')
         = notifications (service w)
           ++ [(PyFloat (Finite (clock w)), "Testcase storage failed", e)]
       ∧ sql_session w' = sql_session w
       ∧ successful_calls (self w') = successful_calls (self w)
       ∧ (∀ t r, task (self w) = Some t → tasks (sql_session w) !! t = Some r →
                 finished (self w') = true))
  (* a success report, in any state *)
  ∧ (∀ (w : World) (data plus : option string),
       successful_calls
         (self (exec (AddTestcaseHandler_storage_callback data plus None) w))
       = <[plus := data]> (successful_calls (self w)))
  (* any sequence of reports *)
  ∧ (∀ (rs : list report) (w : World),
       length (notifications (service (run_reports rs w)))
       = (length (notifications (service w)) + count_failures rs)%nat)
  (* any sequence of reports on a request that is finished *)
  ∧ (∀ (rs : list report) (w : World),
       finished (self w) = true →
       sql_session (run_reports rs w) = sql_session w
       ∧ responses (self (run_reports rs w)) = responses (self w)).
Proof.
  intros Hfin Hrow Hin Hout Hacc w1 w2 w3 w4.
  split; [|split; [|split; [|split]]].
  2:{ intros w data plus e.
      destruct (storage_callback_failure w data plus e) as (Hn & Hs & Hc & _).
      repeat split; try done. intros t r Ht Hr.
      by destruct (storage_callback_failure_response w data plus e t r Ht Hr). }
  2:{ intros w data plus.
      by destruct (storage_callback_success w data plus) as (Hc & _). }
  2:{ apply run_reports_notifications. }
  2:{ intros rs w. apply run_reports_finished. }
  destruct (AddTestcaseHandler_post_issued w0 task_id row fi fo fis fos
              Hrow Hin Hout Hacc)
    as (_ & Ht & Hcalls & Hses & Hns & Hrs & Hclk & _).
  fold w1 in Ht, Hcalls, Hses, Hns, Hrs, Hclk.
  (* first report: recorded, nothing fires *)
  assert (Hw2 : w2 = with_self (set_successful_calls
                        (<[Some "input" := Some d1]> ∅)) w1).
  { subst w2. unfold exec, deliver.
    rewrite storage_callback_success_waits; rewrite Hcalls; [done|].
    rewrite map_size_insert_None, map_size_empty by done. lia. }
  assert (H2 : successful_calls (self w2) = <[Some "input" := Some d1]> ∅
               ∧ task (self w2) = Some task_id
               ∧ responses (self w2) = responses (self w0)
               ∧ sql_session w2 = sql_session w0
               ∧ notifications (service w2) = notifications (service w0)
               ∧ clock w2 = clock w0).
  { rewrite Hw2. destruct w1; cbn in *. by subst. }
  destruct H2 as (Hc2 & Ht2 & Hr2 & Hs2 & Hn2 & Hk2).
  assert (Hfin2 : finished (self w2) = false)
    by (unfold finished in *; by rewrite Hr2).
  (* the failure report *)
  destruct (storage_callback_failure w2 None (Some "output") err)
    as (Hn3 & Hs3 & Hc3 & Ht3 & _).
  destruct (storage_callback_failure_response w2 None (Some "output") err
              task_id row) as (Hfin3 & Hr3);
    [done | by rewrite Hs2 |].
  rewrite Hfin2 in Hr3. destruct Hr3 as [_ Hr3].
  change (exec _ w2) with w3 in Hn3, Hs3, Hc3, Ht3, Hfin3, Hr3.
  (* the late success report *)
  destruct (storage_callback_success_finished w3 (Some d2) (Some "output") Hfin3)
    as [Hw4 Hraise].
  change (exec _ w3) with w4 in Hw4.
  destruct (storage_callback_success w3 (Some d2) (Some "output"))
    as (Hc4 & Hn4 & _).
  change (exec _ w3) with w4 in Hc4, Hn4.
  split; [by rewrite Hn3, Hn2, Hk2|].
  split; [by rewrite Hr3, Hr2|].
  split; [done|].
  split; [by rewrite Hs3, Hs2|].
  split; [done|].
  split; [by rewrite Hc4, Hc3, Hc2|].
  split.
  { apply Hraise. rewrite Hc3, Hc2.
    rewrite map_size_insert_None, map_size_insert_None, map_size_empty; [lia|done|].
    by rewrite lookup_insert_ne. }
  split; [|done].
  rewrite Hw4. destruct w3; cbn in *. by rewrite Hs3, Hs2.
Qed.

Lemma C1_failure_is_not_terminal_witness :
  let w0 := sample_world [] in
  let w1 := exec (AddTestcaseHandler_post 3) w0 in
  let w3 := run_reports [reportSuccess "input" "d1";
                         reportFailure "output" "disk full"] w1 in
  let w4 := exec (deliver (reportSuccess "output" "d2")) w3 in
  finished (self w0) = false
  ∧ accepts 2 (fs_replies (FS (service w0))) = true
  ∧ notifications (service w3)
    = [(PyFloat (Finite (clock w0)), "Testcase storage failed", "disk full")]
  ∧ finished (self w3) = true
  ∧ successful_calls (self w4) !! Some "output" = Some (Some "d2")
  ∧ raises (result (deliver (reportSuccess "output" "d2")) w3) = true
  ∧ sql_session (run_reports [reportSuccess "output" "d2";
                              reportFailure "input" "late"] w3)
    = sql_session w3.
Proof.
  split; [reflexivity|]. split; [reflexivity|].
  destruct (@C1_failure_is_not_terminal strip_blanks (sample_world []) 3
              sample_task
              (mkUploadedFile "sum.in" "1 2") (mkUploadedFile "sum.out" "3")
              [] [] "d1" "d2" "disk full" eq_refl eq_refl eq_refl eq_refl eq_refl)
    as ((Hn & _ & Hf & _ & _ & Hc & Hr & _) & _ & _ & _ & Hrs).
  split; [exact Hn|]. split; [exact Hf|].
  split; [cbn zeta; unfold run_reports; cbn [foldl]; rewrite Hc;
          apply lookup_insert_eq|].
  split; [exact Hr|].
  apply (Hrs [reportSuccess "output" "d2"; reportFailure "input" "late"]).
  exact Hf.
Defined.

(** C1 as stated fails on the handler: reports that follow a failure are
    not discarded.  In Scenario B the late success for ["output"] is
    recorded among the results; two failure reports on one session run the
    failure action twice; so do two store calls refused at issue time
    within a single [post]. *)
Lemma C1_late_reports_still_act :
  let w1 := exec (AddTestcaseHandler_post 3) (sample_world []) in
  successful_calls
    (self (run_reports [reportSuccess "input" "d1";
                        reportFailure "output" "disk full";
                        reportSuccess "output" "d2"] w1)) !! Some "output"
    = Some (Some "d2")
  ∧ length (notifications (service
              (run_reports [reportFailure "input" "timeout";
                            reportFailure "output" "disk full"] w1))) = 2%nat
  ∧ length (notifications (service
              (exec (AddTestcaseHandler_post 3)
                    (sample_world [false; false])))) = 2%nat.
Proof. vm_compute. done. Qed.

(** ** Tags outside the expected set *)

(** C7, amended: the callback does not look at the tag.  A success report
    is recorded under whatever [plus] it carries and no notification is
    appended.  While fewer than two results are held the call returns
    normally and leaves the session and the response untouched.  The test
    counts the results, whatever their tags: from two on, the callback
    goes on to create the testcase out of the results held for ["input"]
    and ["output"], stops with a [KeyError] if one of the two is missing,
    and otherwise adds the testcase on a request that is not finished. *)
Theorem C7_any_tag_is_recorded (w : World) (data plus : option string) :
  let calls := <[plus := data]> (successful_calls (self w)) in
  let m := AddTestcaseHandler_storage_callback data plus None in
  let w' := exec m w in
  successful_calls (self w') = calls
  ∧ notifications (service w') = notifications (service w)
  ∧ ((size calls < 2)%nat →
     result m w = Ok tt
     ∧ sql_session w' = sql_session w
     ∧ responses (self w') = responses (self w))
  ∧ ((2 ≤ size calls)%nat →
     (calls !! Some "input" = None → result m w = Raise (KeyError (Some "input")))
     ∧ (is_Some (calls !! Some "input") → calls !! Some "output" = None →
        result m w = Raise (KeyError (Some "output")))
     ∧ (∀ i o t row,
          calls !! Some "input" = Some i → calls !! Some "output" = Some o →
          task (self w) = Some t → tasks (sql_session w) !! t = Some row →
          finished (self w) = false →
          result m w = Ok tt
          ∧ added (sql_session w')
            = added (sql_session w)
              ++ [mkTestcase i o (length (task_testcases row))
                             (public (self w)) t])).
Proof.
  intros calls m w'. destruct (storage_callback_success w data plus) as (Hc & Hn & _).
  fold m in Hc, Hn. fold w' in Hc, Hn.
  split; [done|]. split; [done|]. split.
  - intros Hsize. subst w' m. unfold exec, result.
    rewrite storage_callback_success_waits by done. by destruct w.
  - intros Hsize. split; [|split].
    + intros Hi. subst m calls. destruct w as [srv ses h clk].
      py_unfold; simpl in *. case_decide; [|lia]. simpl. by rewrite Hi.
    + intros [i Hi] Ho. subst m calls. destruct w as [srv ses h clk].
      py_unfold; simpl in *. case_decide; [|lia]. simpl.
      rewrite Hi; simpl. by rewrite Ho.
    + intros i o t row Hi Ho Ht Hrow Hfin.
      destruct (storage_callback_success_fired w data plus i o t row)
        as (Hr & Ha & _); done.
Qed.

Lemma C7_any_tag_is_recorded_witness :
  let w := exec (AddTestcaseHandler_post 3) (sample_world []) in
  let w' := exec (deliver (reportSuccess "bogus" "x")) w in
  (size (<[Some "bogus" := Some "x"]> (successful_calls (self w))) < 2)%nat
  ∧ (2 ≤ size (<[Some "input" := Some "d1"]> (successful_calls (self w'))))%nat
  ∧ successful_calls (self w') !! Some "bogus" = Some (Some "x")
  ∧ result (deliver (reportSuccess "bogus" "x")) w = Ok tt
  ∧ result (deliver (reportSuccess "input" "d1")) w'
    = Raise (KeyError (Some "output")).
Proof.
  split; [vm_compute; lia|]. split; [vm_compute; lia|].
  destruct (C7_any_tag_is_recorded
              (exec (AddTestcaseHandler_post 3) (sample_world []))
              (Some "x") (Some "bogus")) as (Hc & _ & Hw & _).
  split; [cbn zeta; unfold deliver; rewrite Hc; apply lookup_insert_eq|].
  split; [apply Hw; vm_compute; lia|].
  destruct (C7_any_tag_is_recorded
              (exec (deliver (reportSuccess "bogus" "x"))
                    (exec (AddTestcaseHandler_post 3) (sample_world [])))
              (Some "d1") (Some "input")) as (_ & _ & _ & Hfull).
  destruct Hfull as (_ & Hout & _); [vm_compute; lia|].
  apply Hout; [by eexists|reflexivity].
Defined.

(** C7 as stated fails on the handler: a success report tagged ["bogus"] is
    taken without any trace and counts towards the two results the callback
    waits for: with ["input"] it sets off the creation of the testcase,
    which stops at the missing ["output"]. *)
Lemma C7_unexpected_tag_accepted :
  let w1 := exec (AddTestcaseHandler_post 3) (sample_world []) in
  let w2 := exec (deliver (reportSuccess "bogus" "x")) w1 in
  result (deliver (reportSuccess "bogus" "x")) w1 = Ok tt
  ∧ successful_calls (self w2) !! Some "bogus" = Some (Some "x")
  ∧ notifications (service w2) = []
  ∧ responses (self w2) = []
  ∧ result (deliver (reportSuccess "input" "d1")) w2
    = Raise (KeyError (Some "output")).
Proof. vm_compute. done. Qed.

(** ** Store calls refused at issue time *)

(** [AddTestcaseHandler.post] up to its first store call, and what follows
    when both calls are refused: the error branch of the callback runs
    twice within the one request. *)
Lemma AddTestcaseHandler_post_refused_twice `{!Strip} (w : World) (task_id : Z)
    (row : Task) (fi fo : UploadedFile) (fis fos : list UploadedFile)
    (rest : list bool) :
  finished (self w) = false →
  tasks (sql_session w) !! task_id = Some row →
  files (request (self w)) !! "input" = Some (fi :: fis) →
  files (request (self w)) !! "output" = Some (fo :: fos) →
  fs_replies (FS (service w)) = false :: false :: rest →
  let w' := exec (AddTestcaseHandler_post task_id) w in
  raises (result (AddTestcaseHandler_post task_id) w) = true
  ∧ notifications (service w')
    = notifications (service w)
      ++ [(PyFloat (Finite (clock w)), "Testcase storage failed", "Connection failed.");
          (PyFloat (Finite (clock w)), "Testcase storage failed", "Connection failed.")]
  ∧ responses (self w')
    = responses (self w) ++ [Redirect ("/add_testcase/" +:+ pretty task_id)]
  ∧ fs_sent (FS (service w')) = fs_sent (FS (service w))
  ∧ sql_session w' = sql_session w.
Proof.
  intros Hfin Hrow Hin Hout Hfs.
  destruct w as [[ns rs [replies sent]] ses h clk].
  unfold AddTestcaseHandler_post. py_unfold; cbn in *.
  rewrite Hrow; cbn. rewrite Hrow; cbn. rewrite Hin; cbn. rewrite Hout; cbn.
  subst replies; cbn. rewrite Hrow; cbn. rewrite Hfin; cbn.
  rewrite Hrow; cbn. rewrite existsb_app; cbn. rewrite orb_true_r; cbn.
  by rewrite <-app_assoc.
Qed.

(** C6 at a failing input: both store calls of [AddTestcaseHandler.post]
    are refused, on the sample deployment.  Each refusal is handed to the
    callback's error branch, as the claim says; the first redirect
    finishes the request, and the second one raises: [post] ends with an
    exception to its caller, after two notifications and one redirect,
    nothing having been sent. *)
Theorem C6_two_refusals_raise :
  let w := sample_world [false; false] in
  let w' := exec (AddTestcaseHandler_post 3) w in
  raises (result (AddTestcaseHandler_post 3) w) = true
  ∧ notifications (service w')
    = [(PyFloat (Finite (clock w)), "Testcase storage failed", "Connection failed.");
       (PyFloat (Finite (clock w)), "Testcase storage failed", "Connection failed.")]
  ∧ responses (self w') = [Redirect "/add_testcase/3"]
  ∧ fs_sent (FS (service w')) = []
  ∧ sql_session w' = sql_session w.
Proof.
  apply (AddTestcaseHandler_post_refused_twice (sample_world [false; false]) 3
           sample_task (mkUploadedFile "sum.in" "1 2")
           (mkUploadedFile "sum.out" "3") [] [] []); reflexivity.
Qed.

(** ** Notification timestamps *)

(** C9 at a failing input: a statement upload whose file name does not end
    in [.pdf], at clock reading 1300000000.5.  The notification that
    [AddStatementHandler.post] appends carries the float [time.time()]
    itself, not an integer. *)
Theorem C9_statement_notification_has_float_timestamp :
  let w := fresh text_statement_request (sample_world []) in
  let w' := exec (AddStatementHandler_post 3) w in
  notifications (service w')
  = [(PyFloat (Finite (2600000001 # 2)), "Invalid task statement",
      "The task statement must be a .pdf file.")]
  ∧ forallb (λ n : Notification, is_int n.1.1) (notifications (service w')) = false.
Proof. vm_compute. done. Qed.

(** ** Polling *)

Lemma add_all_notifications (ns : list Notification) (s : AdminWebServer) :
  notifications (add_all ns s) = notifications s ++ ns.
Proof.
  revert s. induction ns as [|[[ts subject] text] ns IH]; intros s.
  - by rewrite app_nil_r.
  - unfold add_all in *. cbn [foldl]. rewrite IH.
    unfold add_notification, set_notifications; cbn.
    by rewrite <-app_assoc.
Qed.

Lemma filter_notification_entries (qs : list Question) (ns : list Notification) :
  List.filter is_notification ((question_entry <$> qs) ++ (notification_entry <$> ns))
  = notification_entry <$> ns
  ∧ List.filter (λ e, negb (is_notification e))
      ((question_entry <$> qs) ++ (notification_entry <$> ns))
    = question_entry <$> qs.
Proof.
  rewrite !List.filter_app. split.
  - replace (List.filter is_notification (question_entry <$> qs)) with (@nil Entry)
      by (induction qs; done).
    induction ns as [|[[ts subject] text] ns IH]; [done|].
    cbn in *. by rewrite IH.
  - replace (List.filter (λ e, negb (is_notification e)) (notification_entry <$> ns))
      with (@nil Entry)
      by (induction ns as [|[[ts subject] text] ns IH]; done).
    rewrite app_nil_r. induction qs as [|q qs IH]; [done|].
    cbn in *. by rewrite IH.
Qed.

Section PollingFacts.
Context `{!Strip}.
Variable float : string → option pyfloat.

(** [get] on a readable [last_notification]: the unanswered questions after
    it, then the whole queue in append order, are written; the queue is
    left empty. *)
Lemma NotificationsHandler_get_drains (w : World) (last_notification : pyfloat) :
  float (since_argument (request (self w))) = Some last_notification →
  NotificationsHandler_get float w
  = (Ok tt,
     with_self
       (push_response
          (Write ((question_entry <$> unanswered_since last_notification
                                        (questions (sql_session w)))
                  ++ (notification_entry <$> notifications (service w)))))
       (with_service (set_notifications []) w)).
Proof.
  intros Hfloat. destruct w as [srv ses h clk].
  unfold NotificationsHandler_get, since_argument, int in *. py_unfold; cbn in *.
  destruct (arguments (request h) !! "last_notification"); cbn in *;
    rewrite Hfloat; done.
Qed.

Lemma NotificationsHandler_get_result (w : World) (last_notification : pyfloat) :
  float (since_argument (request (self w))) = Some last_notification →
  let w' := exec (NotificationsHandler_get float) w in
  result (NotificationsHandler_get float) w = Ok tt
  ∧ drained w' = notification_entry <$> notifications (service w)
  ∧ computed w' = question_entry <$> unanswered_since last_notification
                                       (questions (sql_session w))
  ∧ notifications (service w') = []
  ∧ sql_session w' = sql_session w.
Proof.
  intros Hfloat. unfold exec, result.
  rewrite (NotificationsHandler_get_drains w last_notification Hfloat).
  unfold drained, computed, written.
  destruct w as [srv ses h clk]; cbn.
  rewrite last_snoc.
  destruct (filter_notification_entries
              (unanswered_since last_notification (questions ses))
              (notifications srv)) as [-> ->].
  done.
Qed.
End PollingFacts.

(** C5: the drain writes the queued notifications in the order they were
    appended and leaves the queue empty, so the next drain returns exactly
    what was appended in between and nothing it has returned before.  On
    an empty queue: append timestamps 1, 2, 3, drain, and the drain returns
    them as [1; 2; 3]; append 4, drain again, and the drain returns [4]. *)
Theorem C5_drain_in_append_order `{!Strip} (float : string → option pyfloat)
    (w : World)
    (last_notification : pyfloat) :
  float (since_argument (request (self w))) = Some last_notification →
  let get := NotificationsHandler_get float in
  let r := request (self w) in
  let w' := exec get w in
  drained w' = notification_entry <$> notifications (service w)
  ∧ notifications (service w') = []
  ∧ (∀ later : list Notification,
       let w'' := exec get (fresh r (with_service (add_all later) w')) in
       drained w'' = notification_entry <$> later
       ∧ notifications (service w'') = [])
  ∧ (∀ s1 t1 s2 t2 s3 t3 s4 t4 : string,
       notifications (service w) = [] →
       let w3 := with_service (add_notification (PyInt 3) s3 t3)
                   (with_service (add_notification (PyInt 2) s2 t2)
                      (with_service (add_notification (PyInt 1) s1 t1) w)) in
       let w4 := exec get w3 in
       let w5 := with_service (add_notification (PyInt 4) s4 t4) w4 in
       let w6 := exec get (fresh r w5) in
       e_timestamp <$> drained w4 = [PyInt 1; PyInt 2; PyInt 3]
       ∧ e_timestamp <$> drained w6 = [PyInt 4]).
Proof.
  intros Hfloat get r w'.
  destruct (NotificationsHandler_get_result float w last_notification Hfloat)
    as (_ & Hd & _ & Hn & _).
  fold get in Hd, Hn. fold w' in Hd, Hn.
  split; [done|]. split; [done|]. split.
  - intros later w''.
    destruct (NotificationsHandler_get_result float
                (fresh r (with_service (add_all later) w')) last_notification)
      as (_ & Hd' & _ & Hn' & _); [done|].
    fold get in Hd', Hn'. fold w'' in Hd', Hn'.
    split; [|done]. rewrite Hd'.
    replace (notifications (service (fresh r (with_service (add_all later) w'))))
      with (notifications (add_all later (service w'))) by done.
    by rewrite add_all_notifications, Hn.
  - intros s1 t1 s2 t2 s3 t3 s4 t4 Hempty w3 w4 w5 w6.
    destruct (NotificationsHandler_get_result float w3 last_notification)
      as (_ & Hd4 & _ & Hn4 & _); [by destruct w|].
    fold get in Hd4, Hn4. fold w4 in Hd4, Hn4.
    destruct (NotificationsHandler_get_result float (fresh r w5) last_notification)
      as (_ & Hd6 & _); [done|].
    fold get in Hd6. fold w6 in Hd6.
    rewrite Hd4, Hd6. subst w5 w3.
    unfold fresh, with_self, with_service, add_notification, set_notifications;
      cbn. rewrite Hn4, Hempty. done.
Qed.

Lemma C5_drain_in_append_order_witness :
  let get := NotificationsHandler_get float_digits in
  let w := polling_world [] plain_poll in
  let w3 := with_service (add_notification (PyInt 3) "c" "third")
              (with_service (add_notification (PyInt 2) "b" "second")
                 (with_service (add_notification (PyInt 1) "a" "first") w)) in
  let w4 := exec get w3 in
  let w5 := with_service (add_notification (PyInt 4) "d" "fourth") w4 in
  let w6 := exec get (fresh plain_poll w5) in
  float_digits (since_argument (request (self w))) = Some (Finite (inject_Z 0))
  ∧ notifications (service w) = []
  ∧ e_timestamp <$> drained w4 = [PyInt 1; PyInt 2; PyInt 3]
  ∧ e_timestamp <$> drained w6 = [PyInt 4].
Proof.
  split; [reflexivity|]. split; [reflexivity|].
  destruct (@C5_drain_in_append_order strip_blanks float_digits
              (polling_world [] plain_poll) (Finite (inject_Z 0))
              ltac:(reflexivity))
    as (_ & _ & _ & HD).
  apply (HD "a" "first" "b" "second" "c" "third" "d" "fourth"). reflexivity.
Defined.

(** C8: [last_notification] filters the computed entries (the unanswered
    questions) only.  Two polls of the same server that differ in their
    [last_notification] return the same ["notification"] entries, namely
    the whole queue whatever the timestamps in it, and both leave the queue
    empty; their other entries are the unanswered questions later than the
    value each poll passed. *)
Theorem C8_since_filters_questions_only `{!Strip}
    (float : string → option pyfloat) (w : World) (r1 r2 : Request) (l1 l2 : pyfloat) :
  float (since_argument r1) = Some l1 →
  float (since_argument r2) = Some l2 →
  let w1 := exec (NotificationsHandler_get float) (fresh r1 w) in
  let w2 := exec (NotificationsHandler_get float) (fresh r2 w) in
  drained w1 = drained w2
  ∧ drained w1 = notification_entry <$> notifications (service w)
  ∧ notifications (service w1) = []
  ∧ notifications (service w2) = []
  ∧ computed w1 = question_entry <$> unanswered_since l1 (questions (sql_session w))
  ∧ computed w2 = question_entry <$> unanswered_since l2 (questions (sql_session w)).
Proof.
  intros H1 H2 w1 w2.
  destruct (NotificationsHandler_get_result float (fresh r1 w) l1 H1)
    as (_ & Hd1 & Hc1 & Hn1 & _).
  destruct (NotificationsHandler_get_result float (fresh r2 w) l2 H2)
    as (_ & Hd2 & Hc2 & Hn2 & _).
  fold w1 in Hd1, Hc1, Hn1. fold w2 in Hd2, Hc2, Hn2.
  rewrite Hd1, Hd2, Hc1, Hc2. by destruct w.
Qed.

Lemma C8_since_filters_questions_only_witness :
  let queue := [(PyInt 5, "Old", "queued long ago");
                (PyFloat (Finite (3001 # 2)), "New", "queued just now")] in
  let w := polling_world queue plain_poll in
  let w1 := exec (NotificationsHandler_get float_digits) (fresh (poll_request "0") w) in
  let w2 := exec (NotificationsHandler_get float_digits) (fresh (poll_request "1000") w) in
  float_digits (since_argument (poll_request "0")) = Some (Finite (inject_Z 0))
  ∧ float_digits (since_argument (poll_request "1000")) = Some (Finite (inject_Z 1000))
  ∧ drained w1 = drained w2
  ∧ drained w1 = notification_entry <$> queue
  ∧ length (computed w1) = 2%nat
  ∧ length (computed w2) = 1%nat.
Proof.
  split; [reflexivity|]. split; [reflexivity|].
  destruct (@C8_since_filters_questions_only strip_blanks float_digits
              (polling_world [(PyInt 5, "Old", "queued long ago");
                              (PyFloat (Finite (3001 # 2)), "New", "queued just now")]
                             plain_poll)
              (poll_request "0") (poll_request "1000")
              (Finite (inject_Z 0)) (Finite (inject_Z 1000))
              ltac:(reflexivity) ltac:(reflexivity))
    as (H12 & Hq & _ & _ & Hc1 & Hc2).
  split; [exact H12|]. split; [exact Hq|].
  split; [rewrite Hc1|rewrite Hc2]; reflexivity.
Defined.

(** * Further properties of the handlers *)

(** ** Statement uploads *)

(** [endswith] is the suffix test. *)
Lemma endswith_spec (s suffix : string) :
  endswith s suffix = true ↔ ∃ p, s = p +:+ suffix.
Proof.
  induction s as [|c s IH]; cbn [endswith].
  - destruct (String.eqb_spec "" suffix) as [<-|Hne].
    + split; [by exists ""|done].
    + split; [done|]. intros [p Hp]. destruct p; cbn in Hp; [done|discriminate].
  - destruct (String.eqb_spec (String c s) suffix) as [<-|Hne].
    + split; [by exists ""|done].
    + rewrite IH. split.
      * intros [p ->]. by exists (String c p).
      * intros [[|c' p] Hp]; cbn in Hp; [done|]. injection Hp as -> ->. by exists p.
Qed.

(** X1: a statement whose file name does not end in [.pdf] never reaches the
    file store: [post], on a request that has not been answered yet,
    returns normally having notified "Invalid task statement" and
    redirected back to the upload form; no store call is issued and the
    session is untouched. *)
Theorem AddStatementHandler_post_rejects_non_pdf (w : World) (task_id : Z)
    (row : Task) (f : UploadedFile) (fs : list UploadedFile) :
  finished (self w) = false →
  tasks (sql_session w) !! task_id = Some row →
  files (request (self w)) !! "statement" = Some (f :: fs) →
  endswith (filename f) ".pdf" = false →
  let w' := exec (AddStatementHandler_post task_id) w in
  result (AddStatementHandler_post task_id) w = Ok tt
  ∧ notifications (service w')
    = notifications (service w)
      ++ [(PyFloat (Finite (clock w)), "Invalid task statement",
           "The task statement must be a .pdf file.")]
  ∧ responses (self w')
    = responses (self w) ++ [Redirect ("/add_statement/" +:+ pretty task_id)]
  ∧ FS (service w') = FS (service w)
  ∧ sql_session w' = sql_session w.
Proof.
  intros Hfin Hrow Hfile Hpdf.
  destruct w as [[ns rs fst] ses h clk].
  unfold AddStatementHandler_post. py_unfold; cbn in *.
  rewrite Hrow; cbn. rewrite Hrow; cbn. rewrite Hfile; cbn. rewrite Hpdf; cbn.
  rewrite Hfin; cbn. done.
Qed.

Lemma AddStatementHandler_post_rejects_non_pdf_witness :
  let w := fresh text_statement_request (sample_world []) in
  finished (self w) = false
  ∧ endswith "sum.txt" ".pdf" = false
  ∧ FS (service (exec (AddStatementHandler_post 3) w)) = FS (service w)
  ∧ responses (self (exec (AddStatementHandler_post 3) w))
    = [Redirect "/add_statement/3"].
Proof.
  split; [reflexivity|]. split; [reflexivity|].
  destruct (AddStatementHandler_post_rejects_non_pdf
              (fresh text_statement_request (sample_world [])) 3 sample_task
              (mkUploadedFile "sum.txt" "Add two numbers.") []
              eq_refl eq_refl eq_refl eq_refl) as (_ & _ & Hr & Hfs & _).
  split; [exact Hfs | exact Hr].
Defined.

(** [AddStatementHandler.post] with its store call accepted. *)
Lemma AddStatementHandler_post_issued (w : World) (task_id : Z)
    (row : Task) (f : UploadedFile) (fs : list UploadedFile) :
  tasks (sql_session w) !! task_id = Some row →
  files (request (self w)) !! "statement" = Some (f :: fs) →
  endswith (filename f) ".pdf" = true →
  accepts 1 (fs_replies (FS (service w))) = true →
  let w' := exec (AddStatementHandler_post task_id) w in
  result (AddStatementHandler_post task_id) w = Ok tt
  ∧ fs_sent (FS (service w'))
    = fs_sent (FS (service w))
      ++ [mkPutFile (filename f) (body f)
                    ("Task statement for " +:+ task_name row)]
  ∧ fs_replies (FS (service w')) = tail (fs_replies (FS (service w)))
  ∧ notifications (service w') = notifications (service w)
  ∧ responses (self w') = responses (self w)
  ∧ sql_session w' = sql_session w
  ∧ task (self w') = Some task_id.
Proof.
  intros Hrow Hfile Hpdf Hacc.
  destruct w as [[ns rs [replies sent]] ses h clk].
  unfold AddStatementHandler_post. py_unfold; cbn in *.
  rewrite Hrow; cbn. rewrite Hrow; cbn. rewrite Hfile; cbn. rewrite Hpdf; cbn.
  destruct replies as [|[] replies]; cbn in *; try discriminate; done.
Qed.

(** X2: a [.pdf] statement that the channel accepts is handed over as one
    store call carrying the file name as its tag, the file's bytes and the
    description naming the task; [post] ends without a response (the
    request stays open for the callback), without a notification and
    without touching the session. *)
Theorem AddStatementHandler_post_issues_store_call (w : World) (task_id : Z)
    (row : Task) (f : UploadedFile) (fs : list UploadedFile) :
  tasks (sql_session w) !! task_id = Some row →
  files (request (self w)) !! "statement" = Some (f :: fs) →
  endswith (filename f) ".pdf" = true →
  accepts 1 (fs_replies (FS (service w))) = true →
  let w' := exec (AddStatementHandler_post task_id) w in
  result (AddStatementHandler_post task_id) w = Ok tt
  ∧ fs_sent (FS (service w'))
    = fs_sent (FS (service w))
      ++ [mkPutFile (filename f) (body f)
                    ("Task statement for " +:+ task_name row)]
  ∧ fs_replies (FS (service w')) = tail (fs_replies (FS (service w)))
  ∧ notifications (service w') = notifications (service w)
  ∧ responses (self w') = responses (self w)
  ∧ sql_session w' = sql_session w
  ∧ task (self w') = Some task_id.
Proof. apply AddStatementHandler_post_issued. Qed.

Lemma AddStatementHandler_post_issues_store_call_witness :
  let w := sample_world [] in
  endswith "sum.pdf" ".pdf" = true
  ∧ accepts 1 (fs_replies (FS (service w))) = true
  ∧ fs_sent (FS (service (exec (AddStatementHandler_post 3) w)))
    = [mkPutFile "sum.pdf" "%PDF-1.4" "Task statement for sum"].
Proof.
  split; [reflexivity|]. split; [reflexivity|].
  destruct (AddStatementHandler_post_issues_store_call
              (sample_world []) 3 sample_task
              (mkUploadedFile "sum.pdf" "%PDF-1.4") []
              eq_refl eq_refl eq_refl eq_refl) as (_ & Hs & _).
  exact Hs.
Defined.

(** X3: the whole statement upload, on a request that has not been answered
    yet.  After [post] has issued the store call and the channel reports
    success with the digest [data], the task's row carries [data] as its
    statement and is otherwise as before, every other task row is as
    before, the session has committed once, the handler redirects to the
    task page and nothing is notified. *)
Theorem AddStatementHandler_upload_stores_digest (w : World) (task_id : Z)
    (row : Task) (f : UploadedFile) (fs : list UploadedFile)
    (data plus : option string) :
  finished (self w) = false →
  tasks (sql_session w) !! task_id = Some row →
  files (request (self w)) !! "statement" = Some (f :: fs) →
  endswith (filename f) ".pdf" = true →
  accepts 1 (fs_replies (FS (service w))) = true →
  let w1 := exec (AddStatementHandler_post task_id) w in
  let w2 := exec (AddStatementHandler_storage_callback data plus None) w1 in
  result (AddStatementHandler_storage_callback data plus None) w1 = Ok tt
  ∧ tasks (sql_session w2) !! task_id
    = Some (mkTask (task_name row) data (task_testcases row) (task_contest row))
  ∧ (∀ other, other ≠ task_id →
       tasks (sql_session w2) !! other = tasks (sql_session w) !! other)
  ∧ commits (sql_session w2) = S (commits (sql_session w))
  ∧ added (sql_session w2) = added (sql_session w)
  ∧ responses (self w2)
    = responses (self w) ++ [Redirect ("/task/" +:+ pretty task_id)]
  ∧ notifications (service w2) = notifications (service w).
Proof.
  intros Hfin Hrow Hfile Hpdf Hacc w1 w2.
  destruct (AddStatementHandler_post_issued w task_id row f fs
              Hrow Hfile Hpdf Hacc) as (_ & _ & _ & Hn & Hr & Hs & Ht).
  fold w1 in Hn, Hr, Hs, Ht. subst w2. clearbody w1.
  destruct w1 as [srv1 ses1 h1 clk1]; cbn in *. subst ses1.
  py_unfold; cbn in *. rewrite Ht; cbn. rewrite Hrow; cbn.
  rewrite <-Hr in Hfin. repeat (rewrite Hfin; cbn).
  repeat split; try done.
  - by rewrite lookup_alter_eq, Hrow.
  - intros other Hne. by rewrite lookup_alter_ne.
  - by rewrite Hr.
Qed.

Lemma AddStatementHandler_upload_stores_digest_witness :
  let w := sample_world [] in
  let w1 := exec (AddStatementHandler_post 3) w in
  let w2 := exec (AddStatementHandler_storage_callback
                    (Some "9f86d0") (Some "sum.pdf") None) w1 in
  finished (self w) = false
  ∧ accepts 1 (fs_replies (FS (service w))) = true
  ∧ tasks (sql_session w2) !! 3 = Some (mkTask "sum" (Some "9f86d0") [] 7).
Proof.
  split; [reflexivity|]. split; [reflexivity|].
  destruct (AddStatementHandler_upload_stores_digest
              (sample_world []) 3 sample_task
              (mkUploadedFile "sum.pdf" "%PDF-1.4") []
              (Some "9f86d0") (Some "sum.pdf")
              eq_refl eq_refl eq_refl eq_refl eq_refl) as (_ & Hrow & _).
  exact Hrow.
Defined.

(** ** Requests that cannot start an upload *)

(** X4: [post] for a task that does not exist raises [HTTPError(404)], in
    both upload handlers, before anything else happens: the service (queue
    and file store), the session and the response are as they were. *)
Theorem post_on_missing_task_is_404 `{!Strip} (w : World) (task_id : Z) :
  tasks (sql_session w) !! task_id = None →
  let ws := exec (AddStatementHandler_post task_id) w in
  let wt := exec (AddTestcaseHandler_post task_id) w in
  result (AddStatementHandler_post task_id) w = Raise (HTTPError 404)
  ∧ result (AddTestcaseHandler_post task_id) w = Raise (HTTPError 404)
  ∧ service ws = service w ∧ sql_session ws = sql_session w
  ∧ responses (self ws) = responses (self w)
  ∧ service wt = service w ∧ sql_session wt = sql_session w
  ∧ responses (self wt) = responses (self w).
Proof.
  intros Hnone. destruct w as [srv ses h clk].
  unfold AddStatementHandler_post, AddTestcaseHandler_post. py_unfold; cbn in *.
  rewrite Hnone; cbn. done.
Qed.

Lemma post_on_missing_task_is_404_witness :
  tasks (sql_session (sample_world [])) !! 4 = None
  ∧ result (AddTestcaseHandler_post 4) (sample_world []) = Raise (HTTPError 404).
Proof.
  split; [reflexivity|].
  destruct (post_on_missing_task_is_404 (sample_world []) 4 eq_refl)
    as (_ & Ht & _).
  exact Ht.
Defined.

(** X5: a testcase form that lacks one of its two files stops [post] with a
    [KeyError] (the field is absent) or an [IndexError] (the field is
    empty) before either store call is issued: both files are read first,
    so the file that is present is not sent either. *)
Theorem AddTestcaseHandler_post_needs_both_files `{!Strip} (w : World)
    (task_id : Z) (row : Task) :
  tasks (sql_session w) !! task_id = Some row →
  has_upload "input" (request (self w)) && has_upload "output" (request (self w))
    = false →
  let w' := exec (AddTestcaseHandler_post task_id) w in
  (result (AddTestcaseHandler_post task_id) w = Raise (KeyError (Some "input"))
   ∨ result (AddTestcaseHandler_post task_id) w = Raise (KeyError (Some "output"))
   ∨ result (AddTestcaseHandler_post task_id) w = Raise IndexError)
  ∧ service w' = service w
  ∧ sql_session w' = sql_session w
  ∧ responses (self w') = responses (self w).
Proof.
  intros Hrow Hmiss. destruct w as [srv ses h clk].
  unfold has_upload in Hmiss.
  unfold AddTestcaseHandler_post. py_unfold; cbn in *.
  rewrite Hrow; cbn. rewrite Hrow; cbn.
  destruct (files (request h) !! "input") as [[|fi fis]|]; cbn in *; auto.
  destruct (files (request h) !! "output") as [[|fo fos]|]; cbn in *; auto.
  discriminate.
Qed.

Lemma AddTestcaseHandler_post_needs_both_files_witness :
  let w := fresh text_statement_request (sample_world []) in
  has_upload "input" (request (self w)) && has_upload "output" (request (self w))
    = false
  ∧ fs_sent (FS (service (exec (AddTestcaseHandler_post 3) w))) = [].
Proof.
  split; [reflexivity|].
  destruct (AddTestcaseHandler_post_needs_both_files
              (fresh text_statement_request (sample_world [])) 3 sample_task
              eq_refl eq_refl) as (_ & Hs & _).
  cbn zeta. by rewrite Hs.
Defined.

(** ** What a testcase is made of *)

(** [post] with both store calls accepted records whether the form carries
    a [public] field, whatever its value. *)
Lemma AddTestcaseHandler_post_public `{!Strip} (w : World) (task_id : Z)
    (row : Task) (fi fo : UploadedFile) (fis fos : list UploadedFile) :
  tasks (sql_session w) !! task_id = Some row →
  files (request (self w)) !! "input" = Some (fi :: fis) →
  files (request (self w)) !! "output" = Some (fo :: fos) →
  public (self (exec (AddTestcaseHandler_post task_id) w))
  = bool_decide (is_Some (arguments (request (self w)) !! "public")).
Proof.
  intros Hrow Hin Hout.
  destruct w as [[ns rs [replies sent]] ses h clk].
  unfold AddTestcaseHandler_post. py_unfold; cbn in *.
  rewrite Hrow; cbn. rewrite Hrow; cbn. rewrite Hin; cbn. rewrite Hout; cbn.
  destruct replies as [|[] [|[] replies]]; cbn; repeat (rewrite Hrow; cbn);
    repeat (destruct (existsb is_redirect _); cbn; repeat (rewrite Hrow; cbn));
    apply bool_decide_ext; rewrite not_eq_None_Some;
    by destruct (arguments (request h) !! "public").
Qed.

(** X6: the testcase a completed upload creates, on a request that has not
    been answered yet, is public exactly when the form carried a [public]
    field (an empty value counts), and is numbered after the testcases the
    task already has. *)
Theorem testcase_public_iff_field_present `{!Strip} (w0 : World) (task_id : Z)
    (row : Task) (fi fo : UploadedFile) (fis fos : list UploadedFile)
    (d1 d2 : string) :
  finished (self w0) = false →
  tasks (sql_session w0) !! task_id = Some row →
  files (request (self w0)) !! "input" = Some (fi :: fis) →
  files (request (self w0)) !! "output" = Some (fo :: fos) →
  accepts 2 (fs_replies (FS (service w0))) = true →
  let w1 := exec (AddTestcaseHandler_post task_id) w0 in
  added (sql_session
           (run_reports [reportSuccess "input" d1; reportSuccess "output" d2] w1))
  = added (sql_session w0)
    ++ [mkTestcase (Some d1) (Some d2) (length (task_testcases row))
          (bool_decide (is_Some (arguments (request (self w0)) !! "public")))
          task_id].
Proof.
  intros Hfin Hrow Hin Hout Hacc w1.
  destruct (AddTestcaseHandler_post_issued w0 task_id row fi fo fis fos
              Hrow Hin Hout Hacc) as (_ & Ht & Hcalls & Hses & Hns & Hrs & _).
  fold w1 in Ht, Hcalls, Hses, Hns, Hrs.
  pose proof (AddTestcaseHandler_post_public w0 task_id row fi fo fis fos
                Hrow Hin Hout) as Hpub. fold w1 in Hpub.
  destruct (two_successes_fire_once w0 w1 task_id row "input" "output" d1 d2
              (Some d1) (Some d2)) as (_ & _ & _ & _ & _ & Ha & _);
    try done.
  - unfold finished in *. by rewrite Hrs.
  - by rewrite Hses.
  - unfold run_reports; cbn [foldl]. by rewrite Ha, Hpub.
Qed.

Lemma testcase_public_iff_field_present_witness :
  let w0 := fresh public_testcase_request (sample_world []) in
  let w1 := exec (AddTestcaseHandler_post 3) w0 in
  finished (self w0) = false
  ∧ accepts 2 (fs_replies (FS (service w0))) = true
  ∧ added (sql_session
             (run_reports [reportSuccess "input" "d1";
                           reportSuccess "output" "d2"] w1))
    = [mkTestcase (Some "d1") (Some "d2") 0 true 3].
Proof.
  split; [reflexivity|]. split; [reflexivity|].
  cbn zeta.
  rewrite (testcase_public_iff_field_present
             (fresh public_testcase_request (sample_world []))
             3 sample_task
             (mkUploadedFile "sum.in" "1 2") (mkUploadedFile "sum.out" "3")
             [] [] "d1" "d2") by reflexivity.
  reflexivity.
Defined.

(** ** Any sequence of reports *)

(** What one success report can add to the session: nothing, or one
    committed testcase made of the results held for ["input"] and
    ["output"]. *)
Lemma storage_callback_success_adds (w : World) (data plus : option string) :
  let calls := <[plus := data]> (successful_calls (self w)) in
  let w' := exec (AddTestcaseHandler_storage_callback data plus None) w in
  (added (sql_session w') = added (sql_session w)
   ∧ commits (sql_session w') = commits (sql_session w))
  ∨ (∃ i o n p t,
        calls !! Some "input" = Some i ∧ calls !! Some "output" = Some o
        ∧ added (sql_session w') = added (sql_session w) ++ [mkTestcase i o n p t]
        ∧ commits (sql_session w') = S (commits (sql_session w))).
Proof.
  destruct w as [srv ses h clk]. py_unfold; cbn.
  case_decide; cbn; [|by left].
  destruct (<[plus:=data]> (successful_calls h) !! Some "input") as [i|] eqn:Hi;
    cbn; [|by left].
  destruct (<[plus:=data]> (successful_calls h) !! Some "output") as [o|] eqn:Ho;
    cbn; [|by left].
  destruct (task h) as [t|]; cbn; [|by left].
  destruct (tasks ses !! t) as [row|]; cbn; [|by left].
  destruct (existsb is_redirect (responses h)) eqn:Hfin; cbn; [by left|].
  repeat (rewrite Hfin; cbn).
  right. by eexists i, o, _, _, _.
Qed.

Lemma from_reports_mono (rs rs' : list report) (tc : Testcase) :
  rs ⊆ rs' → from_reports rs tc → from_reports rs' tc.
Proof.
  intros Hsub (d1 & d2 & Hi & Ho & H1 & H2).
  exists d1, d2. repeat split; auto.
Qed.

Lemma run_reports_from_reports (rs seen : list report) (w : World) :
  reported seen (successful_calls (self w)) →
  ∃ new, added (sql_session (run_reports rs w)) = added (sql_session w) ++ new
         ∧ Forall (from_reports (seen ++ rs)) new
         ∧ commits (sql_session (run_reports rs w))
           = (commits (sql_session w) + length new)%nat.
Proof.
  revert seen w. induction rs as [|r rs IH]; intros seen w Hrep.
  - exists []. cbn. rewrite app_nil_r. split; [done|]. split; [apply Forall_nil_2|lia].
  - unfold run_reports in *. cbn [foldl].
    set (w1 := exec (deliver r) w).
    assert (Hstep : reported (seen ++ [r]) (successful_calls (self w1))
                    ∧ ∃ new1, added (sql_session w1) = added (sql_session w) ++ new1
                              ∧ Forall (from_reports (seen ++ [r])) new1
                              ∧ commits (sql_session w1)
                                = (commits (sql_session w) + length new1)%nat).
    { subst w1. destruct r as [tag id|tag error]; cbn [deliver].
      - destruct (storage_callback_success w (Some id) (Some tag)) as (Hc & _).
        assert (Hrep' : reported (seen ++ [reportSuccess tag id])
                          (<[Some tag := Some id]> (successful_calls (self w)))).
        { intros k v Hkv. destruct (decide (k = Some tag)) as [->|Hne].
          - rewrite lookup_insert_eq in Hkv. injection Hkv as <-.
            exists tag, id. repeat split. set_solver.
          - rewrite lookup_insert_ne in Hkv by done.
            destruct (Hrep k v Hkv) as (tag' & d & -> & -> & Hin).
            exists tag', d. repeat split. set_solver. }
        split; [by rewrite Hc|].
        destruct (storage_callback_success_adds w (Some id) (Some tag))
          as [[Ha Hm]|(i & o & n & p & t & Hi & Ho & Ha & Hm)].
        + exists []. rewrite app_nil_r. split; [done|].
          split; [apply Forall_nil_2|]. rewrite Hm. cbn [length]. lia.
        + eexists [_]. split; [exact Ha|].
          split; [|rewrite Hm; cbn [length]; lia].
          apply Forall_cons_2; [|apply Forall_nil_2].
          destruct (Hrep' _ _ Hi) as (t1 & d1 & Ht1 & -> & Hin1).
          destruct (Hrep' _ _ Ho) as (t2 & d2 & Ht2 & -> & Hin2).
          injection Ht1 as <-. injection Ht2 as <-.
          by exists d1, d2.
      - destruct (storage_callback_failure w None (Some tag) error)
          as (_ & Hs & Hc & _).
        split.
        + rewrite Hc. intros k v Hkv.
          destruct (Hrep k v Hkv) as (tag' & d & -> & -> & Hin).
          exists tag', d. repeat split. set_solver.
        + exists []. rewrite app_nil_r, Hs. split; [done|].
          split; [apply Forall_nil_2|cbn [length]; lia]. }
    destruct Hstep as (Hrep1 & new1 & Ha1 & Hf1 & Hm1).
    destruct (IH (seen ++ [r]) w1 Hrep1) as (new2 & Ha2 & Hf2 & Hm2).
    exists (new1 ++ new2). rewrite Ha2, Ha1, Hm2, Hm1, length_app, <-app_assoc.
    split; [done|]. split; [|lia].
    rewrite <-app_assoc in Hf2. cbn in Hf2.
    apply Forall_app. split; [|done].
    eapply Forall_impl; [exact Hf1|].
    intros tc. apply from_reports_mono.
    intros x. rewrite !elem_of_app, !elem_of_cons, elem_of_nil. tauto.
Qed.

(** X7: no partial testcase.  Whatever reports reach a session that starts
    with no results (successes and failures in any order and number, tags
    of any kind), every testcase the session creates has as its input a
    content identifier that was reported for ["input"] and as its output
    one that was reported for ["output"]; the testcases that existed stay
    in place, and the session commits once per testcase it creates and at
    no other time. *)
Theorem run_reports_creates_only_complete_testcases (rs : list report) (w : World) :
  successful_calls (self w) = ∅ →
  ∃ new, added (sql_session (run_reports rs w)) = added (sql_session w) ++ new
         ∧ Forall (from_reports rs) new
         ∧ commits (sql_session (run_reports rs w))
           = (commits (sql_session w) + length new)%nat.
Proof.
  intros Hempty.
  apply (run_reports_from_reports rs [] w).
  intros k v Hkv. by rewrite Hempty, lookup_empty in Hkv.
Qed.

Lemma run_reports_creates_only_complete_testcases_witness :
  let w := exec (AddTestcaseHandler_post 3) (sample_world []) in
  let rs := [reportSuccess "bogus" "x"; reportSuccess "input" "d1";
             reportFailure "output" "disk full"; reportSuccess "input" "d3"] in
  successful_calls (self w) = ∅
  ∧ added (sql_session (run_reports rs w)) = [].
Proof.
  split; [reflexivity|].
  destruct (run_reports_creates_only_complete_testcases
              [reportSuccess "bogus" "x"; reportSuccess "input" "d1";
               reportFailure "output" "disk full"; reportSuccess "input" "d3"]
              (exec (AddTestcaseHandler_post 3) (sample_world [])) eq_refl)
    as (new & Ha & Hf & _).
  cbn zeta. rewrite Ha. destruct new as [|tc new]; [reflexivity|].
  exfalso. apply Forall_cons in Hf as [(d1 & d2 & _ & _ & _ & Hout) _].
  repeat (apply elem_of_cons in Hout as [Hout|Hout]; [discriminate Hout|]).
  by apply elem_of_nil in Hout.
Defined.

Lemma reports_success_for_elem (tag d : string) (rs : list report) :
  reportSuccess tag d ∈ rs → reports_success_for tag rs = true.
Proof.
  intros Hin. apply existsb_exists. exists (reportSuccess tag d).
  split; [by apply list_elem_of_In|]. apply String.eqb_refl.
Qed.

(** X8: without a success report for ["input"], or without one for
    ["output"], a session that starts with no results never creates a
    testcase and never commits, whatever else is reported. *)
Theorem run_reports_needs_both_tags (rs : list report) (w : World) :
  successful_calls (self w) = ∅ →
  reports_success_for "input" rs && reports_success_for "output" rs = false →
  added (sql_session (run_reports rs w)) = added (sql_session w)
  ∧ commits (sql_session (run_reports rs w)) = commits (sql_session w).
Proof.
  intros Hempty Hmiss.
  destruct (run_reports_from_reports rs [] w) as (new & Ha & Hf & Hm).
  { intros k v Hkv. by rewrite Hempty, lookup_empty in Hkv. }
  cbn [app] in Hf.
  destruct new as [|tc new].
  - rewrite Ha, Hm, app_nil_r. cbn. split; [done|lia].
  - exfalso. apply Forall_cons in Hf as [(d1 & d2 & _ & _ & Hin & Hout) _].
    apply reports_success_for_elem in Hin, Hout.
    by rewrite Hin, Hout in Hmiss.
Qed.

Lemma run_reports_needs_both_tags_witness :
  let w := exec (AddTestcaseHandler_post 3) (sample_world []) in
  let rs := [reportSuccess "input" "d1"; reportSuccess "bogus" "x";
             reportSuccess "input" "d3"; reportFailure "output" "disk full"] in
  successful_calls (self w) = ∅
  ∧ reports_success_for "input" rs && reports_success_for "output" rs = false
  ∧ added (sql_session (run_reports rs w)) = added (sql_session w).
Proof.
  split; [reflexivity|]. split; [reflexivity|].
  apply (run_reports_needs_both_tags
           [reportSuccess "input" "d1"; reportSuccess "bogus" "x";
            reportSuccess "input" "d3"; reportFailure "output" "disk full"]
           (exec (AddTestcaseHandler_post 3) (sample_world [])));
    reflexivity.
Defined.

(** X9: a second success report for the same tag replaces the first and
    does not complete the session: after two reports for one tag the
    handler holds a single result, the later one, and nothing else has
    changed. *)
Theorem repeated_tag_overwrites (w : World) (tag d d' : string) :
  successful_calls (self w) = ∅ →
  run_reports [reportSuccess tag d; reportSuccess tag d'] w
  = with_self (set_successful_calls {[ Some tag := Some d' ]}) w
  ∧ result (deliver (reportSuccess tag d')) (exec (deliver (reportSuccess tag d)) w)
    = Ok tt.
Proof.
  intros Hempty. unfold run_reports, exec, result; cbn [foldl deliver].
  rewrite (storage_callback_success_waits w).
  2:{ rewrite Hempty, map_size_insert_None, map_size_empty by done. lia. }
  cbn [fst snd].
  rewrite storage_callback_success_waits.
  2:{ destruct w; cbn in *.
      rewrite insert_insert_eq, Hempty, map_size_insert_None, map_size_empty
        by done. lia. }
  destruct w as [srv ses h clk]; cbn in *.
  by rewrite insert_insert_eq, Hempty, insert_empty.
Qed.

Lemma repeated_tag_overwrites_witness :
  let w := exec (AddTestcaseHandler_post 3) (sample_world []) in
  successful_calls (self w) = ∅
  ∧ successful_calls
      (self (run_reports [reportSuccess "input" "d1";
                          reportSuccess "input" "d3"] w))
    = {[ Some "input" := Some "d3" ]}.
Proof.
  split; [reflexivity|].
  destruct (repeated_tag_overwrites
              (exec (AddTestcaseHandler_post 3) (sample_world []))
              "input" "d1" "d3" eq_refl) as [Hrun _].
  cbn zeta. by rewrite Hrun.
Defined.

(** ** Polling: the unanswered questions *)

(** X10: a [last_notification] that [float] cannot read stops the poll with
    [ValueError] before anything is read or cleared: the world, pending
    notifications included, is exactly as it was and nothing is written. *)
Theorem NotificationsHandler_get_unreadable_since `{!Strip}
    (float : string → option pyfloat) (w : World) :
  float (since_argument (request (self w))) = None →
  NotificationsHandler_get float w = (Raise ValueError, w).
Proof.
  intros Hfloat. destruct w as [srv ses h clk].
  unfold NotificationsHandler_get, since_argument, int in *. py_unfold; cbn in *.
  destruct (arguments (request h) !! "last_notification"); cbn in *;
    by rewrite Hfloat.
Qed.

Lemma NotificationsHandler_get_unreadable_since_witness :
  let w := polling_world [(PyInt 5, "Old", "queued long ago")]
                         (poll_request "yesterday") in
  float_digits (since_argument (request (self w))) = None
  ∧ notifications (service (exec (NotificationsHandler_get float_digits) w))
    = [(PyInt 5, "Old", "queued long ago")].
Proof.
  split; [reflexivity|].
  cbn zeta. unfold exec.
  rewrite (@NotificationsHandler_get_unreadable_since strip_blanks float_digits
             (polling_world [(PyInt 5, "Old", "queued long ago")]
                            (poll_request "yesterday")))
    by reflexivity.
  reflexivity.
Defined.

Lemma filter_sublist_impl {A : Type} (p q : A → bool) (l : list A) :
  (∀ x, p x = true → q x = true) →
  List.filter p l `sublist_of` List.filter q l.
Proof.
  intros Himp. induction l as [|x l IH]; cbn; [constructor|].
  destruct (p x) eqn:Hp.
  - rewrite (Himp x Hp). by constructor.
  - destruct (q x); [by constructor|done].
Qed.

Lemma int_gt_float_mono (n : Z) (l1 l2 : Q) :
  (l1 <= l2)%Q →
  int_gt_float n (Finite l2) = true → int_gt_float n (Finite l1) = true.
Proof.
  unfold int_gt_float. intros Hle.
  rewrite !negb_true_iff, <-!not_true_iff_false, !Qle_bool_iff.
  intros Hn Hc. apply Hn. by eapply Qle_trans.
Qed.

(** X11: the later the [last_notification] a poll passes, the fewer
    questions it gets: for finite values [l1 ≤ l2] the questions reported
    at [l2] are, in order, among those reported at [l1]; and every
    question a poll reports is one without a reply. *)
Theorem unanswered_since_monotone (l1 l2 : Q) (qs : list Question) :
  (l1 <= l2)%Q →
  unanswered_since (Finite l2) qs `sublist_of` unanswered_since (Finite l1) qs
  ∧ unanswered_since (Finite l1) qs `sublist_of` qs
  ∧ Forall (λ q, reply_timestamp q = None
                 ∧ (l1 < inject_Z (question_timestamp q))%Q)
           (unanswered_since (Finite l1) qs).
Proof.
  intros Hle. unfold unanswered_since. split; [|split].
  - apply filter_sublist_impl. intros q.
    rewrite !andb_true_iff. intros [Hr Hgt]. split; [done|].
    by apply (int_gt_float_mono _ l1 l2).
  - induction qs as [|q qs IH]; cbn; [constructor|].
    destruct (_ && _); by constructor.
  - apply Forall_forall. intros q Hin.
    apply list_elem_of_In, filter_In in Hin as [_ Hq].
    apply andb_true_iff in Hq as [Hr Hgt]. split.
    + by apply bool_decide_eq_true in Hr.
    + unfold int_gt_float in Hgt.
      apply negb_true_iff, not_true_iff_false in Hgt.
      rewrite Qle_bool_iff in Hgt. by apply Qnot_le_lt.
Qed.

Lemma unanswered_since_monotone_witness :
  (inject_Z 0 <= inject_Z 1000)%Q
  ∧ unanswered_since (Finite (inject_Z 1000)) sample_questions
    `sublist_of` unanswered_since (Finite (inject_Z 0)) sample_questions.
Proof.
  assert (H : (inject_Z 0 <= inject_Z 1000)%Q) by (unfold Qle; cbn; lia).
  split; [exact H|].
  apply (unanswered_since_monotone (inject_Z 0) (inject_Z 1000)
           sample_questions H).
Defined.

(** X12: questions are not consumed by a poll, notifications are.  Two polls
    in a row with the same [last_notification] report the same questions;
    the second reports no notification; the session is never changed by a
    poll. *)
Theorem poll_repeats_questions_not_notifications `{!Strip}
    (float : string → option pyfloat) (w : World) (last_notification : pyfloat) :
  float (since_argument (request (self w))) = Some last_notification →
  let get := NotificationsHandler_get float in
  let w1 := exec get w in
  let w2 := exec get (fresh (request (self w)) w1) in
  computed w2 = computed w1
  ∧ computed w1 = question_entry <$> unanswered_since last_notification
                                       (questions (sql_session w))
  ∧ drained w2 = []
  ∧ sql_session w2 = sql_session w.
Proof.
  intros Hfloat get w1 w2.
  destruct (NotificationsHandler_get_result float w last_notification Hfloat)
    as (_ & _ & Hc1 & Hn1 & Hs1).
  fold get in Hc1, Hn1, Hs1. fold w1 in Hc1, Hn1, Hs1.
  destruct (NotificationsHandler_get_result float
              (fresh (request (self w)) w1) last_notification Hfloat)
    as (_ & Hd2 & Hc2 & _ & Hs2).
  fold get in Hd2, Hc2, Hs2. fold w2 in Hd2, Hc2, Hs2.
  rewrite Hc2, Hd2, Hs2, Hc1.
  replace (sql_session (fresh (request (self w)) w1)) with (sql_session w1) by done.
  replace (notifications (service (fresh (request (self w)) w1)))
    with (notifications (service w1)) by done.
  by rewrite Hs1, Hn1.
Qed.

Lemma poll_repeats_questions_not_notifications_witness :
  let w := polling_world [(PyInt 5, "Old", "queued long ago")] (poll_request "15") in
  let get := NotificationsHandler_get float_digits in
  let w1 := exec get w in
  let w2 := exec get (fresh (poll_request "15") w1) in
  float_digits (since_argument (request (self w))) = Some (Finite (inject_Z 15))
  ∧ e_subject <$> computed w1 = ["Scoring"]
  ∧ computed w2 = computed w1
  ∧ drained w2 = [].
Proof.
  split; [reflexivity|].
  destruct (@poll_repeats_questions_not_notifications strip_blanks float_digits
              (polling_world [(PyInt 5, "Old", "queued long ago")]
                             (poll_request "15"))
              (Finite (inject_Z 15)) ltac:(reflexivity))
    as (H21 & H1 & Hd & _).
  split; [|split; [exact H21 | exact Hd]].
  cbn zeta. rewrite H1. reflexivity.
Defined.

(** ** Numeric form fields *)

Section ArgumentsFacts.
Context `{!Strip}.
Variable int_of_string : string → option Z.
Variable repr : option Z → string.

(** [get_non_negative_int] only reads: the world is never changed. *)
Lemma get_non_negative_int_reads (argument_name : string) (default : option Z)
    (allow_empty : bool) (w : World) :
  exec (get_non_negative_int int_of_string repr argument_name default allow_empty) w
  = w.
Proof.
  destruct w as [srv ses h clk].
  unfold get_non_negative_int. py_unfold; cbn.
  destruct (arguments (request h) !! argument_name) as [t|]; cbn;
    (destruct (_ && _); cbn; [done|]).
  - destruct (int_of_string (strip t)) as [n|]; cbn; [|done]. by destruct (n <? 0)%Z.
  - destruct (int_of_string (repr default)) as [n|]; cbn; [|done].
    by destruct (n <? 0)%Z.
Qed.
End ArgumentsFacts.

(** The outcomes of [get_non_negative_int], case by case.  The text it
    works on is the submitted value as the framework hands it over, or
    [repr(default)] for a field that was not submitted. *)
Lemma get_non_negative_int_outcome `{!Strip} (int_of_string : string → option Z)
    (repr : option Z → string) (argument_name : string) (default : option Z)
    (allow_empty : bool) (w : World) :
  let m := get_non_negative_int int_of_string repr argument_name default
             allow_empty in
  let text := from_option strip (repr default)
                (arguments (request (self w)) !! argument_name) in
  exec m w = w
  ∧ match result m w with
    | Ok (Some n) => (0 ≤ n)%Z ∧ int_of_string text = Some n
    | Ok None => allow_empty = true ∧ (text = "" ∨ text = "None")
    | Raise e => e = ValueError
    end.
Proof.
  intros m text. split; [apply get_non_negative_int_reads|].
  subst m text. destruct w as [srv ses h clk].
  unfold get_non_negative_int. py_unfold; cbn.
  destruct (arguments (request h) !! argument_name) as [t|]; cbn.
  - destruct allow_empty; cbn.
    + repeat case_bool_decide; simplify_eq; cbn; auto.
      destruct (int_of_string (strip t)) as [n|]; cbn; [|done].
      destruct (Z.ltb_spec n 0); cbn; [done|]. split; [lia|done].
    + destruct (int_of_string (strip t)) as [n|]; cbn; [|done].
      destruct (Z.ltb_spec n 0); cbn; [done|]. split; [lia|done].
  - destruct allow_empty; cbn.
    + repeat case_bool_decide; simplify_eq; cbn; auto.
      destruct (int_of_string (repr default)) as [n|]; cbn; [|done].
      destruct (Z.ltb_spec n 0); cbn; [done|]. split; [lia|done].
    + destruct (int_of_string (repr default)) as [n|]; cbn; [|done].
      destruct (Z.ltb_spec n 0); cbn; [done|]. split; [lia|done].
Qed.

(** X13: what [get_non_negative_int] can give.  It never changes the world.
    The text it works on is the submitted value after the framework's
    clean-up, or [repr(default)] for a field that was not submitted.  A
    number it returns is not negative and is what [int] reads in that
    text; it returns [None] only when [allow_empty] is set and that text is
    empty or the word [None]; the only exception it raises is
    [ValueError]. *)
Theorem get_non_negative_int_range `{!Strip} (int_of_string : string → option Z)
    (repr : option Z → string) (argument_name : string) (default : option Z)
    (allow_empty : bool) (w : World) :
  let m := get_non_negative_int int_of_string repr argument_name default
             allow_empty in
  let text := from_option strip (repr default)
                (arguments (request (self w)) !! argument_name) in
  exec m w = w
  ∧ match result m w with
    | Ok (Some n) => (0 ≤ n)%Z ∧ int_of_string text = Some n
    | Ok None => allow_empty = true ∧ (text = "" ∨ text = "None")
    | Raise e => e = ValueError
    end.
Proof. apply get_non_negative_int_outcome. Qed.

(** X14: a field that is absent falls back on the text of [repr(default)].
    With the default [None] ([repr] gives the word [None], which [int]
    does not read) the result is [None] when [allow_empty] is set and a
    [ValueError] when it is not; with an integer default [d] that [int]
    reads back from its [repr], the result is [d] when [d ≥ 0] and a
    [ValueError] when [d < 0]. *)
Theorem get_non_negative_int_default `{!Strip} (int_of_string : string → option Z)
    (repr : option Z → string) (argument_name : string) (allow_empty : bool)
    (d : Z) (w : World) :
  arguments (request (self w)) !! argument_name = None →
  repr None = "None" →
  int_of_string "None" = None →
  int_of_string (repr (Some d)) = Some d →
  repr (Some d) ≠ "" → repr (Some d) ≠ "None" →
  result (get_non_negative_int int_of_string repr argument_name None allow_empty) w
  = (if allow_empty then Ok None else Raise ValueError)
  ∧ result (get_non_negative_int int_of_string repr argument_name (Some d)
              allow_empty) w
    = (if (d <? 0)%Z then Raise ValueError else Ok (Some d)).
Proof.
  intros Habs HreprN HintN Hround Hne1 Hne2.
  destruct w as [srv ses h clk].
  unfold get_non_negative_int. py_unfold; cbn in *.
  rewrite Habs; cbn. rewrite HreprN. split.
  - destruct allow_empty; cbn; [done|]. by rewrite HintN.
  - repeat case_bool_decide; simplify_eq.
    rewrite andb_false_r; cbn. rewrite Hround; cbn.
    by destruct (d <? 0)%Z.
Qed.

Lemma get_non_negative_int_default_witness :
  let w := polling_world [] plain_poll in
  arguments (request (self w)) !! "token_max" = None
  ∧ int_digits (repr_int (Some 7)) = Some 7
  ∧ result (get_non_negative_int int_digits repr_int "token_max" (Some 7) true) w
    = Ok (Some 7)
  ∧ result (get_non_negative_int int_digits repr_int "token_initial" None false) w
    = Raise ValueError.
Proof.
  split; [reflexivity|]. split; [reflexivity|].
  destruct (@get_non_negative_int_default strip_blanks int_digits repr_int
              "token_max" true 7 (polling_world [] plain_poll))
    as [_ H7]; try reflexivity; try discriminate.
  destruct (@get_non_negative_int_default strip_blanks int_digits repr_int
              "token_initial" false 7 (polling_world [] plain_poll))
    as [HN _]; try reflexivity; try discriminate.
  split; [exact H7 | exact HN].
Defined.

(** ** Adding a contest *)

Lemma get_argument_str_step `{!Strip} (arg default : string) (w : World) :
  get_argument_str arg default w
  = (Ok (from_option strip default (arguments (request (self w)) !! arg)), w).
Proof.
  unfold get_argument_str, get_argument, gets, mbind, Py_bind, mret, Py_ret.
  by destruct (arguments (request (self w)) !! arg).
Qed.

(** The steps a handler takes on its own session and response while the
    request is not finished. *)
Lemma lift_open_session (s : Site) :
  finished (self (world s)) = false → lift open_session s = (Ok tt, s).
Proof.
  intros Hfin. unfold lift, open_session, gets, pass, mbind, Py_bind, mret, Py_ret.
  rewrite Hfin. by destruct s.
Qed.

Lemma lift_sql_commit (s : Site) :
  finished (self (world s)) = false →
  lift sql_commit s
  = (Ok tt,
     mkSite (with_session
               (λ ses, mkSession (tasks ses) (questions ses) (added ses)
                                 (S (commits ses))) (world s))
            (added_contests s) (next_contest_id s) (page s)
            (reply_subject s) (reply_text s) (registry s)).
Proof.
  intros Hfin.
  unfold lift, sql_commit, open_session, gets, pass, modify, mbind, Py_bind,
    mret, Py_ret.
  by rewrite Hfin.
Qed.

Lemma lift_redirect (url : string) (s : Site) :
  finished (self (world s)) = false →
  lift (redirect url) s
  = (Ok tt,
     mkSite (with_self (push_response (Redirect url)) (world s))
            (added_contests s) (next_contest_id s) (page s)
            (reply_subject s) (reply_text s) (registry s)).
Proof. intros Hfin. unfold lift. by rewrite redirect_run. Qed.

Section ContestFacts.
Context `{!Strip}.
Variable int_of_string : string → option Z.
Variable repr : option Z → string.

(** One call of [get_non_negative_int] as a step: the world is handed back
    unchanged together with [None], a number that is not negative, or a
    [ValueError]. *)
Lemma get_non_negative_int_step (argument_name : string) (default : option Z)
    (allow_empty : bool) (w : World) :
  ∃ r, get_non_negative_int int_of_string repr argument_name default allow_empty w
       = (r, w)
       ∧ match r with
         | Ok x => nonneg_or_none x ∧ (allow_empty = false → x ≠ None)
         | Raise e => e = ValueError
         end.
Proof.
  destruct (get_non_negative_int_outcome int_of_string repr argument_name
              default allow_empty w) as [Hw Hr].
  unfold exec, result in *.
  destruct (get_non_negative_int _ _ _ _ _ w) as [r w'] eqn:Heq; cbn in *.
  subst w'. exists r. split; [done|].
  destruct r as [[n|]|e]; cbn; [| |done].
  - by destruct Hr.
  - destruct Hr as [-> _]. done.
Qed.

Lemma read_contest_tokens_step (w : World) :
  ∃ r, read_contest_tokens int_of_string repr w = (r, w)
       ∧ match r with
         | Ok tk => valid_tokens tk
         | Raise e => e = ValueError
         end.
Proof.
  unfold read_contest_tokens, mbind, Py_bind, mret, Py_ret.
  destruct (get_non_negative_int_step "token_initial" (Some 0) false w)
    as ([x1|e] & -> & H1); [|by eexists].
  destruct (get_non_negative_int_step "token_max" None true w)
    as ([x2|e] & -> & H2); [|by eexists].
  destruct (get_non_negative_int_step "token_total" None true w)
    as ([x3|e] & -> & H3); [|by eexists].
  destruct (get_non_negative_int_step "token_min_interval" None true w)
    as ([x4|e] & -> & H4); [|by eexists].
  destruct (get_non_negative_int_step "token_gen_time" None true w)
    as ([x5|e] & -> & H5); [|by eexists].
  destruct (get_non_negative_int_step "token_gen_number" None true w)
    as ([x6|e] & -> & H6); [|by eexists].
  eexists; split; [done|]. unfold valid_tokens; cbn.
  destruct H1 as [Hn1 Hs1]. destruct x1 as [n1|]; [|by destruct Hs1].
  repeat split; try tauto. by exists n1.
Qed.

End ContestFacts.

Lemma read_contest_dates_step `{!Strip} (parse_date : string → option Q)
    (w : World) :
  ∃ r, read_contest_dates parse_date w = (r, w)
       ∧ match r with
         | Ok _ => True
         | Raise e => e = ValueError
         end.
Proof.
  unfold read_contest_dates, mbind, Py_bind, mret, Py_ret, raise.
  rewrite get_argument_str_step.
  destruct (parse_date _) as [start|]; [|by eexists].
  rewrite get_argument_str_step.
  destruct (parse_date _) as [stop|]; by eexists.
Qed.

(** The last steps of [AddContestHandler.post]: the contest is handed to
    the session, the session commits and the new id is written. *)
Lemma add_contest_run (c : Contest) (s : Site) :
  finished (self (world s)) = false →
  (add_contest c;; lift sql_commit;; id ← committed_contest_id;
   write_page (Text (pretty (id : Z)))) s
  = (Ok tt,
     mkSite (with_session
               (λ ses, mkSession (tasks ses) (questions ses) (added ses)
                                 (S (commits ses))) (world s))
            (added_contests s ++ [c]) (next_contest_id s + 1)
            (page s ++ [Text (pretty (next_contest_id s))])
            (reply_subject s) (reply_text s) (registry s)).
Proof.
  intros Hfin. unfold add_contest, mbind, PyS_bind.
  rewrite lift_open_session by done. cbv beta iota.
  rewrite lift_sql_commit by (by destruct s).
  by destruct s.
Qed.

(** X15: [AddContestHandler.post], on a request that has not been answered
    yet, never raises and never half-does its job.  Either the form is
    turned down with one of four messages, and then no contest is handed to
    the session and nothing is committed; or exactly one contest is added
    and committed and its id is written back, and then that contest has a
    name that is not empty, a [token_initial] that is a number not below
    zero, every other token field absent or not below zero, and a start
    that is not after its end.  The notification queue is not touched
    either way. *)
Theorem AddContestHandler_post_validates `{!Strip}
    (int_of_string : string → option Z) (repr : option Z → string)
    (parse_date : string → option Q) (s : Site) :
  finished (self (world s)) = false →
  let post := AddContestHandler_post int_of_string repr parse_date in
  let s' := execS post s in
  resultS post s = Ok tt
  ∧ service (world s') = service (world s)
  ∧ ((∃ p, page s' = page s ++ [p] ∧ rejection p)
     ∧ added_contests s' = added_contests s
     ∧ sql_session (world s') = sql_session (world s)
     ∨ (∃ c, added_contests s' = added_contests s ++ [c] ∧ valid_contest c)
       ∧ commits (sql_session (world s')) = S (commits (sql_session (world s)))
       ∧ page s' = page s ++ [Text (pretty (next_contest_id s))]).
Proof.
  intros Hfin post s'. subst post s'. unfold execS, resultS.
  destruct (AddContestHandler_post int_of_string repr parse_date s)
    as [r s'] eqn:Hrun.
  cbn [fst snd].
  destruct s as [w ac nid pg rsub rtxt reg]. cbn [world] in Hfin.
  unfold AddContestHandler_post, try_except, passS in Hrun.
  unfold mbind at 1, PyS_bind at 1, lift at 1 in Hrun.
  rewrite get_argument_str_step in Hrun; cbn [world fst snd] in Hrun.
  set (name := from_option strip "" _) in Hrun.
  destruct (String.eqb_spec name "") as [Hname|Hname].
  { unfold write_page in Hrun; cbn in Hrun. injection Hrun as <- <-. cbn.
    split; [done|]. split; [done|]. left. split; [|done].
    eexists; split; [done|]. by left. }
  unfold mbind at 1, PyS_bind at 1, lift at 1 in Hrun.
  unfold get_argument at 1, gets at 1 in Hrun. cbn [world fst snd] in Hrun.
  set (description := match arguments (request (self w)) !! "description" with
                      | Some v => Some (strip v)
                      | None => None
                      end) in Hrun.
  unfold mbind at 1, PyS_bind at 1, mbind at 1, PyS_bind at 1, lift at 1 in Hrun.
  cbn [world] in Hrun.
  destruct (read_contest_tokens_step int_of_string repr w) as ([tk|e] & Heq & Htk);
    rewrite Heq in Hrun.
  2:{ subst e. unfold write_page, mbind, PyS_bind, mret, PyS_ret in Hrun;
        cbn in Hrun. injection Hrun as <- <-. cbn.
      split; [done|]. split; [done|]. left. split; [|done].
      eexists; split; [done|]. right; by left. }
  unfold mret at 1, PyS_ret at 1 in Hrun.
  cbn [world added_contests next_contest_id page reply_subject reply_text registry]
    in Hrun.
  unfold mbind at 1, PyS_bind at 1, mbind at 1, PyS_bind at 1, lift at 1 in Hrun.
  cbn [world] in Hrun.
  destruct (read_contest_dates_step parse_date w) as ([[start stop]|e] & Heq' & Hd);
    rewrite Heq' in Hrun.
  2:{ subst e. unfold write_page, mbind, PyS_bind, mret, PyS_ret in Hrun;
        cbn in Hrun. injection Hrun as <- <-. cbn.
      split; [done|]. split; [done|]. left. split; [|done].
      eexists; split; [done|]. right; right; by left. }
  unfold mret at 1, PyS_ret at 1 in Hrun.
  cbn [world added_contests next_contest_id page reply_subject reply_text registry]
    in Hrun.
  destruct (Qle_bool start stop) eqn:Hle; cbn [negb] in Hrun.
  - rewrite add_contest_run in Hrun by done. injection Hrun as <- <-. cbn.
    split; [done|]. split; [by destruct w|]. right. split; [|by destruct w].
    eexists; split; [done|]. unfold valid_contest; cbn.
    destruct tk; cbn in *. split; [done|]. split; [done|].
    by apply Qle_bool_iff.
  - unfold write_page in Hrun; cbn in Hrun. injection Hrun as <- <-. cbn.
    split; [done|]. split; [done|]. left. split; [|done].
    eexists; split; [done|]. right; right; by right.
Qed.

Lemma AddContestHandler_post_validates_witness :
  let s := sample_site (contest_request "  " "15/03/2011 09:00:00"
                                        "15/03/2011 14:00:00") in
  let post := AddContestHandler_post int_digits repr_int date_seconds in
  finished (self (world s)) = false
  ∧ resultS post s = Ok tt
  ∧ service (world (execS post s)) = service (world s).
Proof.
  split; [reflexivity|].
  destruct (@AddContestHandler_post_validates strip_blanks int_digits repr_int
              date_seconds
              (sample_site (contest_request "  " "15/03/2011 09:00:00"
                                            "15/03/2011 14:00:00")) eq_refl)
    as (Hr & Hs & _).
  split; [exact Hr | exact Hs].
Defined.

(** ** Replying to a question *)

Lemma filter_alter_rejected {A : Type} (p : A → bool) (f : A → A) (l : list A)
    (i : nat) :
  (∀ x, p (f x) = false) →
  List.filter p (alter f i l) = List.filter p (delete i l).
Proof.
  intros Hf. revert i. induction l as [|x l IH]; intros [|i]; cbn; try done.
  - by rewrite Hf.
  - by rewrite IH.
Qed.

(** The steps of [QuestionReplyHandler.post] on a question that exists, on
    a request that has not been answered yet.  The code, the text and the
    address are the submitted values as the framework hands them over. *)
Lemma QuestionReplyHandler_post_run `{!Strip} (quick_answers : gmap string string)
    (s : Site) (question_id : nat) (q : Question) :
  finished (self (world s)) = false →
  questions (sql_session (world s)) !! question_id = Some q →
  let w := world s in
  let args := arguments (request (self w)) in
  let code := from_option strip "" (args !! "reply_question_quick_answer") in
  let text := from_option strip "" (args !! "reply_question_text") in
  let ref := from_option strip "/" (args !! "ref") in
  QuestionReplyHandler_post quick_answers question_id s
  = (Ok tt,
     mkSite
       (with_self (push_response (Redirect ref))
          (with_session
             (λ ses, mkSession (tasks ses)
                       (alter (λ q, mkQuestion (question_timestamp q) (q_subject q)
                                      (q_text q) (Some (clock_seconds w)))
                              question_id (questions ses))
                       (added ses) (S (commits ses)))
             w))
       (added_contests s) (next_contest_id s) (page s)
       (<[question_id := from_option id "" (quick_answers !! code)]>
          (reply_subject s))
       (<[question_id := match quick_answers !! code with
                         | Some _ => ""
                         | None => text
                         end]> (reply_text s))
       (registry s)).
Proof.
  intros Hfin Hq w args code text ref. subst w args code text ref.
  destruct s as [[srv ses h clk] ac nid pg rsub rtxt reg]; cbn in *.
  unfold QuestionReplyHandler_post, lift, raiseS, set_reply_text,
    set_reply_subject, mbind, PyS_bind, mret, PyS_ret; cbn.
  rewrite !get_argument_str_step; cbn.
  unfold gets; cbn. rewrite Hq; cbn.
  rewrite !get_argument_str_step; cbn.
  unfold finished in Hfin.
  destruct (quick_answers !! _) as [answer|]; cbn;
    unfold sql_commit, open_session, redirect, gets, pass, modify, raise,
      mbind, Py_bind, mret, Py_ret, finished; cbn;
    repeat (rewrite Hfin; cbn);
    by rewrite ?insert_insert_eq.
Qed.

(** X16: a reply takes the question out of the polls.  [post] on a question
    that exists, on a request that has not been answered yet, returns
    normally, stamps that question with the integer clock reading and
    leaves every other question, and the question's own text, as they
    were; it commits once, redirects to the address submitted as [ref], as
    the framework hands it over, and notifies nothing.  From then on a
    poll, whatever [last_notification] it passes, reports exactly what it
    would report if the question were not in the table. *)
Theorem QuestionReplyHandler_post_marks_answered `{!Strip}
    (quick_answers : gmap string string) (s : Site) (question_id : nat)
    (q : Question) :
  finished (self (world s)) = false →
  questions (sql_session (world s)) !! question_id = Some q →
  let post := QuestionReplyHandler_post quick_answers question_id in
  let w := world s in
  let w' := world (execS post s) in
  resultS post s = Ok tt
  ∧ questions (sql_session w') !! question_id
    = Some (mkQuestion (question_timestamp q) (q_subject q) (q_text q)
                       (Some (clock_seconds w)))
  ∧ (∀ j, j ≠ question_id →
          questions (sql_session w') !! j = questions (sql_session w) !! j)
  ∧ (∀ last_notification,
       unanswered_since last_notification (questions (sql_session w'))
       = unanswered_since last_notification
           (delete question_id (questions (sql_session w))))
  ∧ commits (sql_session w') = S (commits (sql_session w))
  ∧ responses (self w')
    = responses (self w)
      ++ [Redirect (from_option strip "/"
                      (arguments (request (self w)) !! "ref"))]
  ∧ notifications (service w') = notifications (service w).
Proof.
  intros Hfin Hq post w w'. subst post w'. unfold execS, resultS.
  rewrite (QuestionReplyHandler_post_run quick_answers s question_id q Hfin Hq).
  subst w. destruct s as [[srv ses h clk] ac nid pg rsub rtxt reg]; cbn in *.
  split; [done|]. split; [by rewrite list_lookup_alter_eq, Hq|].
  split; [intros j Hj; by rewrite list_lookup_alter_ne|].
  split; [|done].
  intros last_notification. unfold unanswered_since.
  by apply filter_alter_rejected.
Qed.

Lemma QuestionReplyHandler_post_marks_answered_witness :
  let s := sample_site (reply_request "yes" "It is allowed." " /questions/1 ") in
  let s' := execS (QuestionReplyHandler_post sample_quick_answers 0) s in
  finished (self (world s)) = false
  ∧ questions (sql_session (world s)) !! 0%nat
    = Some (mkQuestion 10 "Limits" "Is n positive?" None)
  ∧ q_subject <$> unanswered_since NegInf (questions (sql_session (world s)))
    = ["Limits"; "Scoring"]
  ∧ q_subject <$> unanswered_since NegInf (questions (sql_session (world s')))
    = ["Scoring"]
  ∧ responses (self (world s')) = [Redirect "/questions/1"].
Proof.
  split; [reflexivity|]. split; [reflexivity|]. split; [reflexivity|].
  destruct (@QuestionReplyHandler_post_marks_answered strip_blanks
              sample_quick_answers
              (sample_site (reply_request "yes" "It is allowed." " /questions/1 "))
              0 (mkQuestion 10 "Limits" "Is n positive?" None) eq_refl eq_refl)
    as (_ & _ & _ & Hpoll & _ & Hr & _).
  split; [cbn zeta; rewrite Hpoll; reflexivity | exact Hr].
Defined.

(** X17: a reply carries a standard answer or a free text, never both.  The
    code and the text are the submitted values as the framework hands them
    over.  When the code names a known quick answer, the reply's subject is
    that answer and its text is empty, whatever text the form carried;
    when it names none (or an unknown one), the subject is empty and the
    text is the form's.  The reply columns of the other questions are as
    before. *)
Theorem QuestionReplyHandler_post_reply_columns `{!Strip}
    (quick_answers : gmap string string) (s : Site) (question_id : nat)
    (q : Question) :
  finished (self (world s)) = false →
  questions (sql_session (world s)) !! question_id = Some q →
  let s' := execS (QuestionReplyHandler_post quick_answers question_id) s in
  let args := arguments (request (self (world s))) in
  let code := from_option strip "" (args !! "reply_question_quick_answer") in
  let text := from_option strip "" (args !! "reply_question_text") in
  match quick_answers !! code with
  | Some answer => reply_subject s' !! question_id = Some answer
                   ∧ reply_text s' !! question_id = Some ""
  | None => reply_subject s' !! question_id = Some ""
            ∧ reply_text s' !! question_id = Some text
  end
  ∧ (∀ j, j ≠ question_id →
          reply_subject s' !! j = reply_subject s !! j
          ∧ reply_text s' !! j = reply_text s !! j).
Proof.
  intros Hfin Hq s' args code text. subst s' args code text. unfold execS.
  rewrite (QuestionReplyHandler_post_run quick_answers s question_id q Hfin Hq).
  cbn. split.
  - destruct (quick_answers !! _); cbn; by rewrite !lookup_insert_eq.
  - intros j Hj. by rewrite !lookup_insert_ne.
Qed.

Lemma QuestionReplyHandler_post_reply_columns_witness :
  let s := sample_site (reply_request " yes " " It is allowed. " "/questions/1") in
  let s' := execS (QuestionReplyHandler_post sample_quick_answers 0) s in
  finished (self (world s)) = false
  ∧ questions (sql_session (world s)) !! 0%nat
    = Some (mkQuestion 10 "Limits" "Is n positive?" None)
  ∧ reply_subject s' !! 0%nat = Some "Yes"
  ∧ reply_text s' !! 0%nat = Some "".
Proof.
  split; [reflexivity|]. split; [reflexivity|].
  destruct (@QuestionReplyHandler_post_reply_columns strip_blanks
              sample_quick_answers
              (sample_site (reply_request " yes " " It is allowed. " "/questions/1"))
              0 (mkQuestion 10 "Limits" "Is n positive?" None) eq_refl eq_refl)
    as [H _].
  exact H.
Defined.

(** X18: a reply to a question that does not exist raises [HTTPError(404)]
    and changes nothing: no reply column is written, nothing is committed
    and no response is sent. *)
Theorem QuestionReplyHandler_post_missing_question `{!Strip}
    (quick_answers : gmap string string) (s : Site) (question_id : nat) :
  questions (sql_session (world s)) !! question_id = None →
  QuestionReplyHandler_post quick_answers question_id s
  = (Raise (HTTPError 404), s).
Proof.
  intros Hq. destruct s as [[srv ses h clk] ac nid pg rsub rtxt reg]; cbn in *.
  unfold QuestionReplyHandler_post, lift, raiseS, mbind, PyS_bind; cbn.
  rewrite !get_argument_str_step; cbn.
  unfold gets; cbn. by rewrite Hq.
Qed.

Lemma QuestionReplyHandler_post_missing_question_witness :
  let s := sample_site (reply_request "yes" "" "/") in
  questions (sql_session (world s)) !! 7%nat = None
  ∧ QuestionReplyHandler_post sample_quick_answers 7 s
    = (Raise (HTTPError 404), s).
Proof.
  split; [reflexivity|].
  apply (@QuestionReplyHandler_post_missing_question strip_blanks
           sample_quick_answers (sample_site (reply_request "yes" "" "/")) 7).
  reflexivity.
Defined.

(** ** A contest form with the token fields left out *)

Lemma get_non_negative_int_absent `{!Strip} (int_of_string : string → option Z)
    (repr : option Z → string) (argument_name : string) (w : World) :
  arguments (request (self w)) !! argument_name = None →
  repr None = "None" →
  get_non_negative_int int_of_string repr argument_name None true w = (Ok None, w).
Proof.
  intros Habs Hrepr. destruct w as [srv ses h clk].
  unfold get_non_negative_int. py_unfold; cbn in *.
  rewrite Habs, Hrepr; cbn. done.
Qed.

(** X19: the defaults of a new contest.  The values are the submitted ones
    as the framework hands them over.  A form, on a request that has not
    been answered yet, with a name that is not empty, a start and an end
    that [strptime] reads, the start not after the end, and none of the six
    token fields, adds exactly one contest: it has the form's name and
    description, [token_initial] 0 and every other token field [None];
    the session commits once and the page shows the new id. *)
Theorem AddContestHandler_post_defaults `{!Strip}
    (int_of_string : string → option Z) (repr : option Z → string)
    (parse_date : string → option Q) (s : Site) (start stop : Q) :
  let args := arguments (request (self (world s))) in
  let name := from_option strip "" (args !! "name") in
  finished (self (world s)) = false →
  String.eqb name "" = false →
  args !! "token_initial" = None → args !! "token_max" = None →
  args !! "token_total" = None → args !! "token_min_interval" = None →
  args !! "token_gen_time" = None → args !! "token_gen_number" = None →
  repr None = "None" →
  int_of_string (repr (Some 0)) = Some 0 →
  parse_date (from_option strip "" (args !! "start")) = Some start →
  parse_date (from_option strip "" (args !! "end")) = Some stop →
  Qle_bool start stop = true →
  let s' := execS (AddContestHandler_post int_of_string repr parse_date) s in
  added_contests s'
  = added_contests s
    ++ [mkContest name (strip <$> args !! "description") (Some 0) None None None
                  None None start stop]
  ∧ commits (sql_session (world s')) = S (commits (sql_session (world s)))
  ∧ page s' = page s ++ [Text (pretty (next_contest_id s))]
  ∧ next_contest_id s' = next_contest_id s + 1.
Proof.
  intros args name Hfin Hne H1 H2 H3 H4 H5 H6 HreprN Hzero Hstart Hstop Hle s'.
  subst s' args name. unfold execS.
  destruct (AddContestHandler_post int_of_string repr parse_date s)
    as [r s'] eqn:Hrun.
  cbn [snd].
  destruct s as [w ac nid pg rsub rtxt reg]. cbn [world] in *.
  unfold AddContestHandler_post, try_except, passS in Hrun.
  unfold mbind at 1, PyS_bind at 1, lift at 1 in Hrun.
  rewrite get_argument_str_step in Hrun; cbn [world fst snd] in Hrun.
  rewrite Hne in Hrun.
  unfold mbind at 1, PyS_bind at 1, lift at 1 in Hrun.
  unfold get_argument at 1, gets at 1 in Hrun. cbn [world fst snd] in Hrun.
  assert (Htk : read_contest_tokens int_of_string repr w
                = (Ok (mkTokens (Some 0) None None None None None), w)).
  { assert (Hinit : get_non_negative_int int_of_string repr "token_initial"
                       (Some 0) false w = (Ok (Some 0), w)).
    { destruct w as [srv ses h clk]; cbn in *.
      unfold get_non_negative_int. py_unfold; cbn.
      rewrite H1; cbn. by rewrite Hzero. }
    unfold read_contest_tokens, mbind, Py_bind, mret, Py_ret.
    rewrite Hinit; cbv beta iota.
    do 5 (rewrite get_non_negative_int_absent by done; cbv beta iota).
    done. }
  unfold mbind at 1, PyS_bind at 1, mbind at 1, PyS_bind at 1, lift at 1 in Hrun.
  cbn [world] in Hrun. rewrite Htk in Hrun.
  unfold mret at 1, PyS_ret at 1 in Hrun.
  cbn [world added_contests next_contest_id page reply_subject reply_text registry
       tk_initial tk_max tk_total tk_min_interval tk_gen_time tk_gen_number]
    in Hrun.
  assert (Hd : read_contest_dates parse_date w = (Ok (start, stop), w)).
  { unfold read_contest_dates, mbind, Py_bind, mret, Py_ret.
    rewrite get_argument_str_step, Hstart, get_argument_str_step, Hstop. done. }
  unfold mbind at 1, PyS_bind at 1, mbind at 1, PyS_bind at 1, lift at 1 in Hrun.
  cbn [world] in Hrun. rewrite Hd in Hrun.
  unfold mret at 1, PyS_ret at 1 in Hrun.
  cbn [world added_contests next_contest_id page reply_subject reply_text registry]
    in Hrun.
  rewrite Hle in Hrun; cbn [negb] in Hrun.
  rewrite add_contest_run in Hrun by done. injection Hrun as <- <-. cbn.
  destruct w as [srv ses h clk]; cbn.
  by destruct (arguments (request h) !! "description").
Qed.

Lemma AddContestHandler_post_defaults_witness :
  let s := sample_site (contest_request " Spring round" "15/03/2011 09:00:00"
                                        "15/03/2011 14:00:00") in
  let s' := execS (AddContestHandler_post int_digits repr_int date_seconds) s in
  finished (self (world s)) = false
  ∧ date_seconds "15/03/2011 09:00:00" = Some (inject_Z 1300179600)
  ∧ date_seconds "15/03/2011 14:00:00" = Some (inject_Z 1300197600)
  ∧ Qle_bool (inject_Z 1300179600) (inject_Z 1300197600) = true
  ∧ added_contests s'
    = [mkContest "Spring round" None (Some 0) None None None None None
                 (inject_Z 1300179600) (inject_Z 1300197600)]
  ∧ page s' = [Text "1"].
Proof.
  split; [reflexivity|]. split; [reflexivity|]. split; [reflexivity|].
  split; [reflexivity|].
  destruct (@AddContestHandler_post_defaults strip_blanks int_digits repr_int
              date_seconds
              (sample_site (contest_request " Spring round" "15/03/2011 09:00:00"
                                            "15/03/2011 14:00:00"))
              (inject_Z 1300179600) (inject_Z 1300197600))
    as (Ha & _ & Hp & _); try reflexivity.
  split; [exact Ha | exact Hp].
Defined.

(** ** Users *)

Lemma notify_now_run (subject text : string) (s : Site) :
  notify_now subject text s
  = (Ok tt,
     mkSite (with_service (add_notification (PyInt (clock_seconds (world s)))
                                            subject text) (world s))
            (added_contests s) (next_contest_id s) (page s)
            (reply_subject s) (reply_text s) (registry s)).
Proof. by destruct s as [[srv ses h clk] ac nid pg rsub rtxt reg]. Qed.

(** Brings every test of whether the request is finished back to the
    handler [h] the request started with. *)
Ltac fold_finished h :=
  repeat match goal with
         | |- context [finished ?x] =>
             lazymatch x with
             | h => fail
             | _ => change (finished x) with (finished h)
             end
         end.

(** What the loop of [AddUserHandler.post] comes to. *)
Lemma AddUserHandler_scan_run (contest_id : Z) (name : string) (users : list User)
    (s : Site) :
  AddUserHandler_scan contest_id name users s
  = if name_taken name users then
      if finished (self (world s)) then
        (Raise (Exception "Cannot redirect after headers have been written"),
         mkSite (with_service
                   (add_notification (PyInt (clock_seconds (world s)))
                      "Duplicate username"
                      "The requested username already exists in the contest.")
                   (world s))
                (added_contests s) (next_contest_id s) (page s)
                (reply_subject s) (reply_text s) (registry s))
      else
        (Ok true,
         mkSite (with_self (push_response
                              (Redirect ("/add_user/" +:+ pretty contest_id)))
                   (with_service
                      (add_notification (PyInt (clock_seconds (world s)))
                         "Duplicate username"
                         "The requested username already exists in the contest.")
                      (world s)))
                (added_contests s) (next_contest_id s) (page s)
                (reply_subject s) (reply_text s) (registry s))
    else (Ok false, s).
Proof.
  induction users as [|u rest IH]; cbn [AddUserHandler_scan name_taken existsb].
  - done.
  - destruct (String.eqb (username u) name); cbn [orb].
    + unfold mbind, PyS_bind. rewrite notify_now_run.
      destruct s as [[srv ses h clk] ac nid pg rsub rtxt reg].
      unfold lift, redirect, gets, raise, modify, mbind, Py_bind; cbn.
      fold_finished h. by destruct (finished h).
    + exact IH.
Qed.

Lemma users_of_app (c : Z) (rows rows' : list (Z * User)) :
  users_of c (rows ++ rows') = users_of c rows ++ users_of c rows'.
Proof. unfold users_of. by rewrite List.filter_app, fmap_app. Qed.

Lemma name_taken_false (name : string) (users : list User) :
  name_taken name users = false → name ∉ username <$> users.
Proof.
  induction users as [|u rest IH]; cbn; [intros _; by apply not_elem_of_nil|].
  intros Hor. apply orb_false_iff in Hor as [Hu Hrest].
  apply not_elem_of_cons. split; [|by apply IH].
  apply String.eqb_neq in Hu. congruence.
Qed.

Lemma lift_get_argument_str `{!Strip} (arg default : string) (s : Site) :
  lift (get_argument_str arg default) s
  = (Ok (from_option strip default (arguments (request (self (world s))) !! arg)),
     s).
Proof. unfold lift. rewrite get_argument_str_step. by destruct s. Qed.

Lemma lift_get_argument `{!Strip} (arg : string) (default : option string)
    (s : Site) :
  lift (get_argument arg default) s
  = (Ok (match arguments (request (self (world s))) !! arg with
         | Some v => Some (strip v)
         | None => default
         end), s).
Proof. by destruct s. Qed.

(** Whether a field was submitted, as the test [!= False] finds it. *)
Lemma submitted_not_none `{!Strip} (x : option string) :
  bool_decide (match x with
               | Some v => Some (strip v)
               | None => None
               end ≠ None)
  = bool_decide (is_Some x).
Proof. apply bool_decide_ext. rewrite not_eq_None_Some. by destruct x. Qed.

Ltac site_simpl :=
  cbv beta iota;
  cbn [world added_contests next_contest_id page reply_subject reply_text
       registry contest_ids user_rows next_user_id attachment manager
       added_files with_registry set_user_rows fst snd
       self request service sql_session clock
       with_self with_service with_session set_contest].

(** The whole of [AddUserHandler.post] on a contest that exists.  The
    fields are the submitted values as the framework hands them over. *)
Lemma AddUserHandler_post_run `{!Strip} (contest_id : Z) (s : Site) :
  contest_id ∈ contest_ids (registry s) →
  let w := world s in
  let args := arguments (request (self w)) in
  let name := from_option strip "" (args !! "username") in
  let w1 := with_self (set_contest (Some contest_id)) w in
  AddUserHandler_post contest_id s
  = if name_taken name (users_of contest_id (user_rows (registry s))) then
      if finished (self w) then
        (Raise (Exception "Cannot redirect after headers have been written"),
         mkSite (with_service
                   (add_notification (PyInt (clock_seconds w))
                      "Duplicate username"
                      "The requested username already exists in the contest.")
                   w1)
                (added_contests s) (next_contest_id s) (page s)
                (reply_subject s) (reply_text s) (registry s))
      else
        (Ok tt,
         mkSite (with_self (push_response
                              (Redirect ("/add_user/" +:+ pretty contest_id)))
                   (with_service
                      (add_notification (PyInt (clock_seconds w))
                         "Duplicate username"
                         "The requested username already exists in the contest.")
                      w1))
                (added_contests s) (next_contest_id s) (page s)
                (reply_subject s) (reply_text s) (registry s))
    else
      if finished (self w) then
        (Raise DetachedInstanceError,
         mkSite w1 (added_contests s) (next_contest_id s) (page s)
                (reply_subject s) (reply_text s) (registry s))
      else
        (Ok tt,
         mkSite (with_self (push_response
                              (Redirect ("/user/"
                                         +:+ pretty (next_user_id (registry s)))))
                   (with_service
                      (add_notification (PyInt (clock_seconds w))
                         "User added successfully." "")
                      (with_session
                         (λ ses, mkSession (tasks ses) (questions ses) (added ses)
                                           (S (commits ses))) w1)))
                (added_contests s) (next_contest_id s) (page s)
                (reply_subject s) (reply_text s)
                (mkRegistry (contest_ids (registry s))
                   (user_rows (registry s)
                    ++ [(contest_id,
                         mkUser (next_user_id (registry s))
                           (from_option strip "" (args !! "real_name")) name
                           (from_option strip "" (args !! "password"))
                           (from_option strip "0.0.0.0" (args !! "ip"))
                           (bool_decide (is_Some (args !! "hidden"))))])
                   (next_user_id (registry s) + 1)
                   (attachment (registry s)) (manager (registry s))
                   (added_files (registry s)))).
Proof.
  intros Hin w args name w1. subst w args name w1.
  destruct s as [[srv ses h clk] ac nid pg rsub rtxt reg].
  cbn [world registry self] in *.
  unfold AddUserHandler_post, retrieve_contest, mbind, PyS_bind, passS,
    mret, PyS_ret.
  unfold getsS at 1. site_simpl. case_decide; [|done].
  unfold lift at 1, modify at 1. site_simpl.
  rewrite !lift_get_argument_str. site_simpl.
  unfold getsS at 1. site_simpl.
  rewrite AddUserHandler_scan_run. site_simpl. fold_finished h.
  destruct (name_taken _ _); site_simpl.
  { destruct (finished h); site_simpl; reflexivity. }
  rewrite !lift_get_argument_str. site_simpl.
  rewrite lift_get_argument. site_simpl.
  destruct (finished h) eqn:Hfin.
  - unfold lift at 1, open_session, gets, raise, mbind, Py_bind. site_simpl.
    fold_finished h. rewrite Hfin. reflexivity.
  - rewrite lift_open_session by exact Hfin. site_simpl.
    unfold getsS at 1. site_simpl.
    unfold modify_registry at 1. site_simpl.
    rewrite lift_sql_commit by exact Hfin. site_simpl.
    rewrite notify_now_run. site_simpl.
    rewrite lift_redirect by exact Hfin. site_simpl.
    rewrite submitted_not_none. reflexivity.
Qed.

Lemma contest_names_users_of (c : Z) (n : string) (rows : list (Z * User)) :
  (c, n) ∈ contest_names rows ↔ n ∈ username <$> users_of c rows.
Proof.
  unfold contest_names, users_of.
  induction rows as [|[c' u] rows IH]; cbn.
  - by rewrite !elem_of_nil.
  - rewrite elem_of_cons, IH. destruct (Z.eqb_spec c' c) as [->|Hne]; cbn.
    + rewrite elem_of_cons. split.
      * intros [Heq|?]; [left; congruence|by right].
      * intros [->|?]; [by left|by right].
    + split; [intros [Heq|?]; [congruence|done]|by right].
Qed.

Lemma AddUserHandler_post_missing `{!Strip} (contest_id : Z) (s : Site) :
  contest_id ∉ contest_ids (registry s) →
  resultS (AddUserHandler_post contest_id) s = Raise (HTTPError 404)
  ∧ registry (execS (AddUserHandler_post contest_id) s) = registry s
  ∧ service (world (execS (AddUserHandler_post contest_id) s)) = service (world s)
  ∧ sql_session (world (execS (AddUserHandler_post contest_id) s))
    = sql_session (world s)
  ∧ responses (self (world (execS (AddUserHandler_post contest_id) s)))
    = responses (self (world s)).
Proof.
  intros Hnot.
  assert (Hrun : AddUserHandler_post contest_id s
                 = (Raise (HTTPError 404),
                    mkSite (with_self (set_contest None) (world s))
                           (added_contests s) (next_contest_id s) (page s)
                           (reply_subject s) (reply_text s) (registry s))).
  { unfold AddUserHandler_post, retrieve_contest, mbind, PyS_bind.
    unfold getsS at 1. cbv beta iota. case_decide; [done|].
    by destruct s as [[srv ses h clk] ac nid pg rsub rtxt reg]. }
  unfold execS, resultS. rewrite Hrun.
  by destruct s as [[srv ses h clk] ac nid pg rsub rtxt reg].
Qed.

(** X20: the outcome of [AddUserHandler.post] on a contest that exists, on
    a request that has not been answered yet.  The fields are the
    submitted values as the framework hands them over.  When a user of the
    contest already has the requested username, no row is added and
    nothing is committed; the handler notifies "Duplicate username", with
    the integer clock reading as timestamp, and redirects back to the
    form.  Otherwise exactly one row is appended, for this contest, with
    the form's fields ([ip] defaulting to 0.0.0.0, [hidden] set when the
    field is present) and the id the database assigns; the session commits
    once, the handler notifies "User added successfully." and redirects to
    the new user's page. *)
Theorem AddUserHandler_post_outcome `{!Strip} (contest_id : Z) (s : Site) :
  finished (self (world s)) = false →
  contest_id ∈ contest_ids (registry s) →
  let post := AddUserHandler_post contest_id in
  let s' := execS post s in
  let w := world s in
  let args := arguments (request (self w)) in
  let name := from_option strip "" (args !! "username") in
  resultS post s = Ok tt
  ∧ if name_taken name (users_of contest_id (user_rows (registry s))) then
      registry s' = registry s
      ∧ sql_session (world s') = sql_session w
      ∧ notifications (service (world s'))
        = notifications (service w)
          ++ [(PyInt (clock_seconds w), "Duplicate username",
               "The requested username already exists in the contest.")]
      ∧ responses (self (world s'))
        = responses (self w) ++ [Redirect ("/add_user/" +:+ pretty contest_id)]
    else
      user_rows (registry s')
      = user_rows (registry s)
        ++ [(contest_id,
             mkUser (next_user_id (registry s))
               (from_option strip "" (args !! "real_name")) name
               (from_option strip "" (args !! "password"))
               (from_option strip "0.0.0.0" (args !! "ip"))
               (bool_decide (is_Some (args !! "hidden"))))]
      ∧ next_user_id (registry s') = next_user_id (registry s) + 1
      ∧ commits (sql_session (world s')) = S (commits (sql_session w))
      ∧ notifications (service (world s'))
        = notifications (service w)
          ++ [(PyInt (clock_seconds w), "User added successfully.", "")]
      ∧ responses (self (world s'))
        = responses (self w)
          ++ [Redirect ("/user/" +:+ pretty (next_user_id (registry s)))].
Proof.
  intros Hfin Hin post s' w args name. subst post s' w args name.
  unfold execS, resultS. rewrite (AddUserHandler_post_run contest_id s Hin).
  cbv zeta. rewrite Hfin.
  destruct (name_taken _ _); cbn;
    by destruct s as [[srv ses h clk] ac nid pg rsub rtxt reg].
Qed.

Lemma AddUserHandler_post_outcome_witness :
  let s := user_site (user_request "Ada King" " ada ") in
  let s' := execS (AddUserHandler_post 1) s in
  finished (self (world s)) = false
  ∧ name_taken "ada" (users_of 1 (user_rows (registry s))) = true
  ∧ user_rows (registry s') = sample_user_rows
  ∧ responses (self (world s')) = [Redirect "/add_user/1"].
Proof.
  split; [reflexivity|]. split; [reflexivity|].
  destruct (@AddUserHandler_post_outcome strip_blanks 1
              (user_site (user_request "Ada King" " ada ")) eq_refl)
    as [_ Hcase].
  - vm_compute. set_solver.
  - replace (name_taken _ _) with true in Hcase by reflexivity.
    destruct Hcase as (Hreg & _ & _ & Hresp).
    split; [by rewrite Hreg|exact Hresp].
Defined.

(** X21: [AddUserHandler.post] keeps usernames unique within each contest.
    If no two users of a contest share a username before the request,
    none do after it, whatever the form and whichever contest it names,
    existing or not. *)
Theorem AddUserHandler_post_keeps_usernames_unique `{!Strip} (contest_id : Z)
    (s : Site) :
  unique_usernames (user_rows (registry s)) →
  unique_usernames (user_rows (registry (execS (AddUserHandler_post contest_id) s))).
Proof.
  intros Huniq.
  destruct (decide (contest_id ∈ contest_ids (registry s))) as [Hin|Hnot].
  - unfold execS. rewrite (AddUserHandler_post_run contest_id s Hin).
    cbv zeta.
    destruct (name_taken _ _) eqn:Htaken;
      destruct (finished (self (world s))); cbn; try done.
    unfold unique_usernames, contest_names in *.
    rewrite fmap_app. cbn. apply NoDup_app. split; [done|].
    split; [|apply NoDup_singleton].
    intros x Hx Hx'. apply list_elem_of_singleton in Hx' as ->.
    apply contest_names_users_of in Hx.
    by apply name_taken_false in Htaken.
  - destruct (AddUserHandler_post_missing contest_id s Hnot) as (_ & -> & _).
    done.
Qed.

Lemma AddUserHandler_post_keeps_usernames_unique_witness :
  let s := user_site (user_request "Grace Hopper" "grace") in
  bool_decide (unique_usernames (user_rows (registry s))) = true
  ∧ unique_usernames (user_rows (registry (execS (AddUserHandler_post 2) s)))
  ∧ length (user_rows (registry (execS (AddUserHandler_post 2) s))) = 4%nat.
Proof.
  split; [reflexivity|]. split; [|reflexivity].
  apply (@AddUserHandler_post_keeps_usernames_unique strip_blanks 2
           (user_site (user_request "Grace Hopper" "grace"))).
  apply (bool_decide_unpack _). reflexivity.
Defined.

(** *** Editing a user *)

Lemma find_user_lookup (uid : Z) (rows : list (Z * User)) (i : nat) (c : Z)
    (u : User) :
  find_user uid rows = Some (i, c, u) → rows !! i = Some (c, u) ∧ user_id u = uid.
Proof.
  revert i. induction rows as [|[c' u'] rows IH]; intros i; cbn; [done|].
  destruct (Z.eqb_spec (user_id u') uid) as [Heq|Hne].
  - intros [= <- <- <-]. done.
  - destruct (find_user uid rows) as [[[j c''] u'']|]; cbn; [|done].
    intros [= <- <- <-]. cbn. by apply IH.
Qed.

Lemma UserViewHandler_scan_run (uid : Z) (old_name new_name : string)
    (users : list User) (s : Site) :
  UserViewHandler_scan uid old_name new_name users s
  = if other_has old_name new_name users then
      if finished (self (world s)) then
        (Raise (Exception "Cannot redirect after headers have been written"),
         mkSite (with_service
                   (add_notification (PyInt (clock_seconds (world s)))
                      "Duplicate username"
                      "The requested username already exists in the contest.")
                   (world s))
                (added_contests s) (next_contest_id s) (page s)
                (reply_subject s) (reply_text s) (registry s))
      else
        (Ok true,
         mkSite (with_self (push_response (Redirect ("/user/" +:+ pretty uid)))
                   (with_service
                      (add_notification (PyInt (clock_seconds (world s)))
                         "Duplicate username"
                         "The requested username already exists in the contest.")
                      (world s)))
                (added_contests s) (next_contest_id s) (page s)
                (reply_subject s) (reply_text s) (registry s))
    else (Ok false, s).
Proof.
  induction users as [|u rest IH]; cbn [UserViewHandler_scan other_has existsb].
  - done.
  - destruct (negb (String.eqb (username u) old_name)
              && String.eqb (username u) new_name); cbn [orb].
    + unfold mbind, PyS_bind. rewrite notify_now_run.
      destruct s as [[srv ses h clk] ac nid pg rsub rtxt reg].
      unfold lift, redirect, gets, raise, modify, mbind, Py_bind; cbn.
      fold_finished h. by destruct (finished h).
    + exact IH.
Qed.

(** The whole of [UserViewHandler.post] on a user that exists: the rows
    once [post] has written the real name, and once it has written every
    field.  The fields are the submitted values as the framework hands
    them over. *)
Lemma UserViewHandler_post_run `{!Strip} (uid : Z) (s : Site) (i : nat)
    (contest_id : Z) (user : User) :
  find_user uid (user_rows (registry s)) = Some (i, contest_id, user) →
  let w := world s in
  let args := arguments (request (self w)) in
  let rn := from_option strip (real_name user) (args !! "real_name") in
  let name := from_option strip (username user) (args !! "username") in
  let pw := from_option strip (password user) (args !! "password") in
  let addr := from_option strip (ip user) (args !! "ip") in
  let hid := bool_decide (is_Some (args !! "hidden")) in
  let rows1 := alter (λ row : Z * User,
                        (row.1, mkUser (user_id row.2) rn (username row.2)
                                       (password row.2) (ip row.2) (hidden row.2)))
                     i (user_rows (registry s)) in
  let rows2 := alter (λ row : Z * User,
                        (row.1, mkUser (user_id row.2) rn name pw addr hid))
                     i (user_rows (registry s)) in
  let w1 := with_self (set_contest (Some contest_id)) w in
  UserViewHandler_post uid s
  = if other_has (username user) name (users_of contest_id rows1) then
      if finished (self w) then
        (Raise (Exception "Cannot redirect after headers have been written"),
         mkSite (with_service
                   (add_notification (PyInt (clock_seconds w))
                      "Duplicate username"
                      "The requested username already exists in the contest.")
                   w1)
                (added_contests s) (next_contest_id s) (page s)
                (reply_subject s) (reply_text s)
                (set_user_rows rows1 (registry s)))
      else
        (Ok tt,
         mkSite (with_self (push_response (Redirect ("/user/" +:+ pretty uid)))
                   (with_service
                      (add_notification (PyInt (clock_seconds w))
                         "Duplicate username"
                         "The requested username already exists in the contest.")
                      w1))
                (added_contests s) (next_contest_id s) (page s)
                (reply_subject s) (reply_text s)
                (set_user_rows rows1 (registry s)))
    else
      if finished (self w) then
        (Raise DetachedInstanceError,
         mkSite w1 (added_contests s) (next_contest_id s) (page s)
                (reply_subject s) (reply_text s)
                (set_user_rows rows2 (registry s)))
      else
        (Ok tt,
         mkSite (with_self (push_response (Redirect ("/user/" +:+ pretty uid)))
                   (with_service
                      (add_notification (PyInt (clock_seconds w))
                         "User updated successfully." "")
                      (with_session
                         (λ ses, mkSession (tasks ses) (questions ses) (added ses)
                                           (S (commits ses))) w1)))
                (added_contests s) (next_contest_id s) (page s)
                (reply_subject s) (reply_text s)
                (set_user_rows rows2 (registry s))).
Proof.
  intros Hfind w args rn name pw addr hid rows1 rows2 w1.
  subst w args rn name pw addr hid rows1 rows2 w1.
  destruct s as [[srv ses h clk] ac nid pg rsub rtxt reg].
  cbn [world registry self] in *.
  unfold UserViewHandler_post, mbind, PyS_bind, passS, mret, PyS_ret.
  unfold getsS at 1. site_simpl. rewrite Hfind. site_simpl.
  unfold lift at 1, modify at 1. site_simpl.
  rewrite lift_get_argument_str. site_simpl.
  unfold update_user at 1, modify_registry at 1. site_simpl.
  rewrite lift_get_argument_str. site_simpl.
  unfold getsS at 1. site_simpl.
  rewrite UserViewHandler_scan_run. site_simpl. fold_finished h.
  destruct (other_has _ _ _); site_simpl.
  { destruct (finished h); site_simpl; reflexivity. }
  unfold update_user at 1, modify_registry at 1. site_simpl.
  rewrite lift_get_argument_str. site_simpl.
  unfold update_user at 1, modify_registry at 1. site_simpl.
  rewrite lift_get_argument_str. site_simpl.
  unfold update_user at 1, modify_registry at 1. site_simpl.
  rewrite lift_get_argument. site_simpl.
  unfold update_user at 1, modify_registry at 1. site_simpl.
  rewrite submitted_not_none.
  destruct (finished h) eqn:Hfin.
  - unfold lift at 1, sql_commit, open_session, gets, raise, mbind, Py_bind.
    site_simpl. fold_finished h. rewrite Hfin. site_simpl.
    rewrite !list_alter_alter_eq.
    unfold set_user_rows, with_self, with_service, with_session, clock_seconds.
    cbn [contest_ids user_rows next_user_id attachment manager added_files
         service sql_session self clock].
    reflexivity.
  - rewrite lift_sql_commit by exact Hfin. site_simpl.
    rewrite notify_now_run. site_simpl.
    rewrite lift_redirect by exact Hfin. site_simpl.
    rewrite !list_alter_alter_eq.
    unfold set_user_rows, with_self, with_service, with_session, clock_seconds.
    cbn [contest_ids user_rows next_user_id attachment manager added_files
         service sql_session self clock].
    reflexivity.
Qed.

Lemma UserViewHandler_post_missing `{!Strip} (uid : Z) (s : Site) :
  find_user uid (user_rows (registry s)) = None →
  UserViewHandler_post uid s = (Raise (HTTPError 404), s).
Proof.
  intros Hfind. unfold UserViewHandler_post, mbind, PyS_bind.
  unfold getsS at 1. cbv beta iota. by rewrite Hfind.
Qed.

(** Writing fields other than the username leaves the contest and name
    pairs alone; writing the username changes one pair. *)
Lemma contest_names_alter (f : User → User) (i : nat) (rows : list (Z * User)) :
  (∀ u, username (f u) = username u) →
  contest_names (alter (λ row : Z * User, (row.1, f row.2)) i rows)
  = contest_names rows.
Proof.
  intros Hf. unfold contest_names.
  rewrite (list_fmap_alter _ _ id).
  - by apply list_alter_id.
  - apply Forall_forall. intros [c u] _. cbn. by rewrite Hf.
Qed.

Lemma contest_names_rename (f : User → User) (name : string) (i : nat) (c : Z)
    (u : User) (rows : list (Z * User)) :
  (∀ u, username (f u) = name) →
  rows !! i = Some (c, u) →
  contest_names (alter (λ row : Z * User, (row.1, f row.2)) i rows)
  = <[i := (c, name)]> (contest_names rows).
Proof.
  intros Hf Hi. unfold contest_names.
  rewrite (list_fmap_alter _ _ (λ p : Z * string, (p.1, name))).
  - rewrite list_insert_alter. apply list_alter_ext; [|done].
    intros [c' n'] Hc'. rewrite list_lookup_fmap, Hi in Hc'. cbn in Hc'.
    by injection Hc' as <- <-.
  - apply Forall_forall. intros [c' u'] _. cbn. by rewrite Hf.
Qed.

Lemma elem_of_list_insert_inv {A : Type} (l : list A) (i : nat) (x y : A) :
  y ∈ <[i := x]> l → y = x ∨ y ∈ l.
Proof.
  revert i. induction l as [|z l IH]; intros [|i]; cbn; auto.
  - rewrite !elem_of_cons. tauto.
  - rewrite !elem_of_cons. intros [->|Hy]; [auto|].
    destruct (IH i Hy); auto.
Qed.

Lemma NoDup_list_insert {A : Type} (l : list A) (i : nat) (x : A) :
  NoDup l → x ∉ l → NoDup (<[i := x]> l).
Proof.
  intros Hnd. revert i.
  induction Hnd as [|y l Hy Hnd IH]; intros i Hx; [apply NoDup_nil_2|].
  apply not_elem_of_cons in Hx as [Hxy Hxl].
  destruct i as [|i]; cbn.
  - by apply NoDup_cons_2.
  - apply NoDup_cons_2; [|by apply IH].
    intros Hin. apply elem_of_list_insert_inv in Hin as [->|?]; done.
Qed.

Lemma other_has_false (old_name new_name : string) (users : list User) :
  other_has old_name new_name users = false →
  new_name ≠ old_name → new_name ∉ username <$> users.
Proof.
  intros Hnone Hne. induction users as [|u rest IH]; cbn in *.
  - by apply not_elem_of_nil.
  - apply orb_false_iff in Hnone as [Hu Hrest].
    apply not_elem_of_cons. split; [|by apply IH].
    intros ->. rewrite String.eqb_refl, andb_true_r in Hu.
    apply negb_false_iff, String.eqb_eq in Hu. done.
Qed.

(** Writing the real name does not change who else has a name. *)
Lemma other_has_real_name (old_name new_name rn : string) (c : Z) (i : nat)
    (rows : list (Z * User)) :
  other_has old_name new_name
    (users_of c (alter (λ row : Z * User,
                          (row.1, mkUser (user_id row.2) rn (username row.2)
                                         (password row.2) (ip row.2)
                                         (hidden row.2))) i rows))
  = other_has old_name new_name (users_of c rows).
Proof.
  unfold other_has, users_of. revert i.
  induction rows as [|[c' u] rows IH]; intros [|i]; cbn; try done.
  - destruct (c' =? c)%Z; cbn; done.
  - destruct (c' =? c)%Z; cbn; by rewrite IH.
Qed.

(** X22: [UserViewHandler.post] keeps usernames unique within each contest.
    If no two users of a contest share a username before the request, none
    do after it, whether the user exists or not, whether the new name is
    refused or taken over, and also when the name is left as it is. *)
Theorem UserViewHandler_post_keeps_usernames_unique `{!Strip} (uid : Z)
    (s : Site) :
  unique_usernames (user_rows (registry s)) →
  unique_usernames (user_rows (registry (execS (UserViewHandler_post uid) s))).
Proof.
  intros Huniq. unfold execS.
  destruct (find_user uid (user_rows (registry s))) as [[[i c] user]|] eqn:Hfind.
  - rewrite (UserViewHandler_post_run uid s i c user Hfind).
    apply find_user_lookup in Hfind as [Hrow _].
    cbv zeta.
    set (rows1 := alter _ i (user_rows (registry s))).
    assert (Hnames1 : contest_names rows1 = contest_names (user_rows (registry s))).
    { subst rows1.
      by apply (contest_names_alter
                  (λ u, mkUser (user_id u) _ (username u) (password u) (ip u)
                               (hidden u))). }
    destruct (other_has _ _ _) eqn:Hother;
      destruct (finished (self (world s))); cbn; unfold unique_usernames;
      try (by rewrite Hnames1).
    all: set (name := from_option strip (username user) _) in *.
    all: rewrite (contest_names_rename
                    (λ u, mkUser (user_id u) _ name _ _ _) name i c user) by done.
    all: destruct (decide (name = username user)) as [Hsame|Hnew];
      [ rewrite list_insert_id; [done|];
        unfold contest_names; by rewrite list_lookup_fmap, Hrow, Hsame
      | apply NoDup_list_insert; [done|];
        rewrite <-Hnames1, contest_names_users_of;
        by apply (other_has_false (username user)) ].
  - by rewrite (UserViewHandler_post_missing uid s Hfind).
Qed.

Lemma UserViewHandler_post_keeps_usernames_unique_witness :
  let s := user_site (user_request "Alan M. Turing" "ada") in
  bool_decide (unique_usernames (user_rows (registry s))) = true
  ∧ unique_usernames (user_rows (registry (execS (UserViewHandler_post 2) s)))
  ∧ contest_names (user_rows (registry (execS (UserViewHandler_post 2) s)))
    = [(1, "ada"); (1, "alan"); (2, "ada")].
Proof.
  split; [reflexivity|]. split; [|reflexivity].
  apply (@UserViewHandler_post_keeps_usernames_unique strip_blanks 2
           (user_site (user_request "Alan M. Turing" "ada"))).
  apply (bool_decide_unpack _). reflexivity.
Defined.

(** X23: the outcome of [UserViewHandler.post] on a user that exists, on a
    request that has not been answered yet.  The fields are the submitted
    values as the framework hands them over.  When another user of the
    same contest has the requested username, nothing is committed and no
    username, password, address or hidden flag changes: only the real name
    has been written on the user object; the handler notifies "Duplicate
    username" and redirects to the user's page.  Otherwise the user's row
    carries the form's fields (each one defaulting to its old value,
    [hidden] set when the field is present), every other row is as before,
    and the session commits once. *)
Theorem UserViewHandler_post_outcome `{!Strip} (uid : Z) (s : Site) (i : nat)
    (contest_id : Z) (user : User) :
  finished (self (world s)) = false →
  find_user uid (user_rows (registry s)) = Some (i, contest_id, user) →
  let post := UserViewHandler_post uid in
  let s' := execS post s in
  let w := world s in
  let args := arguments (request (self w)) in
  let rn := from_option strip (real_name user) (args !! "real_name") in
  let name := from_option strip (username user) (args !! "username") in
  let rows := user_rows (registry s) in
  let rows' := user_rows (registry s') in
  resultS post s = Ok tt
  ∧ (∀ j, j ≠ i → rows' !! j = rows !! j)
  ∧ responses (self (world s'))
    = responses (self w) ++ [Redirect ("/user/" +:+ pretty uid)]
  ∧ if other_has (username user) name (users_of contest_id rows) then
      rows' !! i
      = Some (contest_id,
              mkUser uid rn (username user) (password user) (ip user)
                     (hidden user))
      ∧ sql_session (world s') = sql_session w
      ∧ notifications (service (world s'))
        = notifications (service w)
          ++ [(PyInt (clock_seconds w), "Duplicate username",
               "The requested username already exists in the contest.")]
    else
      rows' !! i
      = Some (contest_id,
              mkUser uid rn name
                (from_option strip (password user) (args !! "password"))
                (from_option strip (ip user) (args !! "ip"))
                (bool_decide (is_Some (args !! "hidden"))))
      ∧ commits (sql_session (world s')) = S (commits (sql_session w))
      ∧ notifications (service (world s'))
        = notifications (service w)
          ++ [(PyInt (clock_seconds w), "User updated successfully.", "")].
Proof.
  intros Hfin Hfind post s' w args rn name rows rows'.
  subst post s' w args rn name rows rows'. unfold execS, resultS.
  rewrite (UserViewHandler_post_run uid s i contest_id user Hfind).
  apply find_user_lookup in Hfind as [Hrow Hid]. cbv zeta.
  rewrite Hfin, other_has_real_name.
  destruct s as [[srv ses h clk] ac nid pg rsub rtxt reg].
  cbn [world registry self request arguments user_rows] in *.
  destruct (other_has _ _ _);
    cbn [fst snd world registry user_rows set_user_rows self responses
         with_self with_service with_session push_response set_contest
         service sql_session notifications add_notification commits];
    (split; [done|]);
    (split; [intros j Hj; by rewrite ?list_lookup_alter_ne|]);
    (split; [done|]);
    (split; [rewrite list_lookup_alter_eq, Hrow; cbn; by rewrite Hid|]);
    (split; [done|]); reflexivity.
Qed.

Lemma UserViewHandler_post_outcome_witness :
  let s := user_site (user_request "Alan M. Turing" " ada") in
  let s' := execS (UserViewHandler_post 2) s in
  finished (self (world s)) = false
  ∧ find_user 2 (user_rows (registry s))
    = Some (1%nat, 1, mkUser 2 "Alan Turing" "alan" "pw2" "10.0.0.2" false)
  ∧ other_has "alan" "ada" (users_of 1 (user_rows (registry s))) = true
  ∧ user_rows (registry s') !! 1%nat
    = Some (1, mkUser 2 "Alan M. Turing" "alan" "pw2" "10.0.0.2" false)
  ∧ commits (sql_session (world s')) = commits (sql_session (world s)).
Proof.
  split; [reflexivity|]. split; [reflexivity|]. split; [reflexivity|].
  destruct (@UserViewHandler_post_outcome strip_blanks 2
              (user_site (user_request "Alan M. Turing" " ada"))
              1 1 (mkUser 2 "Alan Turing" "alan" "pw2" "10.0.0.2" false)
              eq_refl eq_refl) as (_ & _ & _ & Hcase).
  replace (other_has _ _ _) with true in Hcase by reflexivity.
  destruct Hcase as (Hrow & Hses & _).
  split; [exact Hrow|]. cbn zeta. by rewrite Hses.
Defined.

(** ** Attachments and managers *)

(** Unfolds the steps of the site monad. *)
Ltac site_unfold :=
  unfold execS, resultS, raiseS, passS, getsS, modify_registry,
    with_registry, add_file, kept_filename, set_attachment, set_manager,
    lift, mbind, PyS_bind, mret, PyS_ret in *.

(** X24: the whole attachment upload, on a request that has not been
    answered yet.  After [post] has handed the file to
    the store (tag: the file name; description: naming the task) and the
    channel reports success with the digest [data], the session has been
    given exactly one attachment, made of [data], the uploaded file's name
    and the task, and has committed once; the handler redirects to the
    task page and notifies nothing. *)
Theorem AddAttachmentHandler_upload (s : Site) (task_id : Z) (row : Task)
    (f : UploadedFile) (fs : list UploadedFile) (data plus : option string) :
  finished (self (world s)) = false →
  tasks (sql_session (world s)) !! task_id = Some row →
  files (request (self (world s))) !! "attachment" = Some (f :: fs) →
  accepts 1 (fs_replies (FS (service (world s)))) = true →
  let s1 := execS (AddAttachmentHandler_post task_id) s in
  let s2 := execS (AddAttachmentHandler_storage_callback data plus None) s1 in
  resultS (AddAttachmentHandler_post task_id) s = Ok tt
  ∧ fs_sent (FS (service (world s1)))
    = fs_sent (FS (service (world s)))
      ++ [mkPutFile (filename f) (body f)
                    ("Task attachment for " +:+ task_name row)]
  ∧ responses (self (world s1)) = responses (self (world s))
  ∧ resultS (AddAttachmentHandler_storage_callback data plus None) s1 = Ok tt
  ∧ added_files (registry s2)
    = added_files (registry s) ++ [Attachment data (filename f) task_id]
  ∧ commits (sql_session (world s2)) = S (commits (sql_session (world s)))
  ∧ responses (self (world s2))
    = responses (self (world s)) ++ [Redirect ("/task/" +:+ pretty task_id)]
  ∧ notifications (service (world s2)) = notifications (service (world s)).
Proof.
  intros Hfin Hrow Hfile Hacc.
  destruct s as [[[ns rs [replies sent]] ses h clk] ac nid pg rsub rtxt reg].
  unfold AddAttachmentHandler_post, AddAttachmentHandler_storage_callback.
  site_unfold. py_unfold. cbn in *.
  rewrite Hrow; cbn. rewrite Hrow; cbn. rewrite Hfile; cbn.
  destruct replies as [|[] replies]; cbn in *; try discriminate;
    rewrite Hrow; cbn; repeat (rewrite Hfin; cbn); done.
Qed.

Lemma AddAttachmentHandler_upload_witness :
  let s := files_site [] in
  let s1 := execS (AddAttachmentHandler_post 3) s in
  let s2 := execS (AddAttachmentHandler_storage_callback
                     (Some "a1b2") (Some "notes.txt") None) s1 in
  finished (self (world s)) = false
  ∧ accepts 1 (fs_replies (FS (service (world s)))) = true
  ∧ added_files (registry s2) = [Attachment (Some "a1b2") "notes.txt" 3].
Proof.
  split; [reflexivity|]. split; [reflexivity|].
  destruct (AddAttachmentHandler_upload (files_site []) 3 sample_task
              (mkUploadedFile "notes.txt" "Read me.") []
              (Some "a1b2") (Some "notes.txt") eq_refl eq_refl eq_refl eq_refl)
    as (_ & _ & _ & _ & Ha & _).
  exact Ha.
Defined.

(** X25: the whole manager upload, on a request that has not been answered
    yet, likewise: one store call tagged with the
    file name, then on success exactly one manager made of the digest, the
    uploaded file's name and the task, one commit and a redirect to the
    task page. *)
Theorem AddManagerHandler_upload (s : Site) (task_id : Z) (row : Task)
    (f : UploadedFile) (fs : list UploadedFile) (data plus : option string) :
  finished (self (world s)) = false →
  tasks (sql_session (world s)) !! task_id = Some row →
  files (request (self (world s))) !! "manager" = Some (f :: fs) →
  accepts 1 (fs_replies (FS (service (world s)))) = true →
  let s1 := execS (AddManagerHandler_post task_id) s in
  let s2 := execS (AddManagerHandler_storage_callback data plus None) s1 in
  resultS (AddManagerHandler_post task_id) s = Ok tt
  ∧ fs_sent (FS (service (world s1)))
    = fs_sent (FS (service (world s)))
      ++ [mkPutFile (filename f) (body f)
                    ("Task manager for " +:+ task_name row)]
  ∧ responses (self (world s1)) = responses (self (world s))
  ∧ resultS (AddManagerHandler_storage_callback data plus None) s1 = Ok tt
  ∧ added_files (registry s2)
    = added_files (registry s) ++ [Manager data (filename f) task_id]
  ∧ commits (sql_session (world s2)) = S (commits (sql_session (world s)))
  ∧ responses (self (world s2))
    = responses (self (world s)) ++ [Redirect ("/task/" +:+ pretty task_id)]
  ∧ notifications (service (world s2)) = notifications (service (world s)).
Proof.
  intros Hfin Hrow Hfile Hacc.
  destruct s as [[[ns rs [replies sent]] ses h clk] ac nid pg rsub rtxt reg].
  unfold AddManagerHandler_post, AddManagerHandler_storage_callback.
  site_unfold. py_unfold. cbn in *.
  rewrite Hrow; cbn. rewrite Hrow; cbn. rewrite Hfile; cbn.
  destruct replies as [|[] replies]; cbn in *; try discriminate;
    rewrite Hrow; cbn; repeat (rewrite Hfin; cbn); done.
Qed.

Lemma AddManagerHandler_upload_witness :
  let s := files_site [] in
  let s1 := execS (AddManagerHandler_post 3) s in
  let s2 := execS (AddManagerHandler_storage_callback
                     (Some "c3d4") (Some "checker.cpp") None) s1 in
  finished (self (world s)) = false
  ∧ accepts 1 (fs_replies (FS (service (world s)))) = true
  ∧ added_files (registry s2) = [Manager (Some "c3d4") "checker.cpp" 3].
Proof.
  split; [reflexivity|]. split; [reflexivity|].
  destruct (AddManagerHandler_upload (files_site []) 3 sample_task
              (mkUploadedFile "checker.cpp" "int main() {}") []
              (Some "c3d4") (Some "checker.cpp") eq_refl eq_refl eq_refl eq_refl)
    as (_ & _ & _ & _ & Ha & _).
  exact Ha.
Defined.

(** X26: a store call refused at issue time, for an attachment and for a
    manager, on a request that has not been answered yet.  [post] returns
    normally, nothing is handed to the session or
    the store, and the failure is notified with the float clock reading
    and the text "Connection failed."; the manager handler then redirects
    to the manager form, the attachment handler to the statement form. *)
Theorem file_upload_refused (s : Site) (task_id : Z) (row : Task)
    (fa fm : UploadedFile) (fas fms : list UploadedFile) (replies : list bool) :
  finished (self (world s)) = false →
  tasks (sql_session (world s)) !! task_id = Some row →
  files (request (self (world s))) !! "attachment" = Some (fa :: fas) →
  files (request (self (world s))) !! "manager" = Some (fm :: fms) →
  fs_replies (FS (service (world s))) = false :: replies →
  let w := world s in
  let sa := execS (AddAttachmentHandler_post task_id) s in
  let sm := execS (AddManagerHandler_post task_id) s in
  resultS (AddAttachmentHandler_post task_id) s = Ok tt
  ∧ resultS (AddManagerHandler_post task_id) s = Ok tt
  ∧ notifications (service (world sa))
    = notifications (service w)
      ++ [(PyFloat (Finite (clock w)), "Attachment storage failed",
           "Connection failed.")]
  ∧ notifications (service (world sm))
    = notifications (service w)
      ++ [(PyFloat (Finite (clock w)), "Manager storage failed",
           "Connection failed.")]
  ∧ responses (self (world sa))
    = responses (self w) ++ [Redirect ("/add_statement/" +:+ pretty task_id)]
  ∧ responses (self (world sm))
    = responses (self w) ++ [Redirect ("/add_manager/" +:+ pretty task_id)]
  ∧ added_files (registry sa) = added_files (registry s)
  ∧ added_files (registry sm) = added_files (registry s)
  ∧ fs_sent (FS (service (world sa))) = fs_sent (FS (service w))
  ∧ fs_sent (FS (service (world sm))) = fs_sent (FS (service w))
  ∧ sql_session (world sa) = sql_session w
  ∧ sql_session (world sm) = sql_session w.
Proof.
  intros Hfin Hrow Hfa Hfm Hfs.
  destruct s as [[[ns rs [rp sent]] ses h clk] ac nid pg rsub rtxt reg].
  unfold AddAttachmentHandler_post, AddAttachmentHandler_storage_callback,
    AddManagerHandler_post, AddManagerHandler_storage_callback.
  site_unfold. py_unfold. cbn in *.
  rewrite Hrow; cbn. rewrite Hrow; cbn. rewrite Hfa, Hfm; cbn.
  subst rp; cbn. rewrite Hrow; cbn. repeat (rewrite Hfin; cbn). done.
Qed.

Lemma file_upload_refused_witness :
  let s := files_site [false] in
  finished (self (world s)) = false
  ∧ fs_replies (FS (service (world s))) = [false]
  ∧ responses (self (world (execS (AddAttachmentHandler_post 3) s)))
    = [Redirect "/add_statement/3"]
  ∧ responses (self (world (execS (AddManagerHandler_post 3) s)))
    = [Redirect "/add_manager/3"].
Proof.
  split; [reflexivity|]. split; [reflexivity|].
  destruct (file_upload_refused (files_site [false]) 3 sample_task
              (mkUploadedFile "notes.txt" "Read me.")
              (mkUploadedFile "checker.cpp" "int main() {}") [] [] []
              eq_refl eq_refl eq_refl eq_refl eq_refl)
    as (_ & _ & _ & _ & Ha & Hm & _).
  split; [exact Ha | exact Hm].
Defined.

(** X27: [AddUserHandler.post] for a contest that does not exist raises
    [HTTPError(404)] from [retrieve_contest] before it reads the form: the
    user table, the queue, the session and the response are as they
    were. *)
Theorem AddUserHandler_post_unknown_contest `{!Strip} (contest_id : Z)
    (s : Site) :
  contest_id ∉ contest_ids (registry s) →
  let s' := execS (AddUserHandler_post contest_id) s in
  resultS (AddUserHandler_post contest_id) s = Raise (HTTPError 404)
  ∧ registry s' = registry s
  ∧ service (world s') = service (world s)
  ∧ sql_session (world s') = sql_session (world s)
  ∧ responses (self (world s')) = responses (self (world s)).
Proof. apply AddUserHandler_post_missing. Qed.

Lemma AddUserHandler_post_unknown_contest_witness :
  let s := user_site (user_request "Grace Hopper" "grace") in
  bool_decide (5 ∈ contest_ids (registry s)) = false
  ∧ resultS (AddUserHandler_post 5) s = Raise (HTTPError 404).
Proof.
  split; [reflexivity|].
  apply (@AddUserHandler_post_unknown_contest strip_blanks 5
           (user_site (user_request "Grace Hopper" "grace"))).
  apply (bool_decide_eq_false_1 _). reflexivity.
Defined.

(** ** One store call refused at issue time *)

(** [AddStatementHandler.post] up to the store call, when the call is
    refused: what remains is the callback's error branch. *)
Lemma AddStatementHandler_post_refused (w : World) (task_id : Z) (row : Task)
    (f : UploadedFile) (fs : list UploadedFile) (rest : list bool) :
  tasks (sql_session w) !! task_id = Some row →
  files (request (self w)) !! "statement" = Some (f :: fs) →
  endswith (filename f) ".pdf" = true →
  fs_replies (FS (service w)) = false :: rest →
  AddStatementHandler_post task_id w
  = AddStatementHandler_storage_callback None None (Some "Connection failed.")
      (with_service (set_FS (mkFileStorage rest (fs_sent (FS (service w)))))
         (with_self (λ h, set_statement (Some f)
                            (set_contest (Some (task_contest row))
                               (set_task (Some task_id) h))) w)).
Proof.
  intros Hrow Hfile Hpdf Hfs.
  destruct w as [[ns rs [replies sent]] ses h clk].
  unfold AddStatementHandler_post.
  unfold AddStatementHandler_storage_callback at 1.
  unfold self_task, request_file, Task_get_from_id, put_file, pass, raise,
    gets, modify, mbind, mret, Py_bind, Py_ret, with_self, with_service,
    set_FS; cbn in *.
  rewrite Hrow; cbn. rewrite Hrow; cbn. rewrite Hfile; cbn.
  rewrite Hpdf; cbn. rewrite Hfs; cbn. done.
Qed.

Lemma AddStatementHandler_failure (w : World) (data plus : option string)
    (err : string) (t : Z) (row : Task) :
  finished (self w) = false →
  task (self w) = Some t →
  tasks (sql_session w) !! t = Some row →
  let w' := exec (AddStatementHandler_storage_callback data plus (Some err)) w in
  result (AddStatementHandler_storage_callback data plus (Some err)) w = Ok tt
  ∧ notifications (service w')
    = notifications (service w)
      ++ [(PyFloat (Finite (clock w)), "Task statement storage failed", err)]
  ∧ responses (self w')
    = responses (self w) ++ [Redirect ("/add_statement/" +:+ pretty t)]
  ∧ sql_session w' = sql_session w
  ∧ FS (service w') = FS (service w).
Proof.
  intros Hfin Ht Hrow. destruct w as [srv ses h clk]. py_unfold; cbn in *.
  rewrite Ht; cbn. rewrite Hrow; cbn. rewrite Hfin; cbn. done.
Qed.

(** [AddTestcaseHandler.post] with one of its two store calls refused. *)
Lemma AddTestcaseHandler_post_refused `{!Strip} (w : World) (task_id : Z)
    (row : Task) (fi fo : UploadedFile) (fis fos : list UploadedFile) :
  finished (self w) = false →
  tasks (sql_session w) !! task_id = Some row →
  files (request (self w)) !! "input" = Some (fi :: fis) →
  files (request (self w)) !! "output" = Some (fo :: fos) →
  refused 2 (fs_replies (FS (service w))) = 1%nat →
  let w' := exec (AddTestcaseHandler_post task_id) w in
  result (AddTestcaseHandler_post task_id) w = Ok tt
  ∧ notifications (service w')
    = notifications (service w)
      ++ [(PyFloat (Finite (clock w)), "Testcase storage failed", "Connection failed.")]
  ∧ responses (self w')
    = responses (self w) ++ [Redirect ("/add_testcase/" +:+ pretty task_id)]
  ∧ sql_session w' = sql_session w
  ∧ length (fs_sent (FS (service w')))
    = S (length (fs_sent (FS (service w)))).
Proof.
  intros Hfin Hrow Hin Hout Href.
  destruct w as [[ns rs [replies sent]] ses h clk].
  unfold AddTestcaseHandler_post. py_unfold; cbn in *.
  rewrite Hrow; cbn. rewrite Hrow; cbn. rewrite Hin; cbn. rewrite Hout; cbn.
  destruct replies as [|[] [|[] replies]]; cbn in *; try discriminate;
    rewrite ?Hrow; cbn; repeat (rewrite Hfin; cbn);
    rewrite ?length_app; cbn; repeat split; try done; lia.
Qed.

(** X28: a single store call refused at issue time ([put_file] returns
    [False]), on a request that has not been answered yet, is reported
    through the completion callback: [AddStatementHandler.post] is then
    the callback's error branch run with the error "Connection failed.",
    and it returns normally having notified the failure and redirected
    back to the form, with nothing sent and nothing persisted;
    [AddTestcaseHandler.post] with one of its two calls refused returns
    normally with one notification and one redirect, the other call
    having been sent.  The error branch looks neither at [data] nor at
    [plus], so it is the path an asynchronous failure takes. *)
Theorem refused_store_call_reported `{!Strip} :
  (∀ (w : World) (task_id : Z) (row : Task) (f : UploadedFile)
     (fs : list UploadedFile) (rest : list bool),
      finished (self w) = false →
      tasks (sql_session w) !! task_id = Some row →
      files (request (self w)) !! "statement" = Some (f :: fs) →
      endswith (filename f) ".pdf" = true →
      fs_replies (FS (service w)) = false :: rest →
      let w' := exec (AddStatementHandler_post task_id) w in
      (∃ w_issue,
          AddStatementHandler_post task_id w
          = AddStatementHandler_storage_callback None None
              (Some "Connection failed.") w_issue)
      ∧ result (AddStatementHandler_post task_id) w = Ok tt
      ∧ notifications (service w')
        = notifications (service w)
          ++ [(PyFloat (Finite (clock w)), "Task statement storage failed",
               "Connection failed.")]
      ∧ responses (self w')
        = responses (self w) ++ [Redirect ("/add_statement/" +:+ pretty task_id)]
      ∧ sql_session w' = sql_session w
      ∧ fs_sent (FS (service w')) = fs_sent (FS (service w)))
  ∧ (∀ (w : World) (task_id : Z) (row : Task) (fi fo : UploadedFile)
       (fis fos : list UploadedFile),
      finished (self w) = false →
      tasks (sql_session w) !! task_id = Some row →
      files (request (self w)) !! "input" = Some (fi :: fis) →
      files (request (self w)) !! "output" = Some (fo :: fos) →
      refused 2 (fs_replies (FS (service w))) = 1%nat →
      let w' := exec (AddTestcaseHandler_post task_id) w in
      result (AddTestcaseHandler_post task_id) w = Ok tt
      ∧ notifications (service w')
        = notifications (service w)
          ++ [(PyFloat (Finite (clock w)), "Testcase storage failed",
               "Connection failed.")]
      ∧ responses (self w')
        = responses (self w) ++ [Redirect ("/add_testcase/" +:+ pretty task_id)]
      ∧ sql_session w' = sql_session w
      ∧ length (fs_sent (FS (service w')))
        = S (length (fs_sent (FS (service w)))))
  ∧ (∀ (data plus : option string) (tag err : string),
      AddTestcaseHandler_storage_callback None None (Some err)
      = AddTestcaseHandler_storage_callback data plus (Some err)
      ∧ AddTestcaseHandler_storage_callback None None (Some err)
        = deliver (reportFailure tag err)
      ∧ AddStatementHandler_storage_callback None None (Some err)
        = AddStatementHandler_storage_callback data plus (Some err)).
Proof.
  split; [|split].
  - intros w task_id row f fs rest Hfin Hrow Hfile Hpdf Hfs w'.
    pose proof (AddStatementHandler_post_refused w task_id row f fs rest
                  Hrow Hfile Hpdf Hfs) as Heq.
    split; [eauto|].
    subst w'. unfold exec, result. rewrite Heq.
    match goal with
    | |- context [AddStatementHandler_storage_callback _ _ _ ?wi] =>
        destruct (AddStatementHandler_failure wi None None
                    "Connection failed." task_id row)
          as (Hr & Hn & Hrs & Hs & Hf);
        [by destruct w | by destruct w | by destruct w |]
    end.
    unfold exec, result in Hr, Hn, Hrs, Hs, Hf.
    rewrite Hr, Hn, Hrs, Hs, Hf. by destruct w.
  - intros w task_id row fi fo fis fos Hfin Hrow Hin Hout Href w'.
    by apply (AddTestcaseHandler_post_refused w task_id row fi fo fis fos).
  - done.
Qed.

Lemma refused_store_call_reported_witness :
  let w := sample_world [false] in
  finished (self w) = false
  ∧ fs_replies (FS (service w)) = [false]
  ∧ refused 2 (fs_replies (FS (service w))) = 1%nat
  ∧ notifications (service (exec (AddStatementHandler_post 3) w))
    = [(PyFloat (Finite (clock w)), "Task statement storage failed", "Connection failed.")]
  ∧ notifications (service (exec (AddTestcaseHandler_post 3) w))
    = [(PyFloat (Finite (clock w)), "Testcase storage failed", "Connection failed.")].
Proof.
  destruct (@refused_store_call_reported strip_blanks) as (Hst & Htc & _).
  split; [reflexivity|]. split; [reflexivity|]. split; [reflexivity|]. split.
  - apply (Hst (sample_world [false]) 3 sample_task
             (mkUploadedFile "sum.pdf" "%PDF-1.4") [] []); reflexivity.
  - apply (Htc (sample_world [false]) 3 sample_task
             (mkUploadedFile "sum.in" "1 2") (mkUploadedFile "sum.out" "3")
             [] []); reflexivity.
Defined.
